(** * ai-translator: a shallow embedding of [app.py]

    The service is one Flask script: an upload handler ([translate]), a
    text extractor keyed on the file suffix ([extract_text]), one call to
    a chat model ([translate_text]) and an output step ([TranslatedPDF],
    [create_text_file]).

    Python values are modelled as follows.
    - A [str] is a list of Unicode code points ([list Z]); a [bytes] value
      or a file's content is a list of octets ([list Z]).
    - The file system is a finite map from paths to contents.
    - A function that can raise returns a [result]; code that also touches
      the file system, the log or the chat history runs in the state and
      exception monad [M].
    - Everything that lives outside the script (werkzeug, PyMuPDF,
      reportlab, textwrap, the Vertex AI client, the operating system's
      refusal to open a file) is a field of the record [Env].

    The host is taken to be POSIX ([os.linesep] is a line feed, so a
    text-mode write translates nothing), and the working directory is the
    application root, so that [open] and [send_file] resolve the relative
    output names to the same file. Requests are handled one after the
    other and carry no conditional or range header, so that [send_file]
    answers with the whole file as it is when the handler returns. *)

From Stdlib Require Import ZArith Lia String Ascii.
From stdpp Require Import base option list gmap strings.

Local Open Scope Z_scope.

(** ** Python strings and bytes *)

Abbreviation pystr := (list Z).
Abbreviation bytes := (list Z).

(** A Rocq string literal read as a Python [str] (one code point per
    character of the literal). *)
Definition str (s : string) : pystr :=
  map (fun a => Z.of_N (N_of_ascii a)) (list_ascii_of_string s).

Definition LF : Z := 10.
Definition CR : Z := 13.

(** [s.endswith(suffix)]. *)
Definition endswith (s suffix : pystr) : bool :=
  bool_decide (drop (length s - length suffix)%nat s = suffix).

(** [s.startswith(prefix)]. *)
Definition startswith (s prefix : pystr) : bool :=
  bool_decide (take (length prefix) s = prefix).

(** [s.split(sep)] for a one-character separator: always at least one
    piece, empty pieces are kept. *)
Fixpoint split_on (sep : Z) (s : pystr) : list pystr :=
  match s with
  | [] => [[]]
  | c :: s' =>
      if c =? sep then [] :: split_on sep s'
      else match split_on sep s' with
           | [] => [[c]]
           | p :: ps => (c :: p) :: ps
           end
  end.

(** [sep.join(parts)]. *)
Fixpoint join (sep : pystr) (parts : list pystr) : pystr :=
  match parts with
  | [] => []
  | [p] => p
  | p :: ps => p ++ sep ++ join sep ps
  end.

(** [str.isspace] on one character: the code points Python's [strip]
    removes. *)
Definition py_isspace (c : Z) : bool :=
  ((9 <=? c) && (c <=? 13)) || ((28 <=? c) && (c <=? 32))
  || (c =? 0x85) || (c =? 0xA0) || (c =? 0x1680)
  || ((0x2000 <=? c) && (c <=? 0x200A))
  || (c =? 0x2028) || (c =? 0x2029) || (c =? 0x202F) || (c =? 0x205F)
  || (c =? 0x3000).

Fixpoint lstrip (s : pystr) : pystr :=
  match s with
  | [] => []
  | c :: s' => if py_isspace c then lstrip s' else s
  end.

(** [s.strip()]. *)
Definition strip (s : pystr) : pystr := rev (lstrip (rev (lstrip s))).

(** Truth value of a [str]: non-empty. *)
Definition truthy (s : pystr) : bool :=
  match s with [] => false | _ => true end.

(** ** The UTF-8 codec ([encoding='utf-8'], strict error handling) *)

Definition is_surrogate (c : Z) : bool := (0xD800 <=? c) && (c <=? 0xDFFF).

(** A code point that the strict encoder accepts. *)
Definition is_scalar (c : Z) : bool :=
  (0 <=? c) && (c <? 0x110000) && negb (is_surrogate c).

Definition utf8_encode_char (c : Z) : option bytes :=
  if c <? 0 then None
  else if c <? 0x80 then Some [c]
  else if c <? 0x800 then Some [0xC0 + c / 64; 0x80 + c mod 64]
  else if c <? 0x10000 then
    if is_surrogate c then None
    else Some [0xE0 + c / 4096; 0x80 + (c / 64) mod 64; 0x80 + c mod 64]
  else if c <? 0x110000 then
    Some [0xF0 + c / 262144; 0x80 + (c / 4096) mod 64;
          0x80 + (c / 64) mod 64; 0x80 + c mod 64]
  else None.

(** [s.encode('utf-8')]; [None] stands for [UnicodeEncodeError]. *)
Fixpoint utf8_encode (s : pystr) : option bytes :=
  match s with
  | [] => Some []
  | c :: s' =>
      match utf8_encode_char c, utf8_encode s' with
      | Some b, Some bs => Some (b ++ bs)
      | _, _ => None
      end
  end.

Definition is_cont (b : Z) : bool := (0x80 <=? b) && (b <=? 0xBF).

(** [b.decode('utf-8')]; [None] stands for [UnicodeDecodeError]. Overlong
    forms, encoded surrogates and values above U+10FFFF are rejected. *)
Fixpoint utf8_decode (bs : bytes) : option pystr :=
  match bs with
  | [] => Some []
  | b0 :: r0 =>
      if (0 <=? b0) && (b0 <? 0x80) then cons b0 <$> utf8_decode r0
      else if (0xC2 <=? b0) && (b0 <? 0xE0) then
        match r0 with
        | b1 :: r1 =>
            if is_cont b1
            then cons ((b0 - 0xC0) * 64 + (b1 - 0x80)) <$> utf8_decode r1
            else None
        | _ => None
        end
      else if (0xE0 <=? b0) && (b0 <? 0xF0) then
        match r0 with
        | b1 :: b2 :: r2 =>
            let c := (b0 - 0xE0) * 4096 + (b1 - 0x80) * 64 + (b2 - 0x80) in
            if is_cont b1 && is_cont b2 && (0x800 <=? c)
               && negb (is_surrogate c)
            then cons c <$> utf8_decode r2
            else None
        | _ => None
        end
      else if (0xF0 <=? b0) && (b0 <? 0xF5) then
        match r0 with
        | b1 :: b2 :: b3 :: r3 =>
            let c := (b0 - 0xF0) * 262144 + (b1 - 0x80) * 4096
                     + (b2 - 0x80) * 64 + (b3 - 0x80) in
            if is_cont b1 && is_cont b2 && is_cont b3
               && (0x10000 <=? c) && (c <? 0x110000)
            then cons c <$> utf8_decode r3
            else None
        | _ => None
        end
      else None
  end.

(** Reading in text mode with the default [newline=None]: every CR LF
    pair and every lone CR becomes one LF. *)
Fixpoint universal_newlines (s : pystr) : pystr :=
  match s with
  | [] => []
  | c :: s' =>
      if c =? CR then
        match s' with
        | d :: s'' =>
            if d =? LF then LF :: universal_newlines s''
            else LF :: universal_newlines s'
        | [] => [LF]
        end
      else c :: universal_newlines s'
  end.

(** ** Exceptions and results *)

Inductive library := Werkzeug | PyMuPDF | ReportLab | VertexAI.

(** The exceptions the script can meet, all of them subclasses of
    [Exception] (what [except Exception] catches). [ValueError] and
    [RuntimeError] are the two it raises itself; the [OSError] family and
    the two Unicode errors come from [open], [read] and [write]; whatever
    an external library raises is a [LibraryError] tagged with its
    origin. *)
Inductive exn :=
  | ValueError (msg : pystr)
  | RuntimeError (msg : pystr)
  | OSError (msg : pystr)
  | FileNotFoundError (path : pystr)
  | UnicodeEncodeError
  | UnicodeDecodeError
  | LibraryError (lib : library) (msg : pystr).

(** [str(e)], as interpolated by the f-strings of the script. The texts of
    the built-in errors are abbreviated. *)
Definition exn_str (e : exn) : pystr :=
  match e with
  | ValueError msg | RuntimeError msg | OSError msg => msg
  | FileNotFoundError path =>
      str "[Errno 2] No such file or directory: '" ++ path ++ str "'"
  | UnicodeEncodeError => str "'utf-8' codec can't encode characters"
  | UnicodeDecodeError => str "'utf-8' codec can't decode bytes"
  | LibraryError _ msg => msg
  end.

Inductive result (A : Type) :=
  | Ok (a : A)
  | Raise (e : exn).
Arguments Ok {A} a.
Arguments Raise {A} e.

(** What a call into an external library does: it delivers a value or it
    fails with a message. *)
Inductive outcome (A : Type) :=
  | Done (a : A)
  | Failed (msg : pystr).
Arguments Done {A} a.
Arguments Failed {A} msg.

(** ** The state and exception monad

    Effects made before an exception is raised persist, as in Python. *)

Definition M (S A : Type) : Type := S -> result A * S.

Definition ret {S A} (a : A) : M S A := fun s => (Ok a, s).

Definition raise {S A} (e : exn) : M S A := fun s => (Raise e, s).

Definition bind {S A B} (c : M S A) (k : A -> M S B) : M S B :=
  fun s =>
    match c s with
    | (Ok a, s') => k a s'
    | (Raise e, s') => (Raise e, s')
    end.

(** [try: body except Exception as e: handler e]. *)
Definition try_except {S A} (body : M S A) (handler : exn -> M S A) : M S A :=
  fun s =>
    match body s with
    | (Ok a, s') => (Ok a, s')
    | (Raise e, s') => handler e s'
    end.

Definition lift_outcome {S A} (lib : library) (o : outcome A) : M S A :=
  match o with
  | Done a => ret a
  | Failed msg => raise (LibraryError lib msg)
  end.

Declare Scope py_scope.
Delimit Scope py_scope with py.
Notation "'let!' x := c 'in' k" := (bind c (fun x => k))
  (at level 10, x name, c at level 100, k at level 200) : py_scope.
Notation "'run!' c 'in' k" := (bind c (fun _ => k))
  (at level 10, c at level 100, k at level 200) : py_scope.
Local Open Scope py_scope.

(** [for x in l: f x]. *)
Fixpoint for_each {S A} (f : A -> M S unit) (l : list A) : M S unit :=
  match l with
  | [] => ret tt
  | x :: l' => run! f x in for_each f l'
  end.

(** ** The world outside the script *)

(** Document objects of reportlab, as far as the script builds them. *)
Record ParagraphStyle := {
  style_name : string;
  style_parent : string;
  fontSize : Z;
  spaceAfter : Z;
  wordWrap : string
}.

Inductive flowable :=
  | ParagraphFlowable (text : pystr) (style : ParagraphStyle)
  | Spacer (width height : Z).

Record SimpleDocTemplate := {
  doc_filename : pystr;
  pagesize : Z * Z;
  rightMargin : Z;
  leftMargin : Z;
  topMargin : Z;
  bottomMargin : Z
}.

Inductive canvas_op :=
  | setFont (name : string) (size : Z)
  | drawString (x y : Z) (text : pystr).

Inductive ChatSession := ChatHandle.

(** The response of the model, as far as the script looks at it, which is
    its [.text]: a response with one text part has a text; for any other
    response (no candidate, no part, several parts) reading [.text]
    raises an error of the library with the message [why]. *)
Inductive GenerationResponse :=
  | TextResponse (text : pystr)
  | NoTextResponse (why : pystr).

(** One exchange of the shared conversation: the prompt sent and the
    response received. *)
Definition turn : Type := pystr * GenerationResponse.

(** The parts of the environment the script calls into. *)
Record Env := {
  (** [vertexai.init] followed by [GenerativeModel(..).start_chat(..)] *)
  vertex_start : outcome ChatSession;
  (** [chat.send_message(prompt)], which sees the conversation so far *)
  send_message : list turn -> pystr -> outcome GenerationResponse;
  (** [werkzeug.utils.secure_filename] *)
  secure_filename : pystr -> pystr;
  (** the operating system refuses to open this path for writing *)
  open_w_error : pystr -> option pystr;
  (** [fitz.open] on the file's content, then [get_text] of every page *)
  fitz_pages : bytes -> outcome (list pystr);
  (** reportlab's markup parser rejects the text of a [Paragraph] *)
  paragraph_error : pystr -> option pystr;
  (** [textwrap.wrap(text, width=..)] *)
  textwrap_wrap : pystr -> Z -> list pystr;
  (** the layout done by [SimpleDocTemplate.build], up to the PDF bytes *)
  doc_render : SimpleDocTemplate -> list flowable -> outcome bytes;
  (** the drawing done by [canvas.Canvas], up to the PDF bytes *)
  canvas_render : Z * Z -> list canvas_op -> outcome bytes
}.

(** What a request can change: files on disk, the conversation shared by
    the whole process, and the log. *)
Record world := World {
  fs : gmap (list Z) (list Z);
  history : list turn;
  log : list pystr
}.

Definition set_fs (f : gmap (list Z) (list Z)) (w : world) : world :=
  World f (history w) (log w).

Definition log_append (msg : pystr) (w : world) : world :=
  World (fs w) (history w) (log w ++ [msg]).

(** [logging.error(msg)]. *)
Definition logging_error (msg : pystr) : M world unit :=
  fun w => (Ok tt, log_append msg w).

(** Opening [path] for writing and storing [content] in it. *)
Definition write_file (env : Env) (path : pystr) (content : bytes) : M world unit :=
  fun w =>
    match open_w_error env path with
    | Some msg => (Raise (OSError msg), w)
    | None => (Ok tt, set_fs (<[path := content]> (fs w)) w)
    end.

(** [with open(path, 'w', encoding='utf-8') as f: f.write(text)]. Opening
    truncates the file; a text that cannot be encoded leaves it empty. *)
Definition write_text (env : Env) (path : pystr) (text : pystr) : M world unit :=
  match utf8_encode text with
  | Some b => write_file env path b
  | None => run! write_file env path [] in raise UnicodeEncodeError
  end.

(** [with open(path, 'r', encoding='utf-8') as f: return f.read()]. *)
Definition read_text (path : pystr) : M world pystr :=
  fun w =>
    match fs w !! path with
    | None => (Raise (FileNotFoundError path), w)
    | Some b =>
        match utf8_decode b with
        | None => (Raise UnicodeDecodeError, w)
        | Some s => (Ok (universal_newlines s), w)
        end
    end.

(** ** HTTP values *)

Record FileStorage := {
  upload_filename : pystr;
  upload_stream : bytes
}.

(** [request.files] and [request.form] are multi-dicts: a lookup by key
    gives the first value stored under it. *)
Record request := {
  files : list (pystr * FileStorage);
  form : list (pystr * pystr)
}.

Fixpoint multidict_get {V} (key : pystr) (d : list (pystr * V)) : option V :=
  match d with
  | [] => None
  | (k, v) :: d' => if bool_decide (k = key) then Some v else multidict_get key d'
  end.

(** A view returns either a body with a status, or the file made by
    [send_file(.., as_attachment=True, download_name=..)] (status 200). *)
Inductive response :=
  | Text (body : pystr) (status : Z)
  | Attachment (download_name : pystr) (body : bytes).

Definition status_of (r : response) : Z :=
  match r with
  | Text _ status => status
  | Attachment _ _ => 200
  end.

(** A header value is refused when it holds a carriage return or a line
    feed. *)
Definition header_value_ok (value : pystr) : bool :=
  forallb (fun c => negb ((c =? CR) || (c =? LF))) value.

Definition header_newline_error : pystr :=
  str "Header values must not contain newline characters.".

(** What [send_file] finds wrong with a download name, if anything. A
    name outside ASCII is percent-encoded from its UTF-8 form, which a
    name with a lone surrogate does not have; the name then goes into
    the [Content-Disposition] header, which refuses a line break. *)
Definition download_name_error (name : pystr) : option exn :=
  match utf8_encode name with
  | None => Some UnicodeEncodeError
  | Some _ =>
      if header_value_ok name then None
      else Some (ValueError header_newline_error)
  end.

(** [send_file(path, as_attachment=True, download_name=..)]: the file is
    looked up first, then the headers are made from the download name. *)
Definition send_file (path download_name : pystr) : M world response :=
  fun w =>
    match fs w !! path with
    | None => (Raise (FileNotFoundError path), w)
    | Some b =>
        match download_name_error download_name with
        | None => (Ok (Attachment download_name b), w)
        | Some e => (Raise e, w)
        end
    end.

(** ** The script *)

Definition UPLOAD_FOLDER : pystr := str "uploads".

(** [os.path.join(a, b)] on POSIX. *)
Definition os_path_join (a b : pystr) : pystr :=
  if startswith b (str "/") then b
  else if endswith a (str "/") || negb (truthy a) then a ++ b
  else a ++ str "/" ++ b.

Definition letter : Z * Z := (612, 792).

(** *** [class TranslatedPDF] *)

Record TranslatedPDF := {
  filename : pystr;
  doc : SimpleDocTemplate;
  normal_style : ParagraphStyle;
  story : list flowable
}.

Definition set_story (self : TranslatedPDF) (s : list flowable) : TranslatedPDF :=
  {| filename := filename self; doc := doc self;
     normal_style := normal_style self; story := s |}.

(** [TranslatedPDF.__init__]. *)
Definition TranslatedPDF_init (filename : pystr) : TranslatedPDF :=
  {| filename := filename;
     doc := {| doc_filename := filename; pagesize := letter;
               rightMargin := 72; leftMargin := 72;
               topMargin := 72; bottomMargin := 18 |};
     normal_style := {| style_name := "CustomNormal"; style_parent := "Normal";
                        fontSize := 11; spaceAfter := 12; wordWrap := "LTR" |};
     story := [] |}.

(** The constructor [Paragraph(text, style)]: it parses [text] as markup
    and raises when the parser rejects it. *)
Definition Paragraph {S} (env : Env) (text : pystr) (style : ParagraphStyle)
  : M S flowable :=
  match paragraph_error env text with
  | Some msg => raise (LibraryError ReportLab msg)
  | None => ret (ParagraphFlowable text style)
  end.

(** [self.story.append(p)]. *)
Definition story_append (p : flowable) : M (list flowable) unit :=
  fun story => (Ok tt, story ++ [p]).

(** The body of [for para in paragraphs], run on [self.story]. *)
Definition add_paragraph (env : Env) (style : ParagraphStyle) (para : pystr)
  : M (list flowable) unit :=
  if truthy (strip para) then
    if 100 <? Z.of_nat (length para) then
      let wrapped_lines := textwrap_wrap env para 80 in
      for_each (fun line =>
                  let! p := Paragraph env line style in
                  story_append p)
               wrapped_lines
    else
      let! p := Paragraph env para style in
      story_append p
  else
    story_append (Spacer 1 6).

Definition fallback_text : pystr :=
  str "Translation completed. Text encoding issues prevented proper formatting.".

(** [TranslatedPDF.add_text_block]. The [try] body runs on the story and
    keeps what it appended before it raised; the [except] clause logs and
    appends one more paragraph, outside any [try]. *)
Definition add_text_block (env : Env) (self : TranslatedPDF) (text : pystr)
  : M world TranslatedPDF :=
  let paragraphs := split_on LF text in
  match for_each (add_paragraph env (normal_style self)) paragraphs (story self) with
  | (Ok _, story') => ret (set_story self story')
  | (Raise e, story') =>
      run! logging_error (str "Error adding text block: " ++ exn_str e) in
      let! p := Paragraph env fallback_text (normal_style self) in
      ret (set_story self (story' ++ [p]))
  end.

(** [self.doc.build(self.story)]: lay the story out, then write the file. *)
Definition doc_build (env : Env) (d : SimpleDocTemplate) (s : list flowable)
  : M world unit :=
  let! pdf := lift_outcome ReportLab (doc_render env d s) in
  write_file env (doc_filename d) pdf.

Definition fallback_drawing : list canvas_op :=
  let height := snd letter in
  [ setFont "Helvetica-Bold" 16;
    drawString 72 (height - 72) (str "Translation Complete");
    setFont "Helvetica" 12;
    drawString 72 (height - 120) (str "The translation was completed successfully.");
    drawString 72 (height - 140)
      (str "Due to character encoding limitations, the full text");
    drawString 72 (height - 160) (str "could not be displayed in this PDF format.");
    drawString 72 (height - 180)
      (str "Please try downloading as a text file instead.") ].

(** The [try] body of [_create_fallback_pdf]: draw the notice on a fresh
    canvas and save it under the same file name. *)
Definition draw_fallback_pdf (env : Env) (self : TranslatedPDF) : M world unit :=
  let! pdf := lift_outcome ReportLab (canvas_render env letter fallback_drawing) in
  write_file env (filename self) pdf.

(** [TranslatedPDF._create_fallback_pdf]. *)
Definition _create_fallback_pdf (env : Env) (self : TranslatedPDF) : M world unit :=
  try_except
    (draw_fallback_pdf env self)
    (fun e => logging_error (str "Error creating fallback PDF: " ++ exn_str e)).

(** [TranslatedPDF.save]. *)
Definition save (env : Env) (self : TranslatedPDF) : M world unit :=
  try_except
    (doc_build env (doc self) (story self))
    (fun e =>
       run! logging_error (str "Error saving PDF: " ++ exn_str e) in
       _create_fallback_pdf env self).

(** *** [create_text_file] *)

Definition create_text_file (env : Env) (text filename : pystr) : M world bool :=
  try_except
    (run! write_text env filename text in ret true)
    (fun e =>
       run! logging_error (str "Error creating text file: " ++ exn_str e) in
       ret false).

(** *** Vertex AI setup *)

Definition initialize_vertex_ai (env : Env) : option ChatSession :=
  match vertex_start env with
  | Done c => Some c
  | Failed _ => None
  end.

(** The module-level [chat = initialize_vertex_ai()]. *)
Definition chat (env : Env) : option ChatSession := initialize_vertex_ai env.

(** *** [extract_text] *)

Definition extract_text (env : Env) (file_path : pystr) : M world pystr :=
  if endswith file_path (str ".txt") then
    read_text file_path
  else if endswith file_path (str ".pdf") then
    fun w =>
      match fs w !! file_path with
      | None =>
          (Raise (LibraryError PyMuPDF (str "no such file: '" ++ file_path ++ str "'")), w)
      | Some b =>
          (let! pages := lift_outcome PyMuPDF (fitz_pages env b) in
           ret (join [LF] pages)) w
      end
  else
    raise (ValueError (str "Unsupported file type")).

(** *** [translate_text] *)

Definition prompt_of (text target_language : pystr) : pystr :=
  [LF]
  ++ str "    Detect the language of the following content and translate it into "
  ++ target_language ++ str "." ++ [LF]
  ++ str "    Only return the translated version without commentary." ++ [LF]
  ++ str "        " ++ [LF]
  ++ str "    ```" ++ [LF]
  ++ str "    " ++ text ++ [LF]
  ++ str "    ```" ++ [LF]
  ++ str "    ".

(** [chat.send_message(prompt)]: a response that the session accepts
    joins the shared history together with its prompt; a call that raises
    leaves the history as it was. *)
Definition chat_send_message (env : Env) (prompt : pystr) : M world GenerationResponse :=
  fun w =>
    match send_message env (history w) prompt with
    | Done response =>
        (Ok response, World (fs w) (history w ++ [(prompt, response)]) (log w))
    | Failed msg => (Raise (LibraryError VertexAI msg), w)
    end.

(** [response.text]. *)
Definition response_text (response : GenerationResponse) : M world pystr :=
  match response with
  | TextResponse text => ret text
  | NoTextResponse why => raise (LibraryError VertexAI why)
  end.

Definition translate_text (env : Env) (text target_language : pystr) : M world pystr :=
  match chat env with
  | None => raise (RuntimeError (str "Gemini not initialized"))
  | Some _ =>
      let prompt := prompt_of text target_language in
      let! response := chat_send_message env prompt in
      response_text response
  end.

(** *** The routes *)

Definition OUTPUT_TXT : pystr := str "translated_output.txt".
Definition OUTPUT_PDF : pystr := str "translated_output.pdf".

(** [f"translated_{target_language}{ext}"]. *)
Definition download_name_of (target_language ext : pystr) : pystr :=
  str "translated_" ++ target_language ++ ext.

(** The [if output_format == 'txt'] branch of [translate]. *)
Definition respond_txt (env : Env) (translated target_language : pystr)
  : M world response :=
  let output_file := OUTPUT_TXT in
  let! created := create_text_file env translated output_file in
  if created then
    send_file output_file (download_name_of target_language (str ".txt"))
  else
    ret (Text (str "Error creating text file") 500).

(** The [try] body of the [else] branch: build the PDF and send it. *)
Definition try_pdf (env : Env) (translated target_language : pystr)
  : M world response :=
  let output_pdf := OUTPUT_PDF in
  let pdf := TranslatedPDF_init output_pdf in
  let! pdf := add_text_block env pdf translated in
  run! save env pdf in
  send_file output_pdf (download_name_of target_language (str ".pdf")).

(** The [else] branch of [translate], with its own [except] clause. *)
Definition respond_pdf (env : Env) (translated target_language : pystr)
  : M world response :=
  try_except
    (try_pdf env translated target_language)
    (fun pdf_error =>
       run! logging_error (str "PDF creation failed: " ++ exn_str pdf_error) in
       let output_file := OUTPUT_TXT in
       let! created := create_text_file env translated output_file in
       if created then
         send_file output_file (download_name_of target_language (str ".txt"))
       else
         ret (Text (str "Error creating output file: " ++ exn_str pdf_error) 500)).

(** The body of the outer [try] of [translate]. *)
Definition translate_body (env : Env) (req : request) : M world response :=
  match multidict_get (str "file") (files req) with
  | None => ret (Text (str "No file uploaded") 400)
  | Some uploaded_file =>
      if bool_decide (upload_filename uploaded_file = []) then
        ret (Text (str "Empty filename") 400)
      else
        match multidict_get (str "language") (form req) with
        | None => ret (Text (str "No target language specified") 400)
        | Some target_language =>
            if negb (truthy target_language) then
              ret (Text (str "No target language specified") 400)
            else
              let output_format :=
                default (str "pdf") (multidict_get (str "format") (form req)) in
              let filename := secure_filename env (upload_filename uploaded_file) in
              let file_path := os_path_join UPLOAD_FOLDER filename in
              run! write_file env file_path (upload_stream uploaded_file) in
              let! original_text := extract_text env file_path in
              let! translated := translate_text env original_text target_language in
              if bool_decide (output_format = str "txt") then
                respond_txt env translated target_language
              else
                respond_pdf env translated target_language
        end
  end.

(** [POST /translate]. *)
Definition translate (env : Env) (req : request) : M world response :=
  try_except
    (translate_body env req)
    (fun e =>
       run! logging_error (str "Error in translation") in
       ret (Text (str "Error: " ++ exn_str e) 500)).

(** [GET /health]: the value of the ["vertex_ai"] key. *)
Definition health (env : Env) : pystr * bool :=
  (str "healthy", bool_decide (chat env <> None)).

(** ** Vocabulary of the statements *)

(** [needle in haystack] on strings. *)
Fixpoint contains (haystack needle : pystr) : bool :=
  startswith haystack needle
  || match haystack with
     | [] => false
     | _ :: h => contains h needle
     end.

(** The translation of line ends as the description of text mode has it,
    in two passes over the text: first every CR LF pair becomes LF
    ([s.replace('\r\n', '\n')]), then every CR left becomes LF
    ([.replace('\r', '\n')]). *)
Fixpoint crlf_to_lf (s : pystr) : pystr :=
  match s with
  | [] => []
  | c :: rest =>
      if (c =? CR) && match rest with d :: _ => d =? LF | [] => false end
      then crlf_to_lf rest
      else c :: crlf_to_lf rest
  end.

Definition cr_to_lf (s : pystr) : pystr :=
  map (fun c => if c =? CR then LF else c) s.

(** The layout the output step is meant to produce for one line of the
    translated text, written without the loop and without exceptions: a
    spacer for a blank line, one paragraph for a line of at most 100
    characters, and one paragraph per piece of [textwrap.wrap(.., 80)]
    for a longer line. *)
Definition layout_paragraph (env : Env) (style : ParagraphStyle) (para : pystr)
  : list flowable :=
  if truthy (strip para) then
    if 100 <? Z.of_nat (length para)
    then map (fun line => ParagraphFlowable line style) (textwrap_wrap env para 80)
    else [ParagraphFlowable para style]
  else [Spacer 1 6].

Definition layout (env : Env) (style : ParagraphStyle) (text : pystr)
  : list flowable :=
  concat (map (layout_paragraph env style) (split_on LF text)).

(** The markup parser takes the text of this flowable. *)
Definition accepted (env : Env) (f : flowable) : Prop :=
  match f with
  | ParagraphFlowable text _ => paragraph_error env text = None
  | Spacer _ _ => True
  end.

(** The markup parser rejects the text of this flowable with [msg]. *)
Definition rejected (env : Env) (f : flowable) (msg : pystr) : Prop :=
  match f with
  | ParagraphFlowable text _ => paragraph_error env text = Some msg
  | Spacer _ _ => False
  end.

(** The text of this flowable has at most [bound] characters. *)
Definition paragraph_fits (bound : Z) (f : flowable) : Prop :=
  match f with
  | ParagraphFlowable text _ => Z.of_nat (length text) <= bound
  | Spacer _ _ => True
  end.

(** The document cannot be built: the layout fails, or the output file
    cannot be opened. *)
Definition build_fails (env : Env) (pdf : TranslatedPDF) : Prop :=
  (exists msg, doc_render env (doc pdf) (story pdf) = Failed msg)
  \/ (exists msg, open_w_error env (doc_filename (doc pdf)) = Some msg).

(** The placeholder cannot be made either. *)
Definition fallback_fails (env : Env) (pdf : TranslatedPDF) : Prop :=
  (exists msg, canvas_render env letter fallback_drawing = Failed msg)
  \/ (exists msg, open_w_error env (filename pdf) = Some msg).

(** The request carries a file with a name and a target language: it
    passes the three checks at the top of [translate]. *)
Definition validated (req : request) (file : FileStorage) (language : pystr) : Prop :=
  multidict_get (str "file") (files req) = Some file
  /\ upload_filename file <> []
  /\ multidict_get (str "language") (form req) = Some language
  /\ language <> [].

(** Where [translate] saves the upload. *)
Definition upload_path (env : Env) (file : FileStorage) : pystr :=
  os_path_join UPLOAD_FOLDER (secure_filename env (upload_filename file)).

(** ** Concrete environments for examples

    In [env_replying reply] every library call succeeds: the model
    answers [reply] to any prompt, [secure_filename] keeps the name, a PDF
    upload has one page holding its bytes, lines are cut every [width]
    characters, and the two renderers return a short tag followed by the
    text they were given. The other environments differ from it in one
    field. *)

Fixpoint chunks (fuel : nat) (width : nat) (s : pystr) : list pystr :=
  match fuel with
  | O => []
  | S fuel' =>
      match s with
      | [] => []
      | _ => take width s :: chunks fuel' width (drop width s)
      end
  end.

Definition flowable_text (f : flowable) : pystr :=
  match f with
  | ParagraphFlowable t _ => t ++ [LF]
  | Spacer _ _ => [LF]
  end.

Definition env_replying (reply : pystr) : Env := {|
  vertex_start := Done ChatHandle;
  send_message := fun _ _ => Done (TextResponse reply);
  secure_filename := fun name => name;
  open_w_error := fun _ => None;
  fitz_pages := fun b => Done [b];
  paragraph_error := fun _ => None;
  textwrap_wrap := fun s width => chunks (length s) (Z.to_nat width) s;
  doc_render := fun _ s => Done (str "%PDF " ++ concat (map flowable_text s));
  canvas_render := fun _ _ => Done (str "%PDF placeholder")
|}.

Definition sample_env : Env := env_replying (str "Bonjour le monde").

(** The client could not be started. *)
Definition no_chat_env : Env := {|
  vertex_start := Failed (str "could not find default credentials");
  send_message := send_message sample_env;
  secure_filename := secure_filename sample_env;
  open_w_error := open_w_error sample_env;
  fitz_pages := fitz_pages sample_env;
  paragraph_error := paragraph_error sample_env;
  textwrap_wrap := textwrap_wrap sample_env;
  doc_render := doc_render sample_env;
  canvas_render := canvas_render sample_env
|}.

Definition permission_denied : pystr := str "[Errno 13] Permission denied".

(** The file [locked] cannot be opened for writing. *)
Definition env_locking (locked : pystr) (reply : pystr) : Env := {|
  vertex_start := Done ChatHandle;
  send_message := fun _ _ => Done (TextResponse reply);
  secure_filename := fun name => name;
  open_w_error := fun p => if bool_decide (p = locked) then Some permission_denied else None;
  fitz_pages := fun b => Done [b];
  paragraph_error := fun _ => None;
  textwrap_wrap := textwrap_wrap sample_env;
  doc_render := doc_render sample_env;
  canvas_render := canvas_render sample_env
|}.

Definition parse_error : pystr :=
  str "xml parser error (saw </para> instead of expected </b>) in paragraph".

(** The markup parser rejects an opening tag that is never closed. *)
Definition env_strict_markup (reply : pystr) : Env := {|
  vertex_start := Done ChatHandle;
  send_message := fun _ _ => Done (TextResponse reply);
  secure_filename := fun name => name;
  open_w_error := fun _ => None;
  fitz_pages := fun b => Done [b];
  paragraph_error := fun t => if bool_decide (t = str "<b>") then Some parse_error else None;
  textwrap_wrap := textwrap_wrap sample_env;
  doc_render := doc_render sample_env;
  canvas_render := canvas_render sample_env
|}.

(** PyMuPDF finds these pages in every PDF. *)
Definition env_paged (pages : list pystr) : Env := {|
  vertex_start := Done ChatHandle;
  send_message := send_message sample_env;
  secure_filename := fun name => name;
  open_w_error := fun _ => None;
  fitz_pages := fun _ => Done pages;
  paragraph_error := fun _ => None;
  textwrap_wrap := textwrap_wrap sample_env;
  doc_render := doc_render sample_env;
  canvas_render := canvas_render sample_env
|}.

(** The markup parser rejects an opening tag that is never closed, and
    the layout of every document fails. *)
Definition env_failing_layout (reply : pystr) : Env := {|
  vertex_start := Done ChatHandle;
  send_message := fun _ _ => Done (TextResponse reply);
  secure_filename := fun name => name;
  open_w_error := fun _ => None;
  fitz_pages := fun b => Done [b];
  paragraph_error := fun t => if bool_decide (t = str "<b>") then Some parse_error else None;
  textwrap_wrap := textwrap_wrap sample_env;
  doc_render := fun _ _ => Failed (str "LayoutError");
  canvas_render := canvas_render sample_env
|}.

Definition empty_world : world := World ∅ [] [].

(** A disk on which an earlier request left its PDF. *)
Definition stale_pdf : bytes := str "%PDF an earlier translation".
Definition world_with_stale_pdf : world :=
  World (<[OUTPUT_PDF := stale_pdf]> ∅) [] [].

Definition sample_request (name : string) (content : pystr)
    (fields : list (string * string)) : request :=
  {| files := [(str "file", {| upload_filename := str name; upload_stream := content |})];
     form := map (fun kv => (str (fst kv), str (snd kv))) fields |}.

Definition sample_upload (name : string) (content : pystr) : FileStorage :=
  {| upload_filename := str name; upload_stream := content |}.

(** ** Vocabulary of the further properties *)

(** On disk, [w'] differs from [w] at most at the paths listed. *)
Definition touches_only (paths : list (list Z)) (w w' : world) : Prop :=
  forall p, p ∉ paths -> fs w' !! p = fs w !! p.

(** The three fixed parts of the prompt of [translate_text]: before the
    language, between the language and the text, after the text. *)
Definition prompt_head : pystr :=
  [LF] ++ str "    Detect the language of the following content and translate it into ".

Definition prompt_middle : pystr :=
  str "." ++ [LF]
  ++ str "    Only return the translated version without commentary." ++ [LF]
  ++ str "        " ++ [LF]
  ++ str "    ```" ++ [LF]
  ++ str "    ".

Definition prompt_tail : pystr :=
  [LF] ++ str "    ```" ++ [LF] ++ str "    ".

(** The three messages of the checks at the top of [translate]. *)
Definition validation_messages : list (list Z) :=
  [str "No file uploaded"; str "Empty filename"; str "No target language specified"].

(** The world once [translate] has saved the upload. *)
Definition saved_world (env : Env) (file : FileStorage) (w : world) : world :=
  set_fs (<[upload_path env file := upload_stream file]> (fs w)) w.

(** The world once the model has answered [response] to [prompt]. *)
Definition answered_world (prompt : list Z) (response : GenerationResponse) (w : world)
  : world :=
  World (fs w) (history w ++ [(prompt, response)]) (log w).

(** The branch of the output step that [translate] takes for a request. *)
Definition output_branch (env : Env) (req : request) : list Z -> list Z -> M world response :=
  if bool_decide (default (str "pdf") (multidict_get (str "format") (form req)) = str "txt")
  then respond_txt env
  else respond_pdf env.

(** * Properties *)

(** ** Text primitives *)

Ltac zdm := Z.div_mod_to_equations; lia.

Lemma in_range_true lo hi x : lo <= x < hi -> (lo <=? x) && (x <? hi) = true.
Proof. intros. apply andb_true_intro. split; [apply Z.leb_le | apply Z.ltb_lt]; lia. Qed.

Lemma in_range_false lo hi x : x < lo \/ hi <= x -> (lo <=? x) && (x <? hi) = false.
Proof.
  intros. destruct (Z.leb_spec lo x), (Z.ltb_spec x hi); try reflexivity; lia.
Qed.

Lemma in_range_spec lo hi x : (lo <=? x) && (x <? hi) = true <-> lo <= x < hi.
Proof. rewrite andb_true_iff, Z.leb_le, Z.ltb_lt. reflexivity. Qed.

Lemma is_cont_true b : 0x80 <= b <= 0xBF -> is_cont b = true.
Proof. intros. apply andb_true_intro. split; apply Z.leb_le; lia. Qed.

Lemma is_cont_spec b : is_cont b = true <-> 0x80 <= b <= 0xBF.
Proof. unfold is_cont. rewrite andb_true_iff, !Z.leb_le. reflexivity. Qed.

Lemma is_surrogate_false c : c < 0xD800 \/ 0xDFFF < c -> is_surrogate c = false.
Proof.
  intros. unfold is_surrogate.
  destruct (Z.leb_spec 0xD800 c), (Z.leb_spec c 0xDFFF); try reflexivity; lia.
Qed.

Lemma is_surrogate_spec c : is_surrogate c = true <-> 0xD800 <= c <= 0xDFFF.
Proof. unfold is_surrogate. rewrite andb_true_iff, !Z.leb_le. reflexivity. Qed.

(** The decoder reads back one encoded character. *)
Lemma utf8_decode_encode_char c b rest :
  utf8_encode_char c = Some b ->
  utf8_decode (b ++ rest) = cons c <$> utf8_decode rest.
Proof.
  unfold utf8_encode_char.
  destruct (Z.ltb_spec c 0); [discriminate|].
  destruct (Z.ltb_spec c 0x80).
  { intros [= <-]. cbn [app utf8_decode].
    rewrite in_range_true by lia. reflexivity. }
  destruct (Z.ltb_spec c 0x800).
  { intros [= <-]. cbn [app utf8_decode].
    rewrite (in_range_false 0 0x80) by zdm.
    rewrite (in_range_true 0xC2 0xE0) by zdm.
    rewrite is_cont_true by zdm.
    do 2 f_equal. zdm. }
  destruct (Z.ltb_spec c 0x10000).
  { destruct (is_surrogate c) eqn:Hs; [discriminate|].
    assert (c < 0xD800 \/ 0xDFFF < c) as Hc.
    { destruct (Z.le_gt_cases 0xD800 c), (Z.le_gt_cases c 0xDFFF); try lia.
      exfalso. apply not_true_iff_false in Hs. apply Hs, is_surrogate_spec. lia. }
    intros [= <-]. cbn [app utf8_decode]. cbv zeta.
    rewrite (in_range_false 0 0x80) by zdm.
    rewrite (in_range_false 0xC2 0xE0) by zdm.
    rewrite (in_range_true 0xE0 0xF0) by zdm.
    rewrite !is_cont_true by zdm.
    replace ((0xE0 + c / 4096 - 0xE0) * 4096 + (0x80 + (c / 64) mod 64 - 0x80) * 64
             + (0x80 + c mod 64 - 0x80)) with c by zdm.
    rewrite Hs. rewrite (proj2 (Z.leb_le 0x800 c)) by lia. reflexivity. }
  destruct (Z.ltb_spec c 0x110000); [|discriminate].
  intros [= <-]. cbn [app utf8_decode]. cbv zeta.
  rewrite (in_range_false 0 0x80) by zdm.
  rewrite (in_range_false 0xC2 0xE0) by zdm.
  rewrite (in_range_false 0xE0 0xF0) by zdm.
  rewrite (in_range_true 0xF0 0xF5) by zdm.
  rewrite !is_cont_true by zdm.
  replace ((0xF0 + c / 262144 - 0xF0) * 262144 + (0x80 + (c / 4096) mod 64 - 0x80) * 4096
           + (0x80 + (c / 64) mod 64 - 0x80) * 64 + (0x80 + c mod 64 - 0x80)) with c by zdm.
  rewrite (proj2 (Z.leb_le 0x10000 c)) by lia.
  rewrite (proj2 (Z.ltb_lt c 0x110000)) by lia. reflexivity.
Qed.

(** Decoding undoes encoding. *)
Lemma utf8_decode_encode s b : utf8_encode s = Some b -> utf8_decode b = Some s.
Proof.
  revert b. induction s as [|c s IH]; intros b; cbn [utf8_encode].
  - intros [= <-]. reflexivity.
  - destruct (utf8_encode_char c) as [bc|] eqn:Hc; [|discriminate].
    destruct (utf8_encode s) as [bs|]; [|discriminate].
    intros [= <-]. rewrite (utf8_decode_encode_char _ _ _ Hc), (IH bs eq_refl).
    reflexivity.
Qed.

(** The encoder accepts exactly the scalar values. *)
Lemma utf8_encode_char_scalar c : is_scalar c = true <-> is_Some (utf8_encode_char c).
Proof.
  unfold is_scalar, utf8_encode_char.
  destruct (Z.ltb_spec c 0), (Z.leb_spec 0 c); try lia; cbn [andb].
  { split; [discriminate | intros [? [=]]]. }
  destruct (Z.ltb_spec c 0x80).
  { rewrite is_surrogate_false by lia. destruct (Z.ltb_spec c 0x110000); try lia. split; eauto. }
  destruct (Z.ltb_spec c 0x800).
  { rewrite is_surrogate_false by lia. destruct (Z.ltb_spec c 0x110000); try lia. split; eauto. }
  destruct (Z.ltb_spec c 0x10000).
  { destruct (Z.ltb_spec c 0x110000); try lia. destruct (is_surrogate c); cbn; split; eauto; try discriminate. intros [? [=]]. }
  destruct (Z.ltb_spec c 0x110000).
  { rewrite is_surrogate_false by lia. split; eauto. }
  cbn. split; [discriminate | intros [? [=]]].
Qed.

Lemma utf8_encode_total s : Forall (fun c => is_scalar c = true) s -> is_Some (utf8_encode s).
Proof.
  induction 1 as [|c s Hc _ IH]; cbn [utf8_encode]; [eauto|].
  apply utf8_encode_char_scalar in Hc as [b ->]. destruct IH as [bs ->]. eauto.
Qed.

Lemma utf8_encode_char_1 b0 : 0 <= b0 < 0x80 -> utf8_encode_char b0 = Some [b0].
Proof.
  intros. unfold utf8_encode_char.
  destruct (Z.ltb_spec b0 0); [lia|]. destruct (Z.ltb_spec b0 0x80); [|lia]. reflexivity.
Qed.

Lemma utf8_encode_char_2 b0 b1 :
  0xC2 <= b0 < 0xE0 -> 0x80 <= b1 <= 0xBF ->
  utf8_encode_char ((b0 - 0xC0) * 64 + (b1 - 0x80)) = Some [b0; b1].
Proof.
  intros. set (c := (b0 - 0xC0) * 64 + (b1 - 0x80)).
  assert (0x80 <= c < 0x800) by (subst c; lia).
  unfold utf8_encode_char.
  destruct (Z.ltb_spec c 0); [lia|]. destruct (Z.ltb_spec c 0x80); [lia|].
  destruct (Z.ltb_spec c 0x800); [|lia].
  subst c. do 2 f_equal; [zdm|]. f_equal. zdm.
Qed.

Lemma utf8_encode_char_3 b0 b1 b2 :
  0xE0 <= b0 < 0xF0 -> 0x80 <= b1 <= 0xBF -> 0x80 <= b2 <= 0xBF ->
  let c := (b0 - 0xE0) * 4096 + (b1 - 0x80) * 64 + (b2 - 0x80) in
  0x800 <= c -> is_surrogate c = false ->
  utf8_encode_char c = Some [b0; b1; b2].
Proof.
  intros H0 H1 H2 c Hc Hs.
  assert (c < 0x10000) by (subst c; lia).
  unfold utf8_encode_char. rewrite Hs.
  destruct (Z.ltb_spec c 0); [lia|]. destruct (Z.ltb_spec c 0x80); [lia|].
  destruct (Z.ltb_spec c 0x800); [lia|]. destruct (Z.ltb_spec c 0x10000); [|lia].
  subst c. do 2 f_equal; [zdm|]. f_equal; [zdm|]. f_equal. zdm.
Qed.

Lemma utf8_encode_char_4 b0 b1 b2 b3 :
  0xF0 <= b0 < 0xF5 -> 0x80 <= b1 <= 0xBF -> 0x80 <= b2 <= 0xBF -> 0x80 <= b3 <= 0xBF ->
  let c := (b0 - 0xF0) * 262144 + (b1 - 0x80) * 4096 + (b2 - 0x80) * 64 + (b3 - 0x80) in
  0x10000 <= c < 0x110000 ->
  utf8_encode_char c = Some [b0; b1; b2; b3].
Proof.
  intros H0 H1 H2 H3 c Hc.
  unfold utf8_encode_char.
  destruct (Z.ltb_spec c 0); [lia|]. destruct (Z.ltb_spec c 0x80); [lia|].
  destruct (Z.ltb_spec c 0x800); [lia|]. destruct (Z.ltb_spec c 0x10000); [lia|].
  destruct (Z.ltb_spec c 0x110000); [|lia].
  subst c. do 2 f_equal; [zdm|]. f_equal; [zdm|]. f_equal; [zdm|]. f_equal. zdm.
Qed.

(** One step of the decoder, turned around: a successful decoding of a
    non-empty input splits it into the encoding of its first character and
    a shorter rest. *)
Lemma utf8_decode_step b s :
  utf8_decode b = Some s ->
  (b = [] /\ s = []) \/
  exists c bc rest s',
    b = bc ++ rest /\ s = c :: s' /\ utf8_encode_char c = Some bc /\
    utf8_decode rest = Some s' /\ (length rest < length b)%nat.
Proof.
  destruct b as [|b0 r0]; cbn [utf8_decode].
  { intros [= <-]. by left. }
  intros Hd. right.
  destruct ((0 <=? b0) && (b0 <? 0x80)) eqn:E1.
  { apply in_range_spec in E1.
    destruct (utf8_decode r0) as [s'|] eqn:Hr; [|discriminate]. injection Hd as <-.
    exists b0, [b0], r0, s'. repeat split; auto using utf8_encode_char_1. }
  destruct ((0xC2 <=? b0) && (b0 <? 0xE0)) eqn:E2.
  { apply in_range_spec in E2.
    destruct r0 as [|b1 r1]; [discriminate|].
    destruct (is_cont b1) eqn:C1; [|discriminate]. apply is_cont_spec in C1.
    destruct (utf8_decode r1) as [s'|] eqn:Hr; [|discriminate]. injection Hd as <-.
    eexists _, [b0; b1], r1, s'. repeat split; auto using utf8_encode_char_2.
    cbn. lia. }
  destruct ((0xE0 <=? b0) && (b0 <? 0xF0)) eqn:E3.
  { apply in_range_spec in E3.
    destruct r0 as [|b1 [|b2 r2]]; try discriminate. cbv zeta in Hd.
    destruct (is_cont b1) eqn:C1; [|discriminate]. apply is_cont_spec in C1.
    destruct (is_cont b2) eqn:C2; [|discriminate]. apply is_cont_spec in C2.
    cbn [andb] in Hd.
    destruct (Z.leb_spec 0x800 ((b0 - 224) * 4096 + (b1 - 128) * 64 + (b2 - 128))); [|discriminate].
    cbn [andb] in Hd.
    destruct (is_surrogate _) eqn:Hs; [discriminate|]. cbn [negb] in Hd.
    destruct (utf8_decode r2) as [s'|] eqn:Hr; [|discriminate]. injection Hd as <-.
    eexists _, [b0; b1; b2], r2, s'. repeat split; auto using utf8_encode_char_3.
    cbn. lia. }
  destruct ((0xF0 <=? b0) && (b0 <? 0xF5)) eqn:E4; [|discriminate].
  apply in_range_spec in E4.
  destruct r0 as [|b1 [|b2 [|b3 r3]]]; try discriminate. cbv zeta in Hd.
  destruct (is_cont b1) eqn:C1; [|discriminate]. apply is_cont_spec in C1.
  destruct (is_cont b2) eqn:C2; [|discriminate]. apply is_cont_spec in C2.
  destruct (is_cont b3) eqn:C3; [|discriminate]. apply is_cont_spec in C3.
  cbn [andb] in Hd.
  destruct (Z.leb_spec 0x10000 ((b0 - 240) * 262144 + (b1 - 128) * 4096 + (b2 - 128) * 64 + (b3 - 128)));
    [|discriminate].
  destruct (Z.ltb_spec ((b0 - 240) * 262144 + (b1 - 128) * 4096 + (b2 - 128) * 64 + (b3 - 128)) 0x110000);
    [|discriminate].
  cbn [andb] in Hd.
  destruct (utf8_decode r3) as [s'|] eqn:Hr; [|discriminate]. injection Hd as <-.
  eexists _, [b0; b1; b2; b3], r3, s'. repeat split; auto.
  - apply utf8_encode_char_4; auto.
  - cbn. lia.
Qed.

(** The decoder is strict: what it accepts is the encoding of what it
    returns, so no two byte strings decode to the same text. *)
Lemma utf8_encode_decode b s : utf8_decode b = Some s -> utf8_encode s = Some b.
Proof.
  remember (length b) as n eqn:Hn. revert b s Hn.
  induction n as [n IH] using lt_wf_ind. intros b s -> Hd.
  destruct (utf8_decode_step _ _ Hd) as [[-> ->] | (c & bc & rest & s' & -> & -> & Hc & Hr & Hlen)].
  - reflexivity.
  - cbn [utf8_encode]. rewrite Hc, (IH _ Hlen rest s' eq_refl Hr). reflexivity.
Qed.

(** Text mode changes nothing in a text without carriage returns. *)
Lemma universal_newlines_no_cr s : CR ∉ s -> universal_newlines s = s.
Proof.
  induction s as [|c s IH]; [reflexivity|].
  intros Hn. cbn [universal_newlines].
  destruct (Z.eqb_spec c CR) as [->|Hc].
  - exfalso. apply Hn. left.
  - f_equal. apply IH. intros Hin. apply Hn. by right.
Qed.

(** Reading in text mode agrees with the two-pass translation of line
    ends. *)
Lemma universal_newlines_two_passes s :
  universal_newlines s = cr_to_lf (crlf_to_lf s).
Proof.
  remember (length s) as n eqn:Hn. revert s Hn.
  induction n as [n IH] using lt_wf_ind. intros s ->.
  destruct s as [|c s]; [reflexivity|]. cbn [universal_newlines crlf_to_lf].
  destruct (Z.eqb_spec c CR) as [->|Hc]; cbn [andb].
  - destruct s as [|d s]; [reflexivity|].
    destruct (Z.eqb_spec d LF) as [->|Hd].
    + cbn [crlf_to_lf]. change (LF =? CR) with false. cbn [andb cr_to_lf map].
      change (LF =? CR) with false. cbv iota. f_equal.
      eapply IH; [|reflexivity]. cbn. lia.
    + cbn [cr_to_lf map]. change (CR =? CR) with true. cbv iota. f_equal.
      eapply (IH (length (d :: s))); [|reflexivity]. cbn. lia.
  - cbn [cr_to_lf map]. rewrite (proj2 (Z.eqb_neq c CR) Hc). f_equal.
    eapply IH; [|reflexivity]. cbn. lia.
Qed.

(** What text mode delivers never holds a carriage return. *)
Lemma universal_newlines_has_no_cr s : CR ∉ universal_newlines s.
Proof.
  remember (length s) as n eqn:Hn. revert s Hn.
  induction n as [n IH] using lt_wf_ind. intros s ->.
  destruct s as [|c s]; cbn [universal_newlines]; [apply not_elem_of_nil|].
  destruct (Z.eqb_spec c CR) as [->|Hc].
  - destruct s as [|d s]; [by rewrite list_elem_of_singleton|].
    destruct (d =? LF); rewrite not_elem_of_cons; (split; [discriminate|]).
    + eapply IH; [|reflexivity]. cbn. lia.
    + eapply IH; [|reflexivity]. cbn. lia.
  - rewrite not_elem_of_cons. split; [congruence|]. eapply IH; [|reflexivity]. cbn. lia.
Qed.

Lemma split_on_nonempty sep s : split_on sep s <> [].
Proof.
  induction s as [|c s IH]; cbn [split_on]; [discriminate|].
  destruct (c =? sep); [discriminate|]. destruct (split_on sep s); discriminate.
Qed.

Lemma join_cons_cons sep p q qs :
  join sep (p :: q :: qs) = p ++ sep ++ join sep (q :: qs).
Proof. reflexivity. Qed.

(** Joining the pieces with the separator gives the string back. *)
Lemma join_split_on sep s : join [sep] (split_on sep s) = s.
Proof.
  induction s as [|c s IH]; [reflexivity|]. cbn [split_on].
  pose proof (split_on_nonempty sep s) as Hne.
  destruct (Z.eqb_spec c sep) as [->|Hc].
  - destruct (split_on sep s) as [|p ps]; [congruence|].
    rewrite join_cons_cons, IH. reflexivity.
  - destruct (split_on sep s) as [|p [|q qs]]; [congruence| |].
    + cbn [join] in *. by rewrite IH.
    + rewrite join_cons_cons in IH. rewrite join_cons_cons.
      rewrite <- IH. reflexivity.
Qed.

(** No piece holds the separator. *)
Lemma split_on_pieces sep s : Forall (fun p => sep ∉ p) (split_on sep s).
Proof.
  induction s as [|c s IH]; cbn [split_on].
  - repeat constructor. apply not_elem_of_nil.
  - destruct (Z.eqb_spec c sep) as [->|Hc].
    + constructor; [apply not_elem_of_nil | exact IH].
    + destruct (split_on sep s) as [|p ps].
      * repeat constructor. rewrite list_elem_of_singleton. congruence.
      * inversion IH as [|? ? Hp Hps]; subst. constructor; [|exact Hps].
        rewrite elem_of_cons. intros [->|Hin]; [congruence | by apply Hp].
Qed.

Lemma lstrip_nil_iff s : lstrip s = [] <-> Forall (fun c => py_isspace c = true) s.
Proof.
  induction s as [|c s IH]; cbn [lstrip].
  - split; [constructor | reflexivity].
  - destruct (py_isspace c) eqn:Hc.
    + rewrite IH. split; [by constructor | by inversion 1].
    + split; [discriminate | inversion 1; congruence].
Qed.

(** A line is blank for [add_text_block] exactly when all its characters
    are white space. *)
Lemma strip_blank_iff s :
  truthy (strip s) = false <-> Forall (fun c => py_isspace c = true) s.
Proof.
  unfold strip. split.
  - intros H. apply lstrip_nil_iff.
    destruct (rev (lstrip (rev (lstrip s)))) as [|x l] eqn:E; [|discriminate].
    apply (f_equal (@rev Z)) in E. rewrite rev_involutive in E. cbn in E.
    apply lstrip_nil_iff in E.
    destruct (lstrip s) as [|c r] eqn:El; [reflexivity|].
    exfalso.
    assert (py_isspace c = false) as Hc.
    { clear -El. induction s as [|d s IH]; cbn [lstrip] in El; [discriminate|].
      destruct (py_isspace d) eqn:Hd; [by apply IH|]. by injection El as -> _. }
    cbn [rev] in E. apply Forall_app in E as [_ E]. inversion E; congruence.
  - intros H. apply lstrip_nil_iff in H. rewrite H. reflexivity.
Qed.

Lemma endswith_spec s suffix :
  endswith s suffix = true <-> exists pre, s = pre ++ suffix.
Proof.
  unfold endswith. rewrite bool_decide_eq_true. split.
  - intros H. exists (take (length s - length suffix)%nat s).
    rewrite <- H at 2. by rewrite take_drop.
  - intros [pre ->]. rewrite length_app.
    replace (length pre + length suffix - length suffix)%nat with (length pre) by lia.
    by rewrite drop_app_length.
Qed.

Lemma startswith_app s t : startswith (s ++ t) s = true.
Proof. unfold startswith. apply bool_decide_eq_true_2. by rewrite take_app_length. Qed.

(** [contains] is the substring test. *)
Lemma contains_spec hay needle :
  contains hay needle = true <-> exists pre post, hay = pre ++ needle ++ post.
Proof.
  split.
  - induction hay as [|c hay IH]; cbn [contains]; rewrite orb_true_iff.
    + intros [H|H]; [|discriminate]. unfold startswith in H. apply bool_decide_eq_true_1 in H.
      exists [], []. rewrite take_nil in H. by subst needle.
    + intros [H|H].
      * unfold startswith in H. apply bool_decide_eq_true_1 in H.
        exists [], (drop (length needle) (c :: hay)). cbn [app].
        rewrite <- H at 1. by rewrite take_drop.
      * destruct (IH H) as (pre & post & ->). by exists (c :: pre), post.
  - intros (pre & post & ->). induction pre as [|c pre IH]; cbn [app].
    + destruct (needle ++ post) eqn:E; cbn [contains].
      * destruct needle; [reflexivity | discriminate].
      * rewrite <- E, startswith_app. reflexivity.
    + cbn [contains]. rewrite IH. apply orb_true_r.
Qed.

Lemma contains_app_r pre needle : contains (pre ++ needle) needle = true.
Proof. apply contains_spec. exists pre, []. by rewrite app_nil_r. Qed.

Lemma multidict_get_elem {V} key (d : list (list Z * V)) v :
  multidict_get key d = Some v -> (key, v) ∈ d.
Proof.
  induction d as [|[k x] d IH]; cbn [multidict_get]; [discriminate|].
  case_bool_decide as Hk.
  - intros [= ->]. subst k. left.
  - intros H. right. auto.
Qed.

Lemma truthy_true s : s <> [] -> truthy s = true.
Proof. destruct s; [congruence | reflexivity]. Qed.

(** ** The monad *)

Section Monad.
Context {S A B : Type}.

Lemma bind_ok (c : M S A) (k : A -> M S B) s a s' :
  c s = (Ok a, s') -> bind c k s = k a s'.
Proof. unfold bind. intros ->. reflexivity. Qed.

Lemma bind_raise (c : M S A) (k : A -> M S B) s e s' :
  c s = (Raise e, s') -> bind c k s = (Raise e, s').
Proof. unfold bind. intros ->. reflexivity. Qed.

Lemma bind_ok_inv (c : M S A) (k : A -> M S B) s b s' :
  bind c k s = (Ok b, s') -> exists a s1, c s = (Ok a, s1) /\ k a s1 = (Ok b, s').
Proof.
  unfold bind. destruct (c s) as [[a|e] s1]; [eauto | discriminate].
Qed.

Lemma try_except_ok (c : M S A) h s a s' :
  c s = (Ok a, s') -> try_except c h s = (Ok a, s').
Proof. unfold try_except. intros ->. reflexivity. Qed.

Lemma try_except_raise (c : M S A) h s e s' :
  c s = (Raise e, s') -> try_except c h s = h e s'.
Proof. unfold try_except. intros ->. reflexivity. Qed.

(** The monad laws, state by state. *)
Lemma bind_ret_l (a : A) (k : A -> M S B) s : bind (ret a) k s = k a s.
Proof. reflexivity. Qed.

Lemma bind_ret_r (c : M S A) s : bind c ret s = c s.
Proof. unfold bind. destruct (c s) as [[a|e] s']; reflexivity. Qed.

Lemma bind_assoc {C} (c : M S A) (k : A -> M S B) (k' : B -> M S C) s :
  bind (bind c k) k' s = bind c (fun a => bind (k a) k') s.
Proof. unfold bind. destruct (c s) as [[a|e] s']; reflexivity. Qed.

(** A handler that raises again changes nothing. *)
Lemma try_except_reraise (c : M S A) s : try_except c raise s = c s.
Proof. unfold try_except. destruct (c s) as [[a|e] s']; reflexivity. Qed.
End Monad.

(** ** Files *)

Lemma write_file_cases env path content w :
  (exists msg, open_w_error env path = Some msg /\
               write_file env path content w = (Raise (OSError msg), w))
  \/ (open_w_error env path = None /\
      write_file env path content w = (Ok tt, set_fs (<[path := content]> (fs w)) w)).
Proof.
  unfold write_file. destruct (open_w_error env path) as [msg|]; [left|right]; eauto.
Qed.

(** A text of scalar values is written whenever the file opens. *)
Lemma write_text_scalar env path s w :
  Forall (fun c => is_scalar c = true) s ->
  open_w_error env path = None ->
  exists b, utf8_encode s = Some b
            /\ write_text env path s w = (Ok tt, set_fs (<[path := b]> (fs w)) w).
Proof.
  intros Hs Ho. destruct (utf8_encode_total s Hs) as [b Hb]. exists b.
  split; [exact Hb|]. unfold write_text. rewrite Hb.
  unfold write_file. rewrite Ho. reflexivity.
Qed.

Lemma read_text_decoded path w b s :
  fs w !! path = Some b -> utf8_decode b = Some s ->
  read_text path w = (Ok (universal_newlines s), w).
Proof. unfold read_text. intros -> ->. reflexivity. Qed.

(** A header value is accepted when it holds no line break. *)
Lemma header_value_ok_spec value :
  header_value_ok value = true <-> (CR ∉ value) /\ (LF ∉ value).
Proof.
  unfold header_value_ok. induction value as [|c value IH].
  - split; [intros _; split; apply not_elem_of_nil | reflexivity].
  - cbn [forallb]. rewrite andb_true_iff, IH, !not_elem_of_cons, negb_true_iff, orb_false_iff.
    rewrite !Z.eqb_neq. split.
    + intros [[? ?] [? ?]]. repeat split; auto.
    + intros [[? ?] [? ?]]. repeat split; auto.
Qed.

Lemma header_value_bad_spec value :
  header_value_ok value = false <-> CR ∈ value \/ LF ∈ value.
Proof.
  rewrite <- not_true_iff_false, header_value_ok_spec. split.
  - intros Hn. destruct (decide (CR ∈ value)) as [|Hcr]; [by left|].
    destruct (decide (LF ∈ value)) as [|Hlf]; [by right|]. by destruct Hn.
  - intros [H|H] [Hcr Hlf]; auto.
Qed.

Lemma header_value_ok_app a b :
  header_value_ok (a ++ b) = header_value_ok a && header_value_ok b.
Proof. apply forallb_app. Qed.

Lemma utf8_encode_app a b :
  utf8_encode (a ++ b)
  = match utf8_encode a, utf8_encode b with
    | Some x, Some y => Some (x ++ y)
    | _, _ => None
    end.
Proof.
  induction a as [|c a IH]; cbn [app utf8_encode].
  - by destruct (utf8_encode b).
  - rewrite IH. destruct (utf8_encode_char c) as [bc|]; [|reflexivity].
    destruct (utf8_encode a) as [x|]; [|reflexivity].
    destruct (utf8_encode b) as [y|]; [|reflexivity]. by rewrite app_assoc.
Qed.

(** A download name is accepted exactly when it can be encoded and holds
    no line break. *)
Lemma download_name_error_none name :
  download_name_error name = None
  <-> is_Some (utf8_encode name) /\ (CR ∉ name) /\ (LF ∉ name).
Proof.
  unfold download_name_error. destruct (utf8_encode name) as [b|].
  - destruct (header_value_ok name) eqn:Hh.
    + apply header_value_ok_spec in Hh. split; [intros _; split; [eauto | exact Hh] | reflexivity].
    + split; [discriminate|]. intros [_ Hok]. apply header_value_ok_spec in Hok. congruence.
  - split; [discriminate | intros [[b' [=]] _]].
Qed.

Lemma download_name_error_some name e :
  download_name_error name = Some e
  <-> (utf8_encode name = None /\ e = UnicodeEncodeError)
      \/ (is_Some (utf8_encode name) /\ (CR ∈ name \/ LF ∈ name)
          /\ e = ValueError header_newline_error).
Proof.
  unfold download_name_error. destruct (utf8_encode name) as [b|].
  - destruct (header_value_ok name) eqn:Hh.
    + split; [discriminate|]. intros [[[=] _] | (_ & Hbreak & _)].
      apply header_value_bad_spec in Hbreak. congruence.
    + apply header_value_bad_spec in Hh. split.
      * intros [= <-]. right. eauto.
      * by intros [[[=] _] | (_ & _ & ->)].
  - split; [intros [= <-]; by left | intros [[_ ->] | ([b [=]] & _)]; reflexivity].
Qed.

(** The download names of [translate] are refused exactly when the
    language is. *)
Lemma download_name_error_of lang :
  download_name_error (download_name_of lang (str ".txt")) = download_name_error lang
  /\ download_name_error (download_name_of lang (str ".pdf")) = download_name_error lang.
Proof.
  unfold download_name_of, download_name_error.
  rewrite !utf8_encode_app, !header_value_ok_app.
  change (utf8_encode (str "translated_")) with (Some (str "translated_")).
  change (utf8_encode (str ".txt")) with (Some (str ".txt")).
  change (utf8_encode (str ".pdf")) with (Some (str ".pdf")).
  change (header_value_ok (str "translated_")) with true.
  change (header_value_ok (str ".txt")) with true.
  change (header_value_ok (str ".pdf")) with true.
  cbn [andb]. rewrite andb_true_r.
  by destruct (utf8_encode lang).
Qed.

Lemma send_file_cases path name w :
  (exists b, fs w !! path = Some b /\ download_name_error name = None
             /\ send_file path name w = (Ok (Attachment name b), w))
  \/ (fs w !! path = None /\ send_file path name w = (Raise (FileNotFoundError path), w))
  \/ (exists b e, fs w !! path = Some b /\ download_name_error name = Some e
                  /\ send_file path name w = (Raise e, w)).
Proof.
  unfold send_file. destruct (fs w !! path) as [b|]; [|by right; left].
  destruct (download_name_error name) as [e|] eqn:Hn; [right; right | left]; eauto.
Qed.

Lemma send_file_ok path name w b :
  fs w !! path = Some b -> download_name_error name = None ->
  send_file path name w = (Ok (Attachment name b), w).
Proof. unfold send_file. by intros -> ->. Qed.

Lemma send_file_ok_inv path name w r w' :
  send_file path name w = (Ok r, w') ->
  exists b, fs w !! path = Some b /\ download_name_error name = None
            /\ r = Attachment name b /\ w' = w.
Proof.
  destruct (send_file_cases path name w)
    as [(b & Hb & Hh & Hs) | [(_ & Hs) | (b & e & _ & _ & Hs)]]; rewrite Hs; [|discriminate..].
  intros [= <- <-]. eauto.
Qed.

Lemma send_file_world path name w r w' : send_file path name w = (r, w') -> w' = w.
Proof.
  unfold send_file. destruct (fs w !! path); [destruct (download_name_error name)|];
    by intros [= _ <-].
Qed.

(** [create_text_file] never raises. *)
Lemma create_text_file_returns env text name w :
  exists created w', create_text_file env text name w = (Ok created, w').
Proof.
  unfold create_text_file, try_except, bind, write_text.
  destruct (utf8_encode text) as [b|].
  - unfold write_file. destruct (open_w_error env name); cbn; eauto.
  - unfold bind, write_file. destruct (open_w_error env name); cbn; eauto.
Qed.

(** It reports success exactly when the text is encodable and the file
    opens, and then the file holds the encoded text. *)
Lemma create_text_file_true env text name w w' :
  create_text_file env text name w = (Ok true, w') <->
  exists b, utf8_encode text = Some b /\ open_w_error env name = None
            /\ w' = set_fs (<[name := b]> (fs w)) w.
Proof.
  unfold create_text_file, try_except, bind, write_text.
  destruct (utf8_encode text) as [b|].
  - unfold write_file. destruct (open_w_error env name); cbn.
    + split; [discriminate | intros (? & _ & [=] & _)].
    + split; [intros [= <-]; eauto | intros (? & [= <-] & _ & ->); reflexivity].
  - unfold bind, write_file. destruct (open_w_error env name); cbn.
    + split; [discriminate | intros (? & [=] & _)].
    + split; [discriminate | intros (? & [=] & _)].
Qed.

Lemma create_text_file_false env text name w :
  utf8_encode text = None \/ open_w_error env name <> None ->
  exists w', create_text_file env text name w = (Ok false, w').
Proof.
  intros Hfail.
  destruct (create_text_file_returns env text name w) as ([] & w' & Hc); [|eauto].
  apply create_text_file_true in Hc as (b & He & Ho & _).
  destruct Hfail; congruence.
Qed.

(** ** [extract_text] and [translate_text] *)

Lemma extract_text_txt env path w :
  endswith path (str ".txt") = true -> extract_text env path w = read_text path w.
Proof. unfold extract_text. intros ->. reflexivity. Qed.

Lemma extract_text_unsupported_iff env path w :
  fst (extract_text env path w) = Raise (ValueError (str "Unsupported file type"))
  <-> endswith path (str ".txt") = false /\ endswith path (str ".pdf") = false.
Proof.
  unfold extract_text.
  destruct (endswith path (str ".txt")) eqn:Ht.
  { split; [|intros [[=] _]]. unfold read_text.
    destruct (fs w !! path) as [b|]; [destruct (utf8_decode b)|]; cbn [fst]; discriminate. }
  destruct (endswith path (str ".pdf")) eqn:Hp.
  { split; [|intros [_ [=]]].
    destruct (fs w !! path) as [b|]; [|cbn [fst]; discriminate].
    unfold bind, lift_outcome. destruct (fitz_pages env b); cbn [fst]; discriminate. }
  split; [auto | reflexivity].
Qed.

(** On a [.txt] path the extraction returns exactly when the file exists
    and holds valid UTF-8; otherwise it raises [FileNotFoundError] or
    [UnicodeDecodeError]. *)
Lemma extract_text_txt_returns_iff env path w :
  endswith path (str ".txt") = true ->
  (exists t, fst (extract_text env path w) = Ok t)
  <-> exists b s, fs w !! path = Some b /\ utf8_decode b = Some s.
Proof.
  intros Ht. rewrite extract_text_txt by exact Ht. unfold read_text.
  destruct (fs w !! path) as [b|].
  - destruct (utf8_decode b) as [s|] eqn:Hd; cbn [fst].
    + split; eauto.
    + split; [intros [t [=]] | intros (b' & s & [= <-] & Hs); congruence].
  - cbn [fst]. split; [intros [t [=]] | intros (b & s & [=] & _)].
Qed.

(** [extract_text] only reads. *)
Lemma extract_text_world env path w : snd (extract_text env path w) = w.
Proof.
  unfold extract_text. destruct (endswith path (str ".txt")).
  { unfold read_text. destruct (fs w !! path) as [b|]; [destruct (utf8_decode b)|]; reflexivity. }
  destruct (endswith path (str ".pdf")); [|reflexivity].
  destruct (fs w !! path) as [b|]; [|reflexivity].
  unfold bind, lift_outcome. destruct (fitz_pages env b); reflexivity.
Qed.

Lemma extract_text_world_eq env path w r w' :
  extract_text env path w = (r, w') -> w' = w.
Proof. intros H. rewrite <- (extract_text_world env path w), H. reflexivity. Qed.

Lemma translate_text_no_chat env text lang w :
  chat env = None ->
  translate_text env text lang w = (Raise (RuntimeError (str "Gemini not initialized")), w).
Proof. intros H. unfold translate_text. rewrite H. reflexivity. Qed.

Lemma chat_none_iff env : chat env = None <-> exists msg, vertex_start env = Failed msg.
Proof.
  unfold chat, initialize_vertex_ai. destruct (vertex_start env) as [c|msg].
  - split; [discriminate | intros [? [=]]].
  - split; eauto.
Qed.

(** [/health] reports whether the client started. *)
Lemma health_reports_chat env : snd (health env) = false <-> chat env = None.
Proof.
  unfold health. cbn [snd]. rewrite bool_decide_eq_false. split.
  - intros H. destruct (chat env); [exfalso; apply H; discriminate | reflexivity].
  - intros ->. auto.
Qed.

(** ** [TranslatedPDF] *)

Lemma Paragraph_cases {S} env text style (s : S) :
  (exists msg, paragraph_error env text = Some msg /\
     Paragraph env text style s = (Raise (LibraryError ReportLab msg), s))
  \/ (paragraph_error env text = None /\
      Paragraph env text style s = (Ok (ParagraphFlowable text style), s)).
Proof. unfold Paragraph. destruct (paragraph_error env text); [left|right]; eauto. Qed.

Lemma add_lines_accepted env style lines story0 :
  Forall (fun line => paragraph_error env line = None) lines ->
  for_each (fun line => let! p := Paragraph env line style in story_append p) lines story0
  = (Ok tt, story0 ++ map (fun line => ParagraphFlowable line style) lines).
Proof.
  intros H. revert story0. induction H as [|line lines Hl _ IH]; intros story0; cbn [for_each map].
  - by rewrite app_nil_r.
  - unfold bind at 1. unfold bind at 1. unfold Paragraph. rewrite Hl. cbn.
    rewrite IH. by rewrite <- app_assoc.
Qed.

Lemma add_paragraph_accepted env style para story0 :
  Forall (accepted env) (layout_paragraph env style para) ->
  add_paragraph env style para story0 = (Ok tt, story0 ++ layout_paragraph env style para).
Proof.
  unfold add_paragraph, layout_paragraph.
  destruct (truthy (strip para)); [|reflexivity].
  destruct (100 <? Z.of_nat (length para)).
  - intros H. apply add_lines_accepted.
    apply (proj1 (Forall_map _ _ _)) in H. exact H.
  - intros H. apply Forall_inv in H. cbn in H.
    unfold bind, Paragraph. rewrite H. reflexivity.
Qed.

(** When every paragraph is accepted, the loop of [add_text_block]
    appends the layout and raises nothing. *)
Lemma add_paragraphs_accepted env style paras story0 :
  Forall (accepted env) (concat (map (layout_paragraph env style) paras)) ->
  for_each (add_paragraph env style) paras story0
  = (Ok tt, story0 ++ concat (map (layout_paragraph env style) paras)).
Proof.
  revert story0. induction paras as [|para paras IH]; intros story0; cbn [for_each map concat].
  - intros _. by rewrite app_nil_r.
  - intros H. apply Forall_app in H as [H1 H2].
    unfold bind. rewrite (add_paragraph_accepted _ _ _ _ H1), (IH _ H2).
    by rewrite <- app_assoc.
Qed.

Lemma add_text_block_returns env self text w :
  paragraph_error env fallback_text = None ->
  exists self' w', add_text_block env self text w = (Ok self', w').
Proof.
  intros Hf. unfold add_text_block.
  destruct (for_each _ _ _) as [[[]|e] story']; [unfold ret; eauto|].
  unfold bind, logging_error, Paragraph. cbv beta iota. rewrite Hf.
  unfold ret. cbv beta iota. eauto.
Qed.

(** The [except] clause of [add_text_block] is not itself guarded: were
    the fallback sentence rejected as well, the exception would leave the
    method. *)
Lemma add_text_block_fallback_rejected env self text w e story' msg :
  for_each (add_paragraph env (normal_style self)) (split_on LF text) (story self)
  = (Raise e, story') ->
  paragraph_error env fallback_text = Some msg ->
  add_text_block env self text w
  = (Raise (LibraryError ReportLab msg),
     log_append (str "Error adding text block: " ++ exn_str e) w).
Proof.
  intros Hloop Hf. unfold add_text_block. rewrite Hloop.
  unfold bind, logging_error, Paragraph. cbv beta iota. rewrite Hf. reflexivity.
Qed.

Lemma add_text_block_keeps env self text w self' w' :
  add_text_block env self text w = (Ok self', w') ->
  filename self' = filename self /\ doc self' = doc self /\ fs w' = fs w.
Proof.
  unfold add_text_block.
  destruct (for_each _ _ _) as [[[]|e] story'].
  - intros [= <- <-]. auto.
  - unfold bind, logging_error. cbv beta iota.
    destruct (Paragraph_cases env fallback_text (normal_style self)
                (log_append (str "Error adding text block: " ++ exn_str e) w))
      as [(msg & _ & Hp) | (_ & Hp)]; rewrite Hp; [discriminate|].
    intros [= <- <-]. auto.
Qed.

Lemma _create_fallback_pdf_returns env self w :
  exists w', _create_fallback_pdf env self w = (Ok tt, w').
Proof.
  unfold _create_fallback_pdf, draw_fallback_pdf, try_except, bind, lift_outcome.
  destruct (canvas_render env letter fallback_drawing); cbn; [|eauto].
  unfold write_file. destruct (open_w_error env (filename self)); cbn; eauto.
Qed.

Lemma save_returns env self w : exists w', save env self w = (Ok tt, w').
Proof.
  unfold save, try_except.
  destruct (doc_build env (doc self) (story self) w) as [[[]|e] w1] eqn:Hb; [eauto|].
  unfold bind. cbn. apply _create_fallback_pdf_returns.
Qed.

Lemma doc_build_fails env pdf w :
  build_fails env pdf -> exists e, doc_build env (doc pdf) (story pdf) w = (Raise e, w).
Proof.
  unfold doc_build, bind, lift_outcome.
  intros [[msg Hr] | [msg Ho]].
  - rewrite Hr. cbn. eauto.
  - destruct (doc_render env (doc pdf) (story pdf)); cbn; [|eauto].
    unfold write_file. rewrite Ho. eauto.
Qed.

Lemma draw_fallback_pdf_fails env pdf w :
  fallback_fails env pdf -> exists e, draw_fallback_pdf env pdf w = (Raise e, w).
Proof.
  unfold draw_fallback_pdf, bind, lift_outcome.
  intros [[msg Hr] | [msg Ho]].
  - rewrite Hr. cbn. eauto.
  - destruct (canvas_render env letter fallback_drawing); cbn; [|eauto].
    unfold write_file. rewrite Ho. eauto.
Qed.

(** When neither the document nor the placeholder can be written,
    [save] still returns normally and leaves the disk as it was. *)
Lemma save_total_failure env pdf w :
  build_fails env pdf -> fallback_fails env pdf ->
  exists w', save env pdf w = (Ok tt, w') /\ fs w' = fs w.
Proof.
  intros Hb Hf. destruct (doc_build_fails env pdf w Hb) as [e1 H1].
  unfold save. rewrite (try_except_raise _ _ _ _ _ H1).
  unfold bind, logging_error. cbv beta iota.
  destruct (draw_fallback_pdf_fails env pdf
              (log_append (str "Error saving PDF: " ++ exn_str e1) w) Hf) as [e2 H2].
  unfold _create_fallback_pdf. rewrite (try_except_raise _ _ _ _ _ H2).
  eexists. split; reflexivity.
Qed.

(** ** Wrapping

    [textwrap.wrap] is a parameter of the model. Whenever it honours its
    width, as the library documents, the paragraphs of the layout are
    bounded. *)

Section Wrapping.
Variable env : Env.
Hypothesis wrap_fits :
  forall s, Forall (fun line => Z.of_nat (length line) <= 80) (textwrap_wrap env s 80).

(** What a long line contributes to the story fits the wrapping width. *)
Lemma layout_long_line_fits style para :
  100 < Z.of_nat (length para) ->
  Forall (paragraph_fits 80) (layout_paragraph env style para).
Proof.
  intros Hlong. unfold layout_paragraph.
  destruct (truthy (strip para)); [|by repeat constructor].
  rewrite (proj2 (Z.ltb_lt _ _) Hlong).
  apply Forall_map. eapply Forall_impl; [apply wrap_fits|]. by intros line Hl.
Qed.

(** No paragraph of the layout is longer than 100 characters. *)
Lemma layout_fits style text : Forall (paragraph_fits 100) (layout env style text).
Proof.
  unfold layout. apply Forall_concat, Forall_map, Forall_forall. intros para _.
  unfold layout_paragraph. destruct (truthy (strip para)); [|by repeat constructor].
  destruct (Z.ltb_spec 100 (Z.of_nat (length para))).
  - apply Forall_map. eapply Forall_impl; [apply (wrap_fits para)|].
    intros line Hl. unfold paragraph_fits. cbv beta in Hl. lia.
  - repeat constructor. unfold paragraph_fits. lia.
Qed.
End Wrapping.

Lemma chunks_fit fuel width s :
  Forall (fun line => (length line <= width)%nat) (chunks fuel width s).
Proof.
  revert s. induction fuel as [|fuel IH]; intros s; cbn [chunks]; [constructor|].
  destruct s as [|c s]; [constructor|]. constructor; [|apply IH].
  rewrite length_take. lia.
Qed.

(** The wrapper of the example environments honours its width. *)
Lemma sample_wrap_fits s :
  Forall (fun line => Z.of_nat (length line) <= 80) (textwrap_wrap sample_env s 80).
Proof.
  cbn [textwrap_wrap sample_env env_replying].
  eapply Forall_impl; [apply chunks_fit|]. intros line Hl. cbn in Hl. lia.
Qed.

(** ** The handler *)

(** After validation, [translate_body] is the pipeline. *)
Lemma translate_body_validated env req file lang :
  validated req file lang ->
  translate_body env req =
  (run! write_file env (upload_path env file) (upload_stream file) in
   let! original_text := extract_text env (upload_path env file) in
   let! translated := translate_text env original_text lang in
   if bool_decide (default (str "pdf") (multidict_get (str "format") (form req)) = str "txt")
   then respond_txt env translated lang
   else respond_pdf env translated lang).
Proof.
  intros (Hf & Hn & Hl & Hne). unfold translate_body.
  rewrite Hf, Hl. rewrite bool_decide_eq_false_2 by exact Hn.
  rewrite truthy_true by exact Hne. reflexivity.
Qed.

Lemma translate_of_body_raise env req w e w' :
  translate_body env req w = (Raise e, w') ->
  translate env req w =
  (Ok (Text (str "Error: " ++ exn_str e) 500), log_append (str "Error in translation") w').
Proof. intros H. unfold translate. rewrite (try_except_raise _ _ _ _ _ H). reflexivity. Qed.

Lemma translate_of_body_ok env req w r w' :
  translate_body env req w = (Ok r, w') -> translate env req w = (Ok r, w').
Proof. intros H. unfold translate. apply try_except_ok, H. Qed.

Lemma respond_txt_status env translated lang w r w' :
  respond_txt env translated lang w = (Ok r, w') ->
  status_of r = 200 \/ status_of r = 500.
Proof.
  unfold respond_txt. intros H.
  apply bind_ok_inv in H as ([] & w1 & _ & H).
  - apply send_file_ok_inv in H as (b & _ & _ & -> & _). by left.
  - injection H as <- _. by right.
Qed.

Lemma try_pdf_status env translated lang w r w' :
  try_pdf env translated lang w = (Ok r, w') -> status_of r = 200.
Proof.
  unfold try_pdf. intros H.
  apply bind_ok_inv in H as (pdf & w1 & _ & H).
  apply bind_ok_inv in H as ([] & w2 & _ & H).
  by apply send_file_ok_inv in H as (b & _ & _ & -> & _).
Qed.

Lemma respond_pdf_status env translated lang w r w' :
  respond_pdf env translated lang w = (Ok r, w') ->
  status_of r = 200 \/ status_of r = 500.
Proof.
  unfold respond_pdf, try_except.
  destruct (try_pdf env translated lang w) as [[r0|e] w0] eqn:Ht.
  - intros [= <- <-]. left. eapply try_pdf_status, Ht.
  - intros H. apply bind_ok_inv in H as ([] & w1 & _ & H).
    apply bind_ok_inv in H as ([] & w2 & _ & H).
    + apply send_file_ok_inv in H as (b & _ & _ & -> & _). by left.
    + injection H as <- _. by right.
Qed.

(** ** The fallback chain of the PDF branch *)

(** A rendering failure with a working canvas: the response is the
    placeholder PDF. *)
Lemma respond_pdf_placeholder env translated lang w pdf w1 placeholder :
  add_text_block env (TranslatedPDF_init OUTPUT_PDF) translated w = (Ok pdf, w1) ->
  build_fails env pdf ->
  canvas_render env letter fallback_drawing = Done placeholder ->
  open_w_error env OUTPUT_PDF = None ->
  download_name_error lang = None ->
  exists w',
    respond_pdf env translated lang w
    = (Ok (Attachment (download_name_of lang (str ".pdf")) placeholder), w')
    /\ fs w' !! OUTPUT_PDF = Some placeholder.
Proof.
  intros Ha Hb Hc Ho Hh.
  destruct (add_text_block_keeps _ _ _ _ _ _ Ha) as (Hname & _ & _).
  change (filename (TranslatedPDF_init OUTPUT_PDF)) with OUTPUT_PDF in Hname.
  destruct (doc_build_fails env pdf w1 Hb) as [e1 H1].
  set (w2 := log_append (str "Error saving PDF: " ++ exn_str e1) w1).
  assert (save env pdf w1 = (Ok tt, set_fs (<[OUTPUT_PDF := placeholder]> (fs w2)) w2)) as Hs.
  { unfold save. rewrite (try_except_raise _ _ _ _ _ H1).
    unfold bind, logging_error. cbv beta iota. fold w2.
    unfold _create_fallback_pdf, draw_fallback_pdf, try_except, bind, lift_outcome.
    rewrite Hc. unfold ret. cbv beta iota. unfold write_file. rewrite Hname, Ho.
    reflexivity. }
  exists (set_fs (<[OUTPUT_PDF := placeholder]> (fs w2)) w2). split.
  - unfold respond_pdf. apply try_except_ok. unfold try_pdf.
    rewrite (bind_ok _ _ _ _ _ Ha), (bind_ok _ _ _ _ _ Hs).
    apply send_file_ok; [cbn [fs set_fs]; apply lookup_insert_eq|].
    by rewrite (proj2 (download_name_error_of lang)).
  - cbn [fs set_fs]. apply lookup_insert_eq.
Qed.

(** A total PDF failure when no PDF is on disk: [send_file] raises, the
    handler's own [except] clause takes over and sends the text file. *)
Lemma respond_pdf_text_fallback env translated lang w pdf w1 b :
  add_text_block env (TranslatedPDF_init OUTPUT_PDF) translated w = (Ok pdf, w1) ->
  build_fails env pdf -> fallback_fails env pdf ->
  fs w !! OUTPUT_PDF = None ->
  utf8_encode translated = Some b -> open_w_error env OUTPUT_TXT = None ->
  download_name_error lang = None ->
  exists w',
    respond_pdf env translated lang w
    = (Ok (Attachment (download_name_of lang (str ".txt")) b), w').
Proof.
  intros Ha Hb Hf Hnone He Ho Hh.
  destruct (add_text_block_keeps _ _ _ _ _ _ Ha) as (_ & _ & Hfs1).
  destruct (save_total_failure env pdf w1 Hb Hf) as (w2 & Hs & Hfs2).
  assert (try_pdf env translated lang w = (Raise (FileNotFoundError OUTPUT_PDF), w2)) as Ht.
  { unfold try_pdf. rewrite (bind_ok _ _ _ _ _ Ha), (bind_ok _ _ _ _ _ Hs).
    unfold send_file. rewrite Hfs2, Hfs1, Hnone. reflexivity. }
  unfold respond_pdf. rewrite (try_except_raise _ _ _ _ _ Ht).
  unfold bind at 1. unfold logging_error at 1. cbv beta iota.
  set (w3 := log_append _ w2).
  assert (create_text_file env translated OUTPUT_TXT w3
          = (Ok true, set_fs (<[OUTPUT_TXT := b]> (fs w3)) w3)) as Hc.
  { apply create_text_file_true. eauto. }
  rewrite (bind_ok _ _ _ _ _ Hc). eexists. apply send_file_ok.
  - cbn [fs set_fs]. apply lookup_insert_eq.
  - by rewrite (proj1 (download_name_error_of lang)).
Qed.

(** A total PDF failure when an earlier PDF is on disk: [save] has
    swallowed both failures, so [send_file] finds the old file and sends
    it; the text fallback is never reached. *)
Lemma respond_pdf_sends_stale_file env translated lang w pdf w1 stale :
  add_text_block env (TranslatedPDF_init OUTPUT_PDF) translated w = (Ok pdf, w1) ->
  build_fails env pdf -> fallback_fails env pdf ->
  fs w !! OUTPUT_PDF = Some stale ->
  download_name_error lang = None ->
  exists w',
    respond_pdf env translated lang w
    = (Ok (Attachment (download_name_of lang (str ".pdf")) stale), w')
    /\ fs w' = fs w.
Proof.
  intros Ha Hb Hf Hstale Hh.
  destruct (add_text_block_keeps _ _ _ _ _ _ Ha) as (_ & _ & Hfs1).
  destruct (save_total_failure env pdf w1 Hb Hf) as (w2 & Hs & Hfs2).
  exists w2. split; [|congruence].
  unfold respond_pdf. apply try_except_ok.
  unfold try_pdf. rewrite (bind_ok _ _ _ _ _ Ha), (bind_ok _ _ _ _ _ Hs).
  apply send_file_ok; [by rewrite Hfs2, Hfs1 | by rewrite (proj2 (download_name_error_of lang))].
Qed.

(** On an empty disk, a total PDF failure ends in the text file. *)
Example total_failure_on_empty_disk :
  fst (translate (env_locking OUTPUT_PDF (str "Bonjour le monde"))
         (sample_request "notes.txt" (str "Hello world") [("language", "French")])
         empty_world)
  = Ok (Attachment (str "translated_French.txt") (str "Bonjour le monde")).
Proof. vm_compute. reflexivity. Qed.

(** When only the layout fails, the response is the placeholder. *)
Example layout_failure_gives_placeholder :
  fst (respond_pdf
         {| vertex_start := Done ChatHandle;
            send_message := send_message sample_env;
            secure_filename := secure_filename sample_env;
            open_w_error := open_w_error sample_env;
            fitz_pages := fitz_pages sample_env;
            paragraph_error := paragraph_error sample_env;
            textwrap_wrap := textwrap_wrap sample_env;
            doc_render := fun _ _ => Failed (str "LayoutError");
            canvas_render := canvas_render sample_env |}
         (str "Bonjour le monde") (str "French") world_with_stale_pdf)
  = Ok (Attachment (str "translated_French.pdf") (str "%PDF placeholder")).
Proof. vm_compute. reflexivity. Qed.

(** * The claims *)

(** C1. The claim: in the PDF branch a rendering failure degrades the
    output to the placeholder PDF, and a total PDF failure degrades it to
    a text file holding the translated text. The first half is
    [respond_pdf_placeholder]; the second half holds on a disk with no
    earlier PDF ([respond_pdf_text_fallback]) and fails here: an earlier
    [translated_output.pdf] is on disk, neither the document nor the
    placeholder can be written, and the handler answers with the earlier
    file, logs the two failures and creates no text file. *)
Theorem C1_total_pdf_failure_sends_stale_pdf :
  fst (translate (env_locking OUTPUT_PDF (str "Bonjour le monde"))
         (sample_request "notes.txt" (str "Hello world") [("language", "French")])
         world_with_stale_pdf)
  = Ok (Attachment (str "translated_French.pdf") stale_pdf)
  /\ log (snd (translate (env_locking OUTPUT_PDF (str "Bonjour le monde"))
                 (sample_request "notes.txt" (str "Hello world") [("language", "French")])
                 world_with_stale_pdf))
     = [str "Error saving PDF: [Errno 13] Permission denied";
        str "Error creating fallback PDF: [Errno 13] Permission denied"]
  /\ fs (snd (translate (env_locking OUTPUT_PDF (str "Bonjour le monde"))
                (sample_request "notes.txt" (str "Hello world") [("language", "French")])
                world_with_stale_pdf)) !! OUTPUT_TXT = None.
Proof. repeat split; vm_compute; reflexivity. Qed.

(** C2, as amended. In a request with [format=txt] whose upload is saved,
    extracted and translated, the response depends on whether the output
    file can be written and on the language. If the model's text is
    encodable as UTF-8, the file opens for writing and the language is
    encodable and holds no line break, the response is the attachment
    [translated_<language>.txt] whose body is the UTF-8 encoding of the
    model's text: decoding the body gives that text back character for
    character. If the file is written and [send_file] refuses the
    download name made from the language (a carriage return or a line
    feed in it, or a lone surrogate), the response is the 500 message
    "Error: " followed by the text of that refusal. If the file cannot
    be written, the response is the 500 message
    "Error creating text file". *)
Theorem C2_txt_attachment_is_the_model_text
    env req file lang w w1 original w2 translated w3 :
  validated req file lang ->
  multidict_get (str "format") (form req) = Some (str "txt") ->
  write_file env (upload_path env file) (upload_stream file) w = (Ok tt, w1) ->
  extract_text env (upload_path env file) w1 = (Ok original, w2) ->
  translate_text env original lang w2 = (Ok translated, w3) ->
  (forall b,
      utf8_encode translated = Some b -> open_w_error env OUTPUT_TXT = None ->
      utf8_decode b = Some translated
      /\ (is_Some (utf8_encode lang) -> CR ∉ lang -> LF ∉ lang ->
          translate env req w
          = (Ok (Attachment (download_name_of lang (str ".txt")) b),
             set_fs (<[OUTPUT_TXT := b]> (fs w3)) w3))
      /\ (forall e,
            download_name_error lang = Some e ->
            translate env req w
            = (Ok (Text (str "Error: " ++ exn_str e) 500),
               log_append (str "Error in translation")
                 (set_fs (<[OUTPUT_TXT := b]> (fs w3)) w3))))
  /\ (utf8_encode translated = None \/ open_w_error env OUTPUT_TXT <> None ->
      exists w4,
        translate env req w = (Ok (Text (str "Error creating text file") 500), w4)).
Proof.
  intros Hv Hfmt Hw He Ht.
  assert (translate_body env req w = respond_txt env translated lang w3) as Hbody.
  { rewrite (translate_body_validated _ _ _ _ Hv).
    rewrite (bind_ok _ _ _ _ _ Hw), (bind_ok _ _ _ _ _ He), (bind_ok _ _ _ _ _ Ht).
    rewrite Hfmt. rewrite bool_decide_eq_true_2 by reflexivity. reflexivity. }
  split.
  - intros b Hb Ho. split; [by apply utf8_decode_encode|].
    assert (create_text_file env translated OUTPUT_TXT w3
            = (Ok true, set_fs (<[OUTPUT_TXT := b]> (fs w3)) w3)) as Hc.
    { apply create_text_file_true. eauto. }
    split.
    + intros Henc Hcr Hlf. apply translate_of_body_ok. rewrite Hbody. unfold respond_txt.
      rewrite (bind_ok _ _ _ _ _ Hc). apply send_file_ok.
      * cbn [fs set_fs]. apply lookup_insert_eq.
      * rewrite (proj1 (download_name_error_of lang)). by apply download_name_error_none.
    + intros e Hname. apply (translate_of_body_raise _ _ _ e).
      rewrite Hbody. unfold respond_txt. rewrite (bind_ok _ _ _ _ _ Hc).
      unfold send_file. cbn [fs set_fs]. rewrite lookup_insert_eq.
      by rewrite (proj1 (download_name_error_of lang)), Hname.
  - intros Hfail.
    destruct (create_text_file_false env translated OUTPUT_TXT w3 Hfail) as (w4 & Hc).
    exists w4. apply translate_of_body_ok. rewrite Hbody. unfold respond_txt.
    rewrite (bind_ok _ _ _ _ _ Hc). reflexivity.
Qed.

(** C2, witness: a [txt] request in the environment where everything
    works, once for the language [French] and once for a language with a
    line feed in it. *)
Lemma C2_witness :
  fst (translate sample_env
         (sample_request "notes.txt" (str "Hello world")
            [("language", "French"); ("format", "txt")])
         empty_world)
  = Ok (Attachment (str "translated_French.txt") (str "Bonjour le monde"))
  /\ utf8_decode (str "Bonjour le monde") = Some (str "Bonjour le monde")
  /\ fst (translate sample_env
            {| files := [(str "file", sample_upload "notes.txt" (str "Hello world"))];
               form := [(str "language", str "Fr" ++ [LF] ++ str "ench");
                        (str "format", str "txt")] |}
            empty_world)
     = Ok (Text (str "Error: Header values must not contain newline characters.") 500).
Proof.
  split; [|split].
  - edestruct (C2_txt_attachment_is_the_model_text sample_env
                 (sample_request "notes.txt" (str "Hello world")
                    [("language", "French"); ("format", "txt")])
                 (sample_upload "notes.txt" (str "Hello world")) (str "French")
                 empty_world) as [Hok _].
    + repeat split; vm_compute; (reflexivity || discriminate).
    + vm_compute. reflexivity.
    + vm_compute. reflexivity.
    + vm_compute. reflexivity.
    + vm_compute. reflexivity.
    + destruct (Hok (str "Bonjour le monde")) as (_ & Htr & _).
      * vm_compute. reflexivity.
      * reflexivity.
      * rewrite Htr.
        -- vm_compute. reflexivity.
        -- vm_compute. eauto.
        -- apply (bool_decide_eq_false_1 _). vm_compute. reflexivity.
        -- apply (bool_decide_eq_false_1 _). vm_compute. reflexivity.
  - vm_compute. reflexivity.
  - edestruct (C2_txt_attachment_is_the_model_text sample_env
                 {| files := [(str "file", sample_upload "notes.txt" (str "Hello world"))];
                    form := [(str "language", str "Fr" ++ [LF] ++ str "ench");
                             (str "format", str "txt")] |}
                 (sample_upload "notes.txt" (str "Hello world"))
                 (str "Fr" ++ [LF] ++ str "ench")
                 empty_world) as [Hok _].
    + repeat split; vm_compute; (reflexivity || discriminate).
    + vm_compute. reflexivity.
    + vm_compute. reflexivity.
    + vm_compute. reflexivity.
    + vm_compute. reflexivity.
    + destruct (Hok (str "Bonjour le monde")) as (_ & _ & Hbreak).
      * vm_compute. reflexivity.
      * reflexivity.
      * rewrite (Hbreak (ValueError header_newline_error)); vm_compute; reflexivity.
Defined.

(** C2, counterexample. Extraction and translation succeed, the request
    asks for [txt], and the output file cannot be opened: the response is
    a 500 message, not a text attachment. *)
Lemma C2_unwritable_output_gives_500 :
  fst (extract_text (env_locking OUTPUT_TXT (str "Bonjour le monde"))
         (str "uploads/notes.txt")
         (World (<[str "uploads/notes.txt" := str "Hello world"]> ∅) [] []))
  = Ok (str "Hello world")
  /\ fst (translate_text (env_locking OUTPUT_TXT (str "Bonjour le monde"))
            (str "Hello world") (str "French")
            (World (<[str "uploads/notes.txt" := str "Hello world"]> ∅) [] []))
     = Ok (str "Bonjour le monde")
  /\ fst (translate (env_locking OUTPUT_TXT (str "Bonjour le monde"))
            (sample_request "notes.txt" (str "Hello world")
               [("language", "French"); ("format", "txt")])
            empty_world)
     = Ok (Text (str "Error creating text file") 500).
Proof. repeat split; vm_compute; reflexivity. Qed.

(** C3, as amended. [extract_text] raises its unsupported-file-type
    error if and only if the path ends in neither [.txt] nor [.pdf]; it
    never changes the world. For a path ending in [.txt]: a missing file
    raises [FileNotFoundError], a file that is not UTF-8 raises
    [UnicodeDecodeError], and otherwise the result is the decoded content
    with every CR LF pair, and then every CR left, replaced by one LF; it
    never holds a carriage return, and when the content has none it is
    the content itself, which encodes back to the very bytes of the
    file. For a path ending in [.pdf]: a missing file and a file
    that PyMuPDF cannot open raise, and otherwise the result is the text
    of the first page followed by each further page with one line feed
    before it, nothing for a document without pages. *)
Theorem C3_extract_text_dispatch env path w :
  (fst (extract_text env path w) = Raise (ValueError (str "Unsupported file type"))
   <-> endswith path (str ".txt") = false /\ endswith path (str ".pdf") = false)
  /\ snd (extract_text env path w) = w
  /\ (endswith path (str ".txt") = true ->
      match fs w !! path with
      | None => extract_text env path w = (Raise (FileNotFoundError path), w)
      | Some b =>
          match utf8_decode b with
          | None => extract_text env path w = (Raise UnicodeDecodeError, w)
          | Some s =>
              extract_text env path w = (Ok (cr_to_lf (crlf_to_lf s)), w)
              /\ (CR ∉ cr_to_lf (crlf_to_lf s))
              /\ (CR ∉ s -> cr_to_lf (crlf_to_lf s) = s /\ utf8_encode s = Some b)
          end
      end)
  /\ (endswith path (str ".txt") = false -> endswith path (str ".pdf") = true ->
      match fs w !! path with
      | None =>
          extract_text env path w
          = (Raise (LibraryError PyMuPDF (str "no such file: '" ++ path ++ str "'")), w)
      | Some b =>
          match fitz_pages env b with
          | Failed msg => extract_text env path w = (Raise (LibraryError PyMuPDF msg), w)
          | Done pages =>
              extract_text env path w
              = (Ok match pages with
                    | [] => []
                    | first :: rest => first ++ concat (map (cons LF) rest)
                    end,
                 w)
          end
      end).
Proof.
  split; [apply extract_text_unsupported_iff|]. split; [apply extract_text_world|]. split.
  - intros Ht. rewrite extract_text_txt by assumption. unfold read_text.
    destruct (fs w !! path) as [b|]; [|reflexivity].
    destruct (utf8_decode b) as [s|] eqn:Hs; [|reflexivity].
    rewrite <- universal_newlines_two_passes.
    split; [reflexivity|]. split; [apply universal_newlines_has_no_cr|].
    intros Hcr. split; [by apply universal_newlines_no_cr | by apply utf8_encode_decode].
  - intros Ht Hp. unfold extract_text. rewrite Ht, Hp.
    destruct (fs w !! path) as [b|]; [|reflexivity].
    unfold bind, lift_outcome. destruct (fitz_pages env b) as [pages|msg]; [|reflexivity].
    unfold ret. do 2 f_equal. destruct pages as [|first rest]; [reflexivity|].
    revert first. induction rest as [|second rest IH]; intros first.
    + cbn. by rewrite app_nil_r.
    + rewrite join_cons_cons, IH. reflexivity.
Qed.

(** C3, witness: a text file with a CR LF line end and a lone CR, a PDF
    of two pages, and a [.docx] path. *)
Lemma C3_witness :
  extract_text sample_env (str "uploads/notes.txt")
    (World (<[str "uploads/notes.txt" := [97; CR; LF; 98; CR; 99]]> ∅) [] [])
  = (Ok [97; LF; 98; LF; 99],
     World (<[str "uploads/notes.txt" := [97; CR; LF; 98; CR; 99]]> ∅) [] [])
  /\ extract_text (env_paged [str "Hello"; str "world"]) (str "uploads/report.pdf")
       (World (<[str "uploads/report.pdf" := str "%PDF-1.7"]> ∅) [] [])
     = (Ok (str "Hello" ++ [LF] ++ str "world"),
        World (<[str "uploads/report.pdf" := str "%PDF-1.7"]> ∅) [] [])
  /\ fst (extract_text sample_env (str "uploads/notes.docx")
            (World (<[str "uploads/notes.docx" := str "Hello world"]> ∅) [] []))
     = Raise (ValueError (str "Unsupported file type")).
Proof.
  split; [|split].
  - destruct (C3_extract_text_dispatch sample_env (str "uploads/notes.txt")
                (World (<[str "uploads/notes.txt" := [97; CR; LF; 98; CR; 99]]> ∅) [] []))
      as (_ & _ & Htxt & _).
    specialize (Htxt ltac:(vm_compute; reflexivity)).
    vm_compute in Htxt. destruct Htxt as [Hx _]. exact Hx.
  - destruct (C3_extract_text_dispatch (env_paged [str "Hello"; str "world"])
                (str "uploads/report.pdf")
                (World (<[str "uploads/report.pdf" := str "%PDF-1.7"]> ∅) [] []))
      as (_ & _ & _ & Hpdf).
    specialize (Hpdf ltac:(vm_compute; reflexivity) ltac:(vm_compute; reflexivity)).
    vm_compute in Hpdf. exact Hpdf.
  - destruct (C3_extract_text_dispatch sample_env (str "uploads/notes.docx")
                (World (<[str "uploads/notes.docx" := str "Hello world"]> ∅) [] []))
      as (Hiff & _).
    apply Hiff. split; vm_compute; reflexivity.
Defined.

(** C3, counterexample. Three paths ending in [.txt] for which the
    result is not the file's full text content: a file whose text holds a
    CR LF pair comes back with the carriage return gone; a file in
    Latin-1 (the bytes of "caf" and 0xE9) raises [UnicodeDecodeError];
    a path that names no file raises [FileNotFoundError]. *)
Lemma C3_recognized_suffix_without_the_content :
  endswith (str "uploads/notes.txt") (str ".txt") = true
  /\ utf8_decode [97; CR; LF; 98] = Some [97; CR; LF; 98]
  /\ fst (extract_text sample_env (str "uploads/notes.txt")
            (World (<[str "uploads/notes.txt" := [97; CR; LF; 98]]> ∅) [] []))
     = Ok [97; LF; 98]
  /\ fst (extract_text sample_env (str "uploads/notes.txt")
            (World (<[str "uploads/notes.txt" := [97; CR; LF; 98]]> ∅) [] []))
     <> Ok [97; CR; LF; 98]
  /\ fst (extract_text sample_env (str "uploads/notes.txt")
            (World (<[str "uploads/notes.txt" := [99; 97; 102; 233]]> ∅) [] []))
     = Raise UnicodeDecodeError
  /\ fst (extract_text sample_env (str "uploads/notes.txt") empty_world)
     = Raise (FileNotFoundError (str "uploads/notes.txt")).
Proof.
  split; [vm_compute; reflexivity|].
  split; [vm_compute; reflexivity|].
  split; [vm_compute; reflexivity|].
  split; [vm_compute; discriminate|].
  split; vm_compute; reflexivity.
Qed.

(** C4, as amended. For every string [s] that holds no carriage return,
    if writing [s] to a path ending in [.txt] succeeds, extraction on that
    path returns exactly [s] and leaves the world as it is. *)
Theorem C4_txt_roundtrip env path s w w' :
  endswith path (str ".txt") = true ->
  CR ∉ s ->
  write_text env path s w = (Ok tt, w') ->
  extract_text env path w' = (Ok s, w').
Proof.
  intros Hp Hcr Hw. rewrite extract_text_txt by exact Hp.
  unfold write_text in Hw. destruct (utf8_encode s) as [b|] eqn:He.
  - destruct (write_file_cases env path b w) as [(msg & _ & H) | (_ & H)];
      rewrite H in Hw; [discriminate|]. injection Hw as <-.
    rewrite (read_text_decoded path _ b s).
    + by rewrite universal_newlines_no_cr.
    + cbn. apply lookup_insert_eq.
    + by apply utf8_decode_encode.
  - unfold bind in Hw. destruct (write_file env path [] w) as [[[]|e] w1]; discriminate.
Qed.

(** C4, witness. *)
Lemma C4_witness :
  extract_text sample_env (str "note.txt")
    (World (<[str "note.txt" := str "Hello world"]> ∅) [] [])
  = (Ok (str "Hello world"), World (<[str "note.txt" := str "Hello world"]> ∅) [] []).
Proof.
  apply (C4_txt_roundtrip sample_env (str "note.txt") (str "Hello world") empty_world).
  - vm_compute. reflexivity.
  - apply (bool_decide_eq_false_1 _). vm_compute. reflexivity.
  - vm_compute. reflexivity.
Defined.

(** C4, counterexample. The string "a", carriage return, "b" is written
    to a [.txt] file without error and comes back with a line feed in
    place of the carriage return. *)
Lemma C4_carriage_return_is_not_preserved :
  fst (write_text sample_env (str "note.txt") [97; CR; 98] empty_world) = Ok tt
  /\ fst (extract_text sample_env (str "note.txt")
            (snd (write_text sample_env (str "note.txt") [97; CR; 98] empty_world)))
     = Ok [97; LF; 98]
  /\ fst (extract_text sample_env (str "note.txt")
            (snd (write_text sample_env (str "note.txt") [97; CR; 98] empty_world)))
     <> Ok [97; CR; 98].
Proof.
  split; [vm_compute; reflexivity|].
  split; [vm_compute; reflexivity|].
  vm_compute. discriminate.
Qed.

(** C5. A request that carries a file with a non-empty name, and in whose
    form every [language] field is empty (or there is none), is answered
    with the 400 response "No target language specified", and the world is
    untouched: nothing was saved, extracted, translated or logged. *)
Theorem C5_missing_language_is_rejected env req w file :
  multidict_get (str "file") (files req) = Some file ->
  upload_filename file <> [] ->
  (forall v, (str "language", v) ∈ form req -> v = []) ->
  translate env req w = (Ok (Text (str "No target language specified") 400), w).
Proof.
  intros Hf Hn Hl. apply translate_of_body_ok. unfold translate_body.
  rewrite Hf. rewrite bool_decide_eq_false_2 by exact Hn.
  destruct (multidict_get (str "language") (form req)) as [lang|] eqn:Hg; [|reflexivity].
  apply multidict_get_elem, Hl in Hg. subst lang. reflexivity.
Qed.

(** C5, witness: the language field is present and empty. *)
Lemma C5_witness :
  translate sample_env
    {| files := [(str "file", sample_upload "notes.txt" (str "Hello world"))];
       form := [(str "language", []); (str "format", str "txt")] |}
    empty_world
  = (Ok (Text (str "No target language specified") 400), empty_world).
Proof.
  apply (C5_missing_language_is_rejected sample_env _ empty_world
           (sample_upload "notes.txt" (str "Hello world"))).
  - vm_compute. reflexivity.
  - vm_compute. discriminate.
  - intros v Hin. apply list_elem_of_In in Hin. vm_compute in Hin.
    destruct Hin as [Hin | [Hin | []]]; [congruence | discriminate Hin].
Defined.

(** C6. When the chat handle is [None], [translate_text] raises
    "Gemini not initialized" for every text, language and world, and every
    request that passes the three validations is answered with status
    500. *)
Theorem C6_no_client_gives_500 env :
  chat env = None ->
  (forall text lang w,
      translate_text env text lang w
      = (Raise (RuntimeError (str "Gemini not initialized")), w))
  /\ (forall req file lang w,
        validated req file lang ->
        exists body w', translate env req w = (Ok (Text body 500), w')).
Proof.
  intros Hc. split; [intros; by apply translate_text_no_chat|].
  intros req file lang w Hv.
  assert (exists e w', translate_body env req w = (Raise e, w')) as (e & w' & Hb).
  { rewrite (translate_body_validated _ _ _ _ Hv).
    destruct (write_file env (upload_path env file) (upload_stream file) w)
      as [[[]|e1] w1] eqn:Hw; [|rewrite (bind_raise _ _ _ _ _ Hw); eauto].
    rewrite (bind_ok _ _ _ _ _ Hw).
    destruct (extract_text env (upload_path env file) w1) as [[original|e2] w2] eqn:He;
      [|rewrite (bind_raise _ _ _ _ _ He); eauto].
    rewrite (bind_ok _ _ _ _ _ He).
    rewrite (bind_raise _ _ _ _ _ (translate_text_no_chat env original lang w2 Hc)). eauto. }
  rewrite (translate_of_body_raise _ _ _ _ _ Hb). eauto.
Qed.

(** C6, witness: the environment whose client failed to start. *)
Lemma C6_witness :
  chat no_chat_env = None
  /\ translate_text no_chat_env (str "Hello world") (str "French") empty_world
     = (Raise (RuntimeError (str "Gemini not initialized")), empty_world)
  /\ exists body w',
       translate no_chat_env
         (sample_request "notes.txt" (str "Hello world") [("language", "French")])
         empty_world
       = (Ok (Text body 500), w').
Proof.
  assert (chat no_chat_env = None) as Hc by reflexivity.
  destruct (C6_no_client_gives_500 no_chat_env Hc) as [Htext Hreq].
  split; [exact Hc|]. split; [apply Htext|].
  apply (Hreq _ (sample_upload "notes.txt" (str "Hello world")) (str "French")).
  repeat split; vm_compute; (reflexivity || discriminate).
Defined.

(** C7, as amended. [translate] never propagates an exception: it always
    returns a response. An exception raised while saving the upload, by
    [extract_text] or by [translate_text] reaches the handler boundary and
    becomes the 500 response "Error: " followed by the exception's
    message, which the body therefore contains. (In the output step the
    failures of writing the text file, of laying the document out and of
    saving it are dealt with inside the step and are not reported this
    way; an exception that the step lets escape, such as [send_file]
    refusing the download name, is reported like the others.) *)
Theorem C7_exceptions_become_error_responses env req w :
  (exists r w', translate env req w = (Ok r, w'))
  /\ (forall e w',
        translate_body env req w = (Raise e, w') ->
        translate env req w
        = (Ok (Text (str "Error: " ++ exn_str e) 500),
           log_append (str "Error in translation") w'))
  /\ (forall file lang e w',
        validated req file lang ->
        let path := upload_path env file in
        (write_file env path (upload_stream file) w = (Raise e, w')
         \/ (exists w1,
               write_file env path (upload_stream file) w = (Ok tt, w1)
               /\ extract_text env path w1 = (Raise e, w'))
         \/ (exists w1 original w2,
               write_file env path (upload_stream file) w = (Ok tt, w1)
               /\ extract_text env path w1 = (Ok original, w2)
               /\ translate_text env original lang w2 = (Raise e, w'))) ->
        translate env req w
        = (Ok (Text (str "Error: " ++ exn_str e) 500),
           log_append (str "Error in translation") w')
        /\ contains (str "Error: " ++ exn_str e) (exn_str e) = true).
Proof.
  split; [|split].
  - destruct (translate_body env req w) as [[r|e] w'] eqn:Hb.
    + rewrite (translate_of_body_ok _ _ _ _ _ Hb). eauto.
    + rewrite (translate_of_body_raise _ _ _ _ _ Hb). eauto.
  - intros e w'. apply translate_of_body_raise.
  - intros file lang e w' Hv path Hstage. split; [|apply contains_app_r].
    apply translate_of_body_raise.
    rewrite (translate_body_validated _ _ _ _ Hv). fold path.
    destruct Hstage as [Hw | [(w1 & Hw & He) | (w1 & original & w2 & Hw & He & Ht)]].
    + by rewrite (bind_raise _ _ _ _ _ Hw).
    + rewrite (bind_ok _ _ _ _ _ Hw). by rewrite (bind_raise _ _ _ _ _ He).
    + rewrite (bind_ok _ _ _ _ _ Hw), (bind_ok _ _ _ _ _ He).
      by rewrite (bind_raise _ _ _ _ _ Ht).
Qed.

(** C7, witness: an upload with an unsupported suffix. *)
Lemma C7_witness :
  translate sample_env
    (sample_request "notes.docx" (str "Hello world") [("language", "French")])
    empty_world
  = (Ok (Text (str "Error: Unsupported file type") 500),
     log_append (str "Error in translation")
       (World (<[str "uploads/notes.docx" := str "Hello world"]> ∅) [] [])).
Proof.
  destruct (C7_exceptions_become_error_responses sample_env
              (sample_request "notes.docx" (str "Hello world") [("language", "French")])
              empty_world) as (_ & _ & Hstage).
  destruct (Hstage (sample_upload "notes.docx" (str "Hello world")) (str "French")
              (ValueError (str "Unsupported file type"))
              (World (<[str "uploads/notes.docx" := str "Hello world"]> ∅) [] []))
    as [Htr _].
  - repeat split; vm_compute; (reflexivity || discriminate).
  - right. left. eexists. split; vm_compute; reflexivity.
  - exact Htr.
Defined.

(** C7, counterexample. Two exceptions raised in the output step that do
    not become an error response carrying their message: the refusal to
    open the text file ends as the fixed message of [create_text_file]'s
    caller, and a paragraph rejected by the markup parser ends as a
    successful PDF attachment. *)
Lemma C7_output_exceptions_are_not_reported :
  fst (write_text (env_locking OUTPUT_TXT (str "Bonjour le monde")) OUTPUT_TXT
         (str "Bonjour le monde") empty_world)
  = Raise (OSError permission_denied)
  /\ fst (translate (env_locking OUTPUT_TXT (str "Bonjour le monde"))
            (sample_request "notes.txt" (str "Hello world")
               [("language", "French"); ("format", "txt")])
            empty_world)
     = Ok (Text (str "Error creating text file") 500)
  /\ contains (str "Error creating text file") (exn_str (OSError permission_denied)) = false
  /\ fst (Paragraph (env_strict_markup (str "<b>")) (str "<b>")
            (normal_style (TranslatedPDF_init OUTPUT_PDF)) empty_world)
     = Raise (LibraryError ReportLab parse_error)
  /\ exists body,
       fst (translate (env_strict_markup (str "<b>"))
              (sample_request "notes.txt" (str "Hello world") [("language", "French")])
              empty_world)
       = Ok (Attachment (str "translated_French.pdf") body).
Proof.
  split; [vm_compute; reflexivity|].
  split; [vm_compute; reflexivity|].
  split; [vm_compute; reflexivity|].
  split; [vm_compute; reflexivity|].
  eexists. vm_compute. reflexivity.
Qed.

(** C8, as amended. For every translated text none of whose paragraphs is
    rejected by the paragraph constructor, [add_text_block] appends to the
    story exactly the layout of the text: the text is split on line
    feeds, a blank line gives a spacer, a line of more than 100 characters
    gives one paragraph per piece of [textwrap.wrap] at the one width 80,
    and any other line gives one paragraph; nothing is logged. *)
Theorem C8_layout_of_accepted_text env self text w :
  Forall (accepted env) (layout env (normal_style self) text) ->
  add_text_block env self text w
  = (Ok (set_story self (story self ++ layout env (normal_style self) text)), w).
Proof.
  intros H. unfold add_text_block.
  rewrite (add_paragraphs_accepted _ _ _ _ H). reflexivity.
Qed.

(** C8, witness: a short line, a blank line and a line of 120 characters. *)
Lemma C8_witness :
  add_text_block sample_env (TranslatedPDF_init OUTPUT_PDF)
    (str "Bonjour" ++ [LF; LF] ++ replicate 120 97) empty_world
  = (Ok (set_story (TranslatedPDF_init OUTPUT_PDF)
           [ParagraphFlowable (str "Bonjour") (normal_style (TranslatedPDF_init OUTPUT_PDF));
            Spacer 1 6;
            ParagraphFlowable (replicate 80 97) (normal_style (TranslatedPDF_init OUTPUT_PDF));
            ParagraphFlowable (replicate 40 97) (normal_style (TranslatedPDF_init OUTPUT_PDF))]),
     empty_world).
Proof.
  rewrite (C8_layout_of_accepted_text sample_env (TranslatedPDF_init OUTPUT_PDF)
             (str "Bonjour" ++ [LF; LF] ++ replicate 120 97) empty_world).
  - vm_compute. reflexivity.
  - apply Forall_forall. intros [t st | wd ht] _; [reflexivity | exact I].
Defined.

(** C8, counterexample. The second of three lines is rejected by the
    markup parser: the story holds the first line and the fallback notice,
    and the third line is never laid out. *)
Lemma C8_rejected_markup_truncates_layout :
  split_on LF (str "one" ++ [LF] ++ str "<b>" ++ [LF] ++ str "two")
  = [str "one"; str "<b>"; str "two"]
  /\ exists pdf w',
       add_text_block (env_strict_markup []) (TranslatedPDF_init OUTPUT_PDF)
         (str "one" ++ [LF] ++ str "<b>" ++ [LF] ++ str "two") empty_world
       = (Ok pdf, w')
       /\ story pdf
          = [ParagraphFlowable (str "one") (normal_style (TranslatedPDF_init OUTPUT_PDF));
             ParagraphFlowable fallback_text (normal_style (TranslatedPDF_init OUTPUT_PDF))]
       /\ story pdf
          <> layout (env_strict_markup []) (normal_style (TranslatedPDF_init OUTPUT_PDF))
               (str "one" ++ [LF] ++ str "<b>" ++ [LF] ++ str "two").
Proof.
  split; [vm_compute; reflexivity|].
  eexists _, _. split; [vm_compute; reflexivity|].
  split; [vm_compute; reflexivity|].
  vm_compute. discriminate.
Qed.

(** A line of 81 to 100 characters is added whole: the test for a long
    line is 100 characters, the wrapping width is 80. *)
Example line_of_90_is_one_paragraph :
  fst (add_text_block sample_env (TranslatedPDF_init OUTPUT_PDF) (replicate 90 97) empty_world)
  = Ok (set_story (TranslatedPDF_init OUTPUT_PDF)
          [ParagraphFlowable (replicate 90 97) (normal_style (TranslatedPDF_init OUTPUT_PDF))]).
Proof. vm_compute. reflexivity. Qed.

(** C9. For a request that passes validation: if the [format] field is
    anything but exactly [txt] (absent, [pdf], or any other value), then
    once the upload is saved, extracted and translated the handler runs
    the PDF branch; and whatever the [format] field holds, the response
    has status 200 or 500, never the 400 of a validation error. *)
Theorem C9_format_other_than_txt_is_pdf env req file lang w :
  validated req file lang ->
  (multidict_get (str "format") (form req) <> Some (str "txt") ->
   forall w1 original w2 translated w3,
     write_file env (upload_path env file) (upload_stream file) w = (Ok tt, w1) ->
     extract_text env (upload_path env file) w1 = (Ok original, w2) ->
     translate_text env original lang w2 = (Ok translated, w3) ->
     translate_body env req w = respond_pdf env translated lang w3)
  /\ (exists r w', translate env req w = (Ok r, w')
                   /\ (status_of r = 200 \/ status_of r = 500)).
Proof.
  intros Hv. split.
  - intros Hfmt w1 original w2 translated w3 Hw He Ht.
    rewrite (translate_body_validated _ _ _ _ Hv).
    rewrite (bind_ok _ _ _ _ _ Hw), (bind_ok _ _ _ _ _ He), (bind_ok _ _ _ _ _ Ht).
    rewrite bool_decide_eq_false_2; [reflexivity|].
    destruct (multidict_get (str "format") (form req)) as [v|].
    + intros Heq. apply Hfmt. f_equal. exact Heq.
    + discriminate.
  - destruct (translate_body env req w) as [[r|e] w'] eqn:Hb.
    2:{ rewrite (translate_of_body_raise _ _ _ _ _ Hb). eexists _, _. split; [reflexivity|]. by right. }
    rewrite (translate_of_body_ok _ _ _ _ _ Hb). exists r, w'. split; [reflexivity|].
    rewrite (translate_body_validated _ _ _ _ Hv) in Hb.
    apply bind_ok_inv in Hb as ([] & w1 & _ & Hb).
    apply bind_ok_inv in Hb as (original & w2 & _ & Hb).
    apply bind_ok_inv in Hb as (translated & w3 & _ & Hb).
    case_bool_decide.
    + eapply respond_txt_status, Hb.
    + eapply respond_pdf_status, Hb.
Qed.

(** C9, witness: [format=docx] takes the PDF branch. *)
Lemma C9_witness :
  translate_body sample_env
    (sample_request "notes.txt" (str "Hello world") [("language", "French"); ("format", "docx")])
    empty_world
  = respond_pdf sample_env (str "Bonjour le monde") (str "French")
      (World (<[str "uploads/notes.txt" := str "Hello world"]> ∅)
         [(prompt_of (str "Hello world") (str "French"),
           TextResponse (str "Bonjour le monde"))] []).
Proof.
  destruct (C9_format_other_than_txt_is_pdf sample_env
              (sample_request "notes.txt" (str "Hello world")
                 [("language", "French"); ("format", "docx")])
              (sample_upload "notes.txt" (str "Hello world")) (str "French") empty_world)
    as [Hpdf _].
  - repeat split; vm_compute; (reflexivity || discriminate).
  - eapply Hpdf.
    + vm_compute. discriminate.
    + vm_compute. reflexivity.
    + vm_compute. reflexivity.
    + vm_compute. reflexivity.
Defined.

(** C10. [save] returns normally for every object and world: a failure
    of [doc.build] is caught, logged and answered with
    [_create_fallback_pdf], which catches its own failure too. Provided
    reportlab accepts the fixed fallback sentence, [add_text_block]
    returns normally for every text, object and world: a failure inside
    its loop is caught, logged and answered with the fallback paragraph,
    appended to what the loop had added. The [try] body of the PDF branch
    therefore always reaches [send_file] on the PDF path, in the world
    [save] left. *)
Theorem C10_pdf_methods_never_raise env :
  (forall self w, exists w', save env self w = (Ok tt, w'))
  /\ (forall self w e w1,
        doc_build env (doc self) (story self) w = (Raise e, w1) ->
        save env self w
        = _create_fallback_pdf env self (log_append (str "Error saving PDF: " ++ exn_str e) w1))
  /\ (paragraph_error env fallback_text = None ->
      (forall self text w, exists self' w', add_text_block env self text w = (Ok self', w'))
      /\ (forall self text w e story',
            for_each (add_paragraph env (normal_style self)) (split_on LF text) (story self)
            = (Raise e, story') ->
            add_text_block env self text w
            = (Ok (set_story self
                     (story' ++ [ParagraphFlowable fallback_text (normal_style self)])),
               log_append (str "Error adding text block: " ++ exn_str e) w))
      /\ (forall translated lang w,
            exists pdf w1 w2,
              add_text_block env (TranslatedPDF_init OUTPUT_PDF) translated w = (Ok pdf, w1)
              /\ save env pdf w1 = (Ok tt, w2)
              /\ try_pdf env translated lang w
                 = send_file OUTPUT_PDF (download_name_of lang (str ".pdf")) w2)).
Proof.
  split; [intros; apply save_returns|]. split.
  { intros self w e w1 Hb. unfold save. rewrite (try_except_raise _ _ _ _ _ Hb). reflexivity. }
  intros Hf. split; [intros; by apply add_text_block_returns|]. split.
  - intros self text w e story' Hloop. unfold add_text_block. rewrite Hloop.
    unfold bind, logging_error, Paragraph. cbv beta iota. rewrite Hf. reflexivity.
  - intros translated lang w.
    destruct (add_text_block_returns env (TranslatedPDF_init OUTPUT_PDF) translated w Hf)
      as (pdf & w1 & Ha).
    destruct (save_returns env pdf w1) as (w2 & Hs).
    exists pdf, w1, w2. repeat split; [exact Ha | exact Hs |].
    unfold try_pdf. rewrite (bind_ok _ _ _ _ _ Ha), (bind_ok _ _ _ _ _ Hs). reflexivity.
Qed.

(** C10, witness: the markup parser rejects the second of three lines
    and the layout of the document fails. [add_text_block] returns the
    first line and the notice, with the parser's message logged; [save]
    logs the layout failure and goes on to the placeholder; the [try]
    body reaches [send_file]. *)
Lemma C10_witness :
  paragraph_error (env_failing_layout []) fallback_text = None
  /\ save (env_failing_layout []) (TranslatedPDF_init OUTPUT_PDF) empty_world
     = _create_fallback_pdf (env_failing_layout []) (TranslatedPDF_init OUTPUT_PDF)
         (log_append (str "Error saving PDF: LayoutError") empty_world)
  /\ add_text_block (env_failing_layout []) (TranslatedPDF_init OUTPUT_PDF)
       (str "one" ++ [LF] ++ str "<b>" ++ [LF] ++ str "two") empty_world
     = (Ok (set_story (TranslatedPDF_init OUTPUT_PDF)
              [ParagraphFlowable (str "one") (normal_style (TranslatedPDF_init OUTPUT_PDF));
               ParagraphFlowable fallback_text
                 (normal_style (TranslatedPDF_init OUTPUT_PDF))]),
        log_append (str "Error adding text block: " ++ parse_error) empty_world)
  /\ exists w2,
       try_pdf (env_failing_layout []) (str "one" ++ [LF] ++ str "<b>" ++ [LF] ++ str "two")
         (str "French") empty_world
       = send_file OUTPUT_PDF (str "translated_French.pdf") w2.
Proof.
  destruct (C10_pdf_methods_never_raise (env_failing_layout [])) as (_ & Hsave & Hadd).
  destruct (Hadd eq_refl) as (_ & Hloop & Hsend).
  split; [reflexivity|]. split; [|split].
  - apply (Hsave (TranslatedPDF_init OUTPUT_PDF) empty_world
             (LibraryError ReportLab (str "LayoutError")) empty_world).
    vm_compute. reflexivity.
  - apply (Hloop (TranslatedPDF_init OUTPUT_PDF)
             (str "one" ++ [LF] ++ str "<b>" ++ [LF] ++ str "two") empty_world
             (LibraryError ReportLab parse_error)
             [ParagraphFlowable (str "one") (normal_style (TranslatedPDF_init OUTPUT_PDF))]).
    vm_compute. reflexivity.
  - destruct (Hsend (str "one" ++ [LF] ++ str "<b>" ++ [LF] ++ str "two") (str "French")
                empty_world) as (pdf & w1 & w2 & _ & _ & Htry).
    exists w2. exact Htry.
Defined.

(** * Further properties of the script *)

(** ** Frames: what a step leaves alone *)

Lemma touches_only_refl paths w : touches_only paths w w.
Proof. by intros p _. Qed.

Lemma touches_only_weaken paths paths' w w' :
  paths ⊆ paths' -> touches_only paths w w' -> touches_only paths' w w'.
Proof. intros Hsub H p Hp. apply H. intros Hin. apply Hp, Hsub, Hin. Qed.

Lemma touches_only_trans paths w1 w2 w3 :
  touches_only paths w1 w2 -> touches_only paths w2 w3 -> touches_only paths w1 w3.
Proof. intros H12 H23 p Hp. rewrite (H23 p Hp). by apply H12. Qed.

Lemma touches_only_same_fs paths w w' : fs w' = fs w -> touches_only paths w w'.
Proof. intros H p _. by rewrite H. Qed.

Lemma write_file_frame env path content w r w' :
  write_file env path content w = (r, w') ->
  touches_only [path] w w' /\ history w' = history w /\ log w' = log w.
Proof.
  destruct (write_file_cases env path content w) as [(msg & _ & H) | (_ & H)];
    rewrite H; intros [= <- <-].
  - split; [apply touches_only_refl | auto].
  - split; [|auto]. intros p Hp. cbn [fs set_fs].
    apply lookup_insert_ne. intros ->. apply Hp. left.
Qed.

Lemma write_text_frame env path text w r w' :
  write_text env path text w = (r, w') ->
  touches_only [path] w w' /\ history w' = history w /\ log w' = log w.
Proof.
  unfold write_text. destruct (utf8_encode text) as [b|].
  - apply write_file_frame.
  - unfold bind. destruct (write_file env path [] w) as [[[]|e] w1] eqn:Hw;
      intros [= <- <-]; eapply write_file_frame, Hw.
Qed.

(** The four ways through [translate_text]: no client; the call to the
    model raises; the model answers with a text; the model answers with a
    response that has no text, and [.text] raises after the response has
    joined the conversation. *)
Lemma translate_text_cases env text lang w :
  (chat env = None
   /\ translate_text env text lang w
      = (Raise (RuntimeError (str "Gemini not initialized")), w))
  \/ (exists msg,
        chat env <> None
        /\ send_message env (history w) (prompt_of text lang) = Failed msg
        /\ translate_text env text lang w = (Raise (LibraryError VertexAI msg), w))
  \/ (exists reply,
        chat env <> None
        /\ send_message env (history w) (prompt_of text lang) = Done (TextResponse reply)
        /\ translate_text env text lang w
           = (Ok reply, answered_world (prompt_of text lang) (TextResponse reply) w))
  \/ (exists why,
        chat env <> None
        /\ send_message env (history w) (prompt_of text lang) = Done (NoTextResponse why)
        /\ translate_text env text lang w
           = (Raise (LibraryError VertexAI why),
              answered_world (prompt_of text lang) (NoTextResponse why) w)).
Proof.
  unfold translate_text, bind, chat_send_message, answered_world.
  destruct (chat env) as [c|]; [|by left].
  right. destruct (send_message env (history w) (prompt_of text lang)) as [[reply|why]|msg].
  - right. left. exists reply. repeat split; auto.
  - right. right. exists why. repeat split; auto.
  - left. exists msg. repeat split; auto.
Qed.

(** [translate_text] touches neither the disk nor the log, and the
    conversation grows by at most the one exchange the model accepted. *)
Lemma translate_text_frame env text lang w r w' :
  translate_text env text lang w = (r, w') ->
  fs w' = fs w /\ log w' = log w
  /\ (history w' = history w
      \/ exists response,
           send_message env (history w) (prompt_of text lang) = Done response
           /\ history w' = history w ++ [(prompt_of text lang, response)]).
Proof.
  destruct (translate_text_cases env text lang w)
    as [(_ & H) | [(msg & _ & _ & H) | [(reply & _ & Hs & H) | (why & _ & Hs & H)]]];
    rewrite H; intros [= <- <-]; (split; [reflexivity|]); (split; [reflexivity|]);
    [by left | by left | right; eauto | right; eauto].
Qed.

Lemma create_text_file_frame env text name w created w' :
  create_text_file env text name w = (Ok created, w') ->
  touches_only [name] w w' /\ history w' = history w
  /\ (if created then log w' = log w
      else exists e, log w' = log w ++ [str "Error creating text file: " ++ exn_str e]).
Proof.
  unfold create_text_file, try_except, bind.
  destruct (write_text env name text w) as [[[]|e] w1] eqn:Hw.
  - intros [= <- <-]. destruct (write_text_frame _ _ _ _ _ _ Hw) as (? & ? & ?). auto.
  - unfold logging_error, ret. intros [= <- <-].
    destruct (write_text_frame _ _ _ _ _ _ Hw) as (Hfs & Hh & Hl).
    split; [exact Hfs|]. split; [exact Hh|]. exists e. cbn [log log_append]. by rewrite Hl.
Qed.

(** ** Extraction and the text file *)

Lemma universal_newlines_scalar s :
  Forall (fun c => is_scalar c = true) s ->
  Forall (fun c => is_scalar c = true) (universal_newlines s).
Proof.
  remember (length s) as n eqn:Hn. revert s Hn.
  induction n as [n IH] using lt_wf_ind. intros s -> Hs.
  destruct s as [|c s]; cbn [universal_newlines]; [constructor|].
  inversion Hs as [|? ? Hc Hs']; subst.
  destruct (c =? CR).
  - destruct s as [|d s]; [by repeat constructor|].
    inversion Hs' as [|? ? Hd Hs'']; subst.
    destruct (d =? LF); (constructor; [reflexivity|]).
    + eapply IH; [| reflexivity | exact Hs'']. cbn. lia.
    + eapply IH; [| reflexivity | exact Hs']. cbn. lia.
  - constructor; [exact Hc|]. eapply IH; [| reflexivity | exact Hs']. cbn. lia.
Qed.

Lemma utf8_decode_scalar b s :
  utf8_decode b = Some s -> Forall (fun c => is_scalar c = true) s.
Proof.
  intros Hd. apply utf8_encode_decode in Hd. revert b Hd.
  induction s as [|c s IH]; intros b; [constructor|]. cbn [utf8_encode].
  destruct (utf8_encode_char c) as [bc|] eqn:Hc; [|discriminate].
  destruct (utf8_encode s) as [bs|] eqn:Hs; [|discriminate]. intros _.
  constructor; [apply utf8_encode_char_scalar; eauto | by eapply IH].
Qed.

Lemma utf8_encode_keeps_cr s b : utf8_encode s = Some b -> CR ∈ s -> CR ∈ b.
Proof.
  revert b. induction s as [|c s IH]; intros b; [by intros _ ?%not_elem_of_nil|].
  cbn [utf8_encode].
  destruct (utf8_encode_char c) as [bc|] eqn:Hc; [|discriminate].
  destruct (utf8_encode s) as [bs|] eqn:Hs; [|discriminate].
  intros [= <-]. rewrite elem_of_cons, elem_of_app. intros [<-|Hin].
  - left. vm_compute in Hc. injection Hc as <-. left.
  - right. by apply IH.
Qed.

Lemma extract_text_txt_inv env path w t :
  endswith path (str ".txt") = true ->
  fst (extract_text env path w) = Ok t ->
  exists b s, fs w !! path = Some b /\ utf8_decode b = Some s /\ t = universal_newlines s.
Proof.
  intros Hp. rewrite extract_text_txt by exact Hp. unfold read_text.
  destruct (fs w !! path) as [b|]; [|discriminate].
  destruct (utf8_decode b) as [s|] eqn:Hd; [|discriminate].
  cbn [fst]. intros [= <-]. eauto.
Qed.

(** X1. [extract_text] changes nothing, whether it returns or raises, and
    its outcome depends on the world only through the file at the path:
    the log, the conversation and all other files are irrelevant. *)
Theorem extract_text_reads_only_its_file env path w :
  snd (extract_text env path w) = w
  /\ forall w2, fs w2 !! path = fs w !! path ->
                fst (extract_text env path w2) = fst (extract_text env path w).
Proof.
  split; [apply extract_text_world|]. intros w2 Hsame.
  unfold extract_text. destruct (endswith path (str ".txt")).
  { unfold read_text. rewrite Hsame.
    destruct (fs w !! path) as [b|]; [destruct (utf8_decode b)|]; reflexivity. }
  destruct (endswith path (str ".pdf")); [|reflexivity].
  rewrite Hsame. destruct (fs w !! path) as [b|]; [|reflexivity].
  unfold bind, lift_outcome. destruct (fitz_pages env b); reflexivity.
Qed.

Lemma extract_text_reads_only_its_file_witness :
  fst (extract_text sample_env (str "uploads/notes.txt")
         (World (<[OUTPUT_PDF := stale_pdf]>
                   (<[str "uploads/notes.txt" := str "Hello world"]> ∅))
            [(str "an earlier prompt", TextResponse (str "an earlier reply"))] [str "an earlier line"]))
  = fst (extract_text sample_env (str "uploads/notes.txt")
           (World (<[str "uploads/notes.txt" := str "Hello world"]> ∅) [] [])).
Proof.
  apply (extract_text_reads_only_its_file sample_env (str "uploads/notes.txt")
           (World (<[str "uploads/notes.txt" := str "Hello world"]> ∅) [] [])).
  vm_compute. reflexivity.
Defined.

Lemma extraction_normalises env path w t :
  endswith path (str ".txt") = true ->
  fst (extract_text env path w) = Ok t ->
  (CR ∉ t) /\ Forall (fun c => is_scalar c = true) t /\ is_Some (utf8_encode t).
Proof.
  intros Hp He. destruct (extract_text_txt_inv _ _ _ _ Hp He) as (b & s & _ & Hd & ->).
  assert (Forall (fun c => is_scalar c = true) (universal_newlines s)) as Hs
    by (by eapply universal_newlines_scalar, utf8_decode_scalar).
  split; [apply universal_newlines_has_no_cr|]. split; [exact Hs | by apply utf8_encode_total].
Qed.

(** X2. Text extracted from a [.txt] file never holds a carriage return
    and is made of Unicode scalar values only, so it can always be
    encoded again. *)
Theorem extracted_text_is_normalised env path w t :
  endswith path (str ".txt") = true ->
  fst (extract_text env path w) = Ok t ->
  (CR ∉ t) /\ Forall (fun c => is_scalar c = true) t /\ is_Some (utf8_encode t).
Proof.
  intros Hp He. destruct (extract_text_txt_inv _ _ _ _ Hp He) as (b & s & _ & Hd & ->).
  assert (Forall (fun c => is_scalar c = true) (universal_newlines s)) as Hs
    by (by eapply universal_newlines_scalar, utf8_decode_scalar).
  split; [apply universal_newlines_has_no_cr|]. split; [exact Hs | by apply utf8_encode_total].
Qed.

Lemma extracted_text_is_normalised_witness :
  (CR ∉ [97; LF; 98]) /\ Forall (fun c => is_scalar c = true) [97; LF; 98]
  /\ is_Some (utf8_encode [97; LF; 98]).
Proof.
  apply (extracted_text_is_normalised sample_env (str "note.txt")
           (World (<[str "note.txt" := [97; CR; LF; 98]]> ∅) [] [])).
  - vm_compute. reflexivity.
  - vm_compute. reflexivity.
Defined.

(** X3. The suffix test is exact: a path shorter than four characters, and
    a path ending in any four characters other than [.txt] and [.pdf]
    (such as [.TXT], [.PDF] or [.doc]), is refused as unsupported,
    whatever the file holds. *)
Theorem other_suffixes_are_unsupported env path w :
  ((length path < 4)%nat ->
   extract_text env path w = (Raise (ValueError (str "Unsupported file type")), w))
  /\ (forall suffix,
        length suffix = 4%nat -> endswith path suffix = true ->
        suffix <> str ".txt" -> suffix <> str ".pdf" ->
        extract_text env path w = (Raise (ValueError (str "Unsupported file type")), w)).
Proof.
  assert (forall ext, length ext = 4%nat -> (length path < 4)%nat -> endswith path ext = false)
    as Hshort.
  { intros ext Hext Hlen. unfold endswith. apply bool_decide_eq_false_2. intros Heq.
    apply (f_equal length) in Heq. rewrite length_drop in Heq. lia. }
  assert (forall ext suffix, length ext = 4%nat -> length suffix = 4%nat ->
            endswith path suffix = true -> suffix <> ext -> endswith path ext = false)
    as Hother.
  { intros ext suffix Hext Hsuf Hend Hne. unfold endswith in *.
    apply bool_decide_eq_true_1 in Hend. apply bool_decide_eq_false_2.
    rewrite Hext. rewrite Hsuf in Hend. congruence. }
  split.
  - intros Hlen. unfold extract_text.
    by rewrite !Hshort by (reflexivity || exact Hlen).
  - intros suffix Hsuf Hend Htxt Hpdf. unfold extract_text.
    rewrite (Hother (str ".txt") suffix), (Hother (str ".pdf") suffix); auto.
Qed.

Lemma other_suffixes_are_unsupported_witness :
  extract_text sample_env (str "uploads/REPORT.PDF")
    (World (<[str "uploads/REPORT.PDF" := str "%PDF-1.7"]> ∅) [] [])
  = (Raise (ValueError (str "Unsupported file type")),
     World (<[str "uploads/REPORT.PDF" := str "%PDF-1.7"]> ∅) [] []).
Proof.
  destruct (other_suffixes_are_unsupported sample_env (str "uploads/REPORT.PDF")
              (World (<[str "uploads/REPORT.PDF" := str "%PDF-1.7"]> ∅) [] []))
    as [_ Hsuffix].
  apply (Hsuffix (str ".PDF")).
  - reflexivity.
  - vm_compute. reflexivity.
  - vm_compute. discriminate.
  - vm_compute. discriminate.
Defined.

(** X4. Copying a text file through the script keeps it byte for byte
    when it holds no carriage return: the text that [extract_text] reads
    from a [.txt] file, written by [create_text_file] to a file that
    opens, gives a file with the very bytes of the first. *)
Theorem text_file_copy_is_byte_identical env path target w b t :
  endswith path (str ".txt") = true ->
  fs w !! path = Some b ->
  CR ∉ b ->
  fst (extract_text env path w) = Ok t ->
  open_w_error env target = None ->
  create_text_file env t target w = (Ok true, set_fs (<[target := b]> (fs w)) w).
Proof.
  intros Hp Hb Hcr He Ho.
  destruct (extract_text_txt_inv _ _ _ _ Hp He) as (b' & s & Hb' & Hd & ->).
  rewrite Hb in Hb'. injection Hb' as <-.
  pose proof (utf8_encode_decode _ _ Hd) as Henc.
  rewrite universal_newlines_no_cr.
  - apply create_text_file_true. eauto.
  - intros Hin. apply Hcr. by eapply utf8_encode_keeps_cr.
Qed.

Lemma text_file_copy_is_byte_identical_witness :
  create_text_file sample_env (str "Hello world") OUTPUT_TXT
    (World (<[str "uploads/notes.txt" := str "Hello world"]> ∅) [] [])
  = (Ok true,
     set_fs (<[OUTPUT_TXT := str "Hello world"]>
               (fs (World (<[str "uploads/notes.txt" := str "Hello world"]> ∅) [] [])))
       (World (<[str "uploads/notes.txt" := str "Hello world"]> ∅) [] [])).
Proof.
  apply (text_file_copy_is_byte_identical sample_env (str "uploads/notes.txt") OUTPUT_TXT
           (World (<[str "uploads/notes.txt" := str "Hello world"]> ∅) [] [])
           (str "Hello world") (str "Hello world")).
  - vm_compute. reflexivity.
  - vm_compute. reflexivity.
  - apply (bool_decide_eq_false_1 _). vm_compute. reflexivity.
  - vm_compute. reflexivity.
  - reflexivity.
Defined.

(** X5. Extraction is stable: the text read from any [.txt] file, written
    to a [.txt] file that opens and read again, comes back unchanged,
    carriage returns in the first file or not. *)
Theorem extraction_is_stable env path target w t :
  endswith path (str ".txt") = true ->
  endswith target (str ".txt") = true ->
  fst (extract_text env path w) = Ok t ->
  open_w_error env target = None ->
  exists w',
    create_text_file env t target w = (Ok true, w')
    /\ extract_text env target w' = (Ok t, w').
Proof.
  intros Hp Hq He Ho.
  destruct (extraction_normalises env path w t Hp He) as (Hcr & _ & [b Hb]).
  exists (set_fs (<[target := b]> (fs w)) w). split.
  - apply create_text_file_true. eauto.
  - rewrite extract_text_txt by exact Hq.
    rewrite (read_text_decoded target _ b t).
    + by rewrite universal_newlines_no_cr.
    + cbn [fs set_fs]. apply lookup_insert_eq.
    + by apply utf8_decode_encode.
Qed.

Lemma extraction_is_stable_witness :
  exists w',
    create_text_file sample_env [97; LF; 98] OUTPUT_TXT
      (World (<[str "note.txt" := [97; CR; LF; 98]]> ∅) [] [])
    = (Ok true, w')
    /\ extract_text sample_env OUTPUT_TXT w' = (Ok [97; LF; 98], w').
Proof.
  apply (extraction_is_stable sample_env (str "note.txt") OUTPUT_TXT
           (World (<[str "note.txt" := [97; CR; LF; 98]]> ∅) [] [])).
  - vm_compute. reflexivity.
  - vm_compute. reflexivity.
  - vm_compute. reflexivity.
  - reflexivity.
Defined.

(** ** [create_text_file], [translate_text] and [health] *)

(** X6. [create_text_file] never raises; it changes no file other than
    the one named and leaves the conversation alone. It logs nothing when
    it reports success, and exactly one line, starting with
    [Error creating text file: ], when it reports failure. *)
Theorem create_text_file_touches_one_file env text name w :
  exists created w',
    create_text_file env text name w = (Ok created, w')
    /\ touches_only [name] w w'
    /\ history w' = history w
    /\ (if created then log w' = log w
        else exists e, log w' = log w ++ [str "Error creating text file: " ++ exn_str e]).
Proof.
  destruct (create_text_file_returns env text name w) as (created & w' & Hc).
  exists created, w'. split; [exact Hc|]. eapply create_text_file_frame, Hc.
Qed.

(** X7. A text that cannot be encoded (it holds a lone surrogate) costs
    the previous content of the output file: the file is opened, hence
    emptied, before the encoding fails, and [create_text_file] reports
    failure with one line in the log. *)
Theorem unencodable_text_empties_the_file env text name w :
  utf8_encode text = None ->
  open_w_error env name = None ->
  exists w',
    create_text_file env text name w = (Ok false, w')
    /\ fs w' !! name = Some []
    /\ log w' = log w ++ [str "Error creating text file: " ++ exn_str UnicodeEncodeError].
Proof.
  intros He Ho. eexists. split; [|split].
  - unfold create_text_file, try_except, bind, write_text. rewrite He.
    unfold bind, write_file. rewrite Ho. unfold raise, logging_error, ret.
    cbv beta iota. reflexivity.
  - cbn [fs set_fs log_append]. apply lookup_insert_eq.
  - reflexivity.
Qed.

Lemma unencodable_text_empties_the_file_witness :
  exists w',
    create_text_file sample_env [104; 55296] OUTPUT_TXT
      (World (<[OUTPUT_TXT := str "an earlier translation"]> ∅) [] [])
    = (Ok false, w')
    /\ fs w' !! OUTPUT_TXT = Some [].
Proof.
  destruct (unencodable_text_empties_the_file sample_env [104; 55296] OUTPUT_TXT
              (World (<[OUTPUT_TXT := str "an earlier translation"]> ∅) [] []))
    as (w' & Hc & Hfs & _).
  - vm_compute. reflexivity.
  - reflexivity.
  - exists w'. split; [exact Hc | exact Hfs].
Defined.

Lemma prompt_of_parts text lang :
  prompt_of text lang = prompt_head ++ lang ++ prompt_middle ++ text ++ prompt_tail.
Proof.
  unfold prompt_of, prompt_head, prompt_middle, prompt_tail.
  rewrite <- !app_assoc. reflexivity.
Qed.

Lemma prompt_contains_text text lang : contains (prompt_of text lang) text = true.
Proof.
  apply contains_spec. exists (prompt_head ++ lang ++ prompt_middle), prompt_tail.
  rewrite prompt_of_parts, <- !app_assoc. reflexivity.
Qed.

Lemma prompt_contains_language text lang : contains (prompt_of text lang) lang = true.
Proof.
  apply contains_spec. exists prompt_head, (prompt_middle ++ text ++ prompt_tail).
  apply prompt_of_parts.
Qed.

(** X9. The prompt holds the text and the language in full, and for a
    fixed language two different texts never give the same prompt (nor do
    two different languages for a fixed text). *)
Theorem prompt_holds_text_and_language text lang :
  contains (prompt_of text lang) text = true
  /\ contains (prompt_of text lang) lang = true
  /\ (forall text2, prompt_of text2 lang = prompt_of text lang -> text2 = text)
  /\ (forall lang2, prompt_of text lang2 = prompt_of text lang -> lang2 = lang).
Proof.
  split; [apply prompt_contains_text|]. split; [apply prompt_contains_language|]. split.
  - intros text2. rewrite !prompt_of_parts. intros H.
    do 3 apply app_inv_head in H. by apply app_inv_tail in H.
  - intros lang2. rewrite !prompt_of_parts. intros H.
    apply app_inv_head in H. by apply app_inv_tail in H.
Qed.

Lemma prompt_holds_text_and_language_witness :
  str "Hello" = str "Hello".
Proof.
  destruct (prompt_holds_text_and_language (str "Hello") (str "French")) as (_ & _ & Ht & _).
  apply (Ht (str "Hello")). reflexivity.
Defined.

(** X10. Language and text are pasted into the prompt as they are, so
    the prompt does not determine the pair: a language value that goes on
    with the fixed middle part of the prompt and some more text gives the
    very prompt of the shorter language with that text put before the
    document. *)
Theorem prompt_does_not_delimit_language lang extra text :
  prompt_of text (lang ++ prompt_middle ++ extra)
  = prompt_of (extra ++ prompt_middle ++ text) lang.
Proof. rewrite !prompt_of_parts, <- !app_assoc. reflexivity. Qed.

(** X11. [/health] always answers [healthy]; its flag tells whether the
    client started, and it is false exactly when every call of
    [translate_text] raises [Gemini not initialized] without consulting
    the model. *)
Theorem health_flag_predicts_translation env :
  fst (health env) = str "healthy"
  /\ (snd (health env) = true <-> exists c, vertex_start env = Done c)
  /\ (snd (health env) = false <->
      forall text lang w,
        translate_text env text lang w
        = (Raise (RuntimeError (str "Gemini not initialized")), w)).
Proof.
  split; [reflexivity|]. split.
  - unfold health, chat, initialize_vertex_ai. cbn [snd]. rewrite bool_decide_eq_true.
    destruct (vertex_start env) as [c|msg].
    + split; [eauto | discriminate].
    + split; [intros H; by destruct H | intros [? [=]]].
  - rewrite health_reports_chat. split.
    + intros Hc text lang w. by apply translate_text_no_chat.
    + intros Hall. specialize (Hall [] [] empty_world).
      destruct (translate_text_cases env [] [] empty_world)
        as [(Hc & _) | [(msg & _ & _ & H') | [(reply & _ & _ & H') | (why & _ & _ & H')]]];
        [exact Hc | rewrite H' in Hall; discriminate..].
Qed.

Lemma health_flag_predicts_translation_witness :
  translate_text no_chat_env (str "Hello world") (str "French") empty_world
  = (Raise (RuntimeError (str "Gemini not initialized")), empty_world).
Proof.
  destruct (health_flag_predicts_translation no_chat_env) as (_ & _ & [Hflag _]).
  apply Hflag. vm_compute. reflexivity.
Defined.

(** ** The story of [add_text_block], whatever happens *)

Lemma add_lines_prefix env style lines story0 r story' :
  for_each (fun line => let! p := Paragraph env line style in story_append p) lines story0
  = (r, story') ->
  exists added rest,
    story' = story0 ++ added
    /\ map (fun line => ParagraphFlowable line style) lines = added ++ rest
    /\ Forall (accepted env) added
    /\ match r with
       | Ok _ => rest = []
       | Raise e =>
           exists bad rest' msg,
             rest = bad :: rest' /\ rejected env bad msg /\ e = LibraryError ReportLab msg
       end.
Proof.
  revert story0 r story'.
  induction lines as [|line lines IH]; intros story0 r story'; cbn [for_each map].
  - intros [= <- <-]. exists [], []. by rewrite app_nil_r.
  - unfold bind at 1. unfold bind at 1.
    destruct (Paragraph_cases env line style story0) as [(msg & Hm & Hp) | (Hm & Hp)];
      rewrite Hp.
    + intros [= <- <-].
      exists [], (ParagraphFlowable line style
                  :: map (fun line => ParagraphFlowable line style) lines).
      rewrite app_nil_r. split; [reflexivity|]. split; [reflexivity|].
      split; [constructor|]. eexists _, _, msg. split; [reflexivity|]. by split.
    + unfold story_append at 1. intros H.
      destruct (IH _ _ _ H) as (added & rest & -> & Hl & Hacc & Hr).
      exists (ParagraphFlowable line style :: added), rest.
      rewrite <- app_assoc. cbn [app]. rewrite Hl.
      split; [reflexivity|]. split; [reflexivity|]. split; [by constructor | exact Hr].
Qed.

Lemma add_paragraph_prefix env style para story0 r story' :
  add_paragraph env style para story0 = (r, story') ->
  exists added rest,
    story' = story0 ++ added
    /\ layout_paragraph env style para = added ++ rest
    /\ Forall (accepted env) added
    /\ match r with
       | Ok _ => rest = []
       | Raise e =>
           exists bad rest' msg,
             rest = bad :: rest' /\ rejected env bad msg /\ e = LibraryError ReportLab msg
       end.
Proof.
  unfold add_paragraph, layout_paragraph.
  destruct (truthy (strip para)).
  - destruct (100 <? Z.of_nat (length para)); [apply add_lines_prefix|].
    unfold bind.
    destruct (Paragraph_cases env para style story0) as [(msg & Hm & Hp) | (Hm & Hp)];
      rewrite Hp.
    + intros [= <- <-]. exists [], [ParagraphFlowable para style].
      rewrite app_nil_r. split; [reflexivity|]. split; [reflexivity|].
      split; [constructor|]. eexists _, _, msg. split; [reflexivity|]. by split.
    + unfold story_append. intros [= <- <-]. exists [ParagraphFlowable para style], [].
      split; [reflexivity|]. split; [reflexivity|]. split; [by repeat constructor | reflexivity].
  - unfold story_append. intros [= <- <-]. exists [Spacer 1 6], [].
    split; [reflexivity|]. split; [reflexivity|]. split; [by repeat constructor | reflexivity].
Qed.

(** The loop of [add_text_block] appends the layout of the text element
    by element: all of it when every element is accepted, and otherwise
    the elements before the first rejected one, whose rejection is the
    exception raised. *)
Lemma add_paragraphs_prefix env style paras story0 r story' :
  for_each (add_paragraph env style) paras story0 = (r, story') ->
  exists added rest,
    story' = story0 ++ added
    /\ concat (map (layout_paragraph env style) paras) = added ++ rest
    /\ Forall (accepted env) added
    /\ match r with
       | Ok _ => rest = []
       | Raise e =>
           exists bad rest' msg,
             rest = bad :: rest' /\ rejected env bad msg /\ e = LibraryError ReportLab msg
       end.
Proof.
  revert story0 r story'.
  induction paras as [|para paras IH]; intros story0 r story'; cbn [for_each map concat].
  - intros [= <- <-]. exists [], []. by rewrite app_nil_r.
  - unfold bind at 1.
    destruct (add_paragraph env style para story0) as [[[]|e] story1] eqn:Hp.
    + intros H. destruct (add_paragraph_prefix _ _ _ _ _ _ Hp) as (a1 & r1 & -> & Hl1 & Ha1 & ->).
      rewrite app_nil_r in Hl1.
      destruct (IH _ _ _ H) as (a2 & r2 & -> & Hl2 & Ha2 & Hr2).
      exists (a1 ++ a2), r2. rewrite Hl1, Hl2, !app_assoc.
      split; [reflexivity|]. split; [reflexivity|]. split; [by apply Forall_app | exact Hr2].
    + intros [= <- <-].
      destruct (add_paragraph_prefix _ _ _ _ _ _ Hp)
        as (a1 & r1 & -> & Hl1 & Ha1 & bad & rest' & msg & -> & Hbad & ->).
      exists a1, ((bad :: rest') ++ concat (map (layout_paragraph env style) paras)).
      rewrite Hl1, app_assoc. split; [reflexivity|]. split; [reflexivity|].
      split; [exact Ha1|]. eexists bad, _, msg. split; [reflexivity|]. by split.
Qed.

(** The story and the log after [add_text_block]. *)
Lemma add_text_block_story env self text w self' w' :
  add_text_block env self text w = (Ok self', w') ->
  (Forall (accepted env) (layout env (normal_style self) text)
   /\ story self' = story self ++ layout env (normal_style self) text
   /\ log w' = log w)
  \/ exists added bad rest msg,
       layout env (normal_style self) text = added ++ bad :: rest
       /\ Forall (accepted env) added
       /\ rejected env bad msg
       /\ story self'
          = story self ++ added ++ [ParagraphFlowable fallback_text (normal_style self)]
       /\ log w' = log w ++ [str "Error adding text block: " ++ msg].
Proof.
  unfold add_text_block.
  destruct (for_each _ _ _) as [[[]|e] story'] eqn:Hloop;
    destruct (add_paragraphs_prefix _ _ _ _ _ _ Hloop) as (added & rest & -> & Hl & Hacc & Hr).
  - intros [= <- <-]. subst rest. rewrite app_nil_r in Hl.
    left. unfold layout. by rewrite Hl.
  - destruct Hr as (bad & rest' & msg & -> & Hbad & ->).
    unfold bind, logging_error. cbv beta iota.
    destruct (Paragraph_cases env fallback_text (normal_style self)
                (log_append (str "Error adding text block: "
                             ++ exn_str (LibraryError ReportLab msg)) w))
      as [(msg' & _ & Hp) | (_ & Hp)]; rewrite Hp; [discriminate|].
    intros [= <- <-]. right. exists added, bad, rest', msg.
    split; [exact Hl|]. split; [exact Hacc|]. split; [exact Hbad|].
    split; [by rewrite <- app_assoc | reflexivity].
Qed.

(** [add_text_block] writes no file and calls no model, whatever its
    outcome. *)
Lemma add_text_block_frame env self text w r w' :
  add_text_block env self text w = (r, w') -> fs w' = fs w /\ history w' = history w.
Proof.
  unfold add_text_block. destruct (for_each _ _ _) as [[[]|e] story'].
  - intros [= <- <-]. auto.
  - unfold bind, logging_error. cbv beta iota.
    destruct (Paragraph_cases env fallback_text (normal_style self)
                (log_append (str "Error adding text block: " ++ exn_str e) w))
      as [(msg & _ & Hp) | (_ & Hp)]; rewrite Hp; intros [= <- <-]; auto.
Qed.

Lemma add_text_block_object env self text w self' w' :
  add_text_block env self text w = (Ok self', w') ->
  filename self' = filename self /\ doc self' = doc self
  /\ normal_style self' = normal_style self.
Proof.
  unfold add_text_block. destruct (for_each _ _ _) as [[[]|e] story'].
  - intros [= <- <-]. auto.
  - unfold bind, logging_error. cbv beta iota.
    destruct (Paragraph_cases env fallback_text (normal_style self)
                (log_append (str "Error adding text block: " ++ exn_str e) w))
      as [(msg & _ & Hp) | (_ & Hp)]; rewrite Hp; [discriminate|].
    intros [= <- <-]. auto.
Qed.

(** X12. When [add_text_block] returns, the object keeps its file name,
    document and style, and the disk and the conversation are untouched.
    If the markup parser accepts every element of the layout of the
    text, the new story is the old one followed by the whole layout, and
    nothing is logged. Otherwise it is the old story, then exactly the
    elements of the layout that come before the first rejected one, then
    the fallback notice; the rejected element and everything after it
    are left out, and one line with the parser's message is logged. *)
Theorem add_text_block_appends_layout_prefix env self text w self' w' :
  add_text_block env self text w = (Ok self', w') ->
  filename self' = filename self /\ doc self' = doc self
  /\ normal_style self' = normal_style self
  /\ fs w' = fs w /\ history w' = history w
  /\ ((Forall (accepted env) (layout env (normal_style self) text)
       /\ story self' = story self ++ layout env (normal_style self) text
       /\ log w' = log w)
      \/ exists added bad rest msg,
           layout env (normal_style self) text = added ++ bad :: rest
           /\ Forall (accepted env) added
           /\ rejected env bad msg
           /\ story self'
              = story self ++ added ++ [ParagraphFlowable fallback_text (normal_style self)]
           /\ log w' = log w ++ [str "Error adding text block: " ++ msg]).
Proof.
  intros Ha.
  destruct (add_text_block_object _ _ _ _ _ _ Ha) as (Hf & Hd & Hn).
  destruct (add_text_block_frame _ _ _ _ _ _ Ha) as (Hfs & Hh).
  repeat (split; [assumption|]). by apply add_text_block_story.
Qed.

(** The second of three lines is rejected: the story is the first line
    and the notice. The first alternative is excluded, since the layout
    holds the rejected line; in the second one the elements kept are
    forced to be the first line alone. *)
Lemma add_text_block_appends_layout_prefix_witness :
  exists added bad rest msg,
    layout (env_strict_markup []) (normal_style (TranslatedPDF_init OUTPUT_PDF))
      (str "one" ++ [LF] ++ str "<b>" ++ [LF] ++ str "two")
    = added ++ bad :: rest
    /\ Forall (accepted (env_strict_markup [])) added
    /\ rejected (env_strict_markup []) bad msg
    /\ [ParagraphFlowable (str "one") (normal_style (TranslatedPDF_init OUTPUT_PDF));
        ParagraphFlowable fallback_text (normal_style (TranslatedPDF_init OUTPUT_PDF))]
       = added ++ [ParagraphFlowable fallback_text (normal_style (TranslatedPDF_init OUTPUT_PDF))]
    /\ log (log_append (str "Error adding text block: " ++ parse_error) empty_world)
       = [str "Error adding text block: " ++ msg].
Proof.
  destruct (add_text_block_appends_layout_prefix (env_strict_markup [])
              (TranslatedPDF_init OUTPUT_PDF)
              (str "one" ++ [LF] ++ str "<b>" ++ [LF] ++ str "two") empty_world
              (set_story (TranslatedPDF_init OUTPUT_PDF)
                 [ParagraphFlowable (str "one") (normal_style (TranslatedPDF_init OUTPUT_PDF));
                  ParagraphFlowable fallback_text
                    (normal_style (TranslatedPDF_init OUTPUT_PDF))])
              (log_append (str "Error adding text block: " ++ parse_error) empty_world))
    as (_ & _ & _ & _ & _ & [(_ & _ & Hlog) | Hprefix]).
  - vm_compute. reflexivity.
  - vm_compute in Hlog. discriminate Hlog.
  - exact Hprefix.
Defined.

(** X13. Whenever [textwrap.wrap] honours the width 80, no paragraph that
    [add_text_block] appends is longer than 100 characters, whether or not
    the layout was completed. *)
Theorem add_text_block_paragraphs_are_bounded env self text w self' w' :
  (forall s, Forall (fun line => Z.of_nat (length line) <= 80) (textwrap_wrap env s 80)) ->
  add_text_block env self text w = (Ok self', w') ->
  exists appended,
    story self' = story self ++ appended /\ Forall (paragraph_fits 100) appended.
Proof.
  intros Hwrap Ha.
  pose proof (layout_fits env Hwrap (normal_style self) text) as Hfit.
  destruct (add_text_block_story _ _ _ _ _ _ Ha)
    as [(_ & Hs & _) | (added & bad & rest & msg & Hl & _ & _ & Hs & _)].
  - eauto.
  - exists (added ++ [ParagraphFlowable fallback_text (normal_style self)]).
    split; [exact Hs|]. rewrite Hl in Hfit. apply Forall_app in Hfit as [Hfit _].
    apply Forall_app. split; [exact Hfit|]. repeat constructor. vm_compute. discriminate.
Qed.

Lemma add_text_block_paragraphs_are_bounded_witness :
  exists appended,
    story (set_story (TranslatedPDF_init OUTPUT_PDF)
             [ParagraphFlowable (replicate 80 97) (normal_style (TranslatedPDF_init OUTPUT_PDF));
              ParagraphFlowable (replicate 40 97) (normal_style (TranslatedPDF_init OUTPUT_PDF))])
    = story (TranslatedPDF_init OUTPUT_PDF) ++ appended
    /\ Forall (paragraph_fits 100) appended.
Proof.
  apply (add_text_block_paragraphs_are_bounded sample_env (TranslatedPDF_init OUTPUT_PDF)
           (replicate 120 97) empty_world _ empty_world).
  - apply sample_wrap_fits.
  - vm_compute. reflexivity.
Defined.

Lemma split_on_Forall (P : Z -> Prop) sep s :
  Forall P s -> Forall (Forall P) (split_on sep s).
Proof.
  induction 1 as [|c s Hc _ IH]; cbn [split_on]; [by repeat constructor|].
  destruct (c =? sep); [by constructor|].
  destruct (split_on sep s) as [|p ps]; [by repeat constructor|].
  inversion IH; subst. by repeat constructor.
Qed.

Lemma split_on_length sep s :
  length (split_on sep s) = S (length (filter (fun c => c = sep) s)).
Proof.
  induction s as [|c s IH]; [reflexivity|]. cbn [split_on].
  rewrite filter_cons. destruct (Z.eqb_spec c sep) as [->|Hc].
  - rewrite decide_True by reflexivity. cbn [length]. by rewrite IH.
  - rewrite decide_False by exact Hc.
    destruct (split_on sep s) as [|p ps]; [discriminate IH | exact IH].
Qed.

Lemma layout_of_blank_lines env style paras :
  Forall (Forall (fun c => py_isspace c = true)) paras ->
  concat (map (layout_paragraph env style) paras) = replicate (length paras) (Spacer 1 6).
Proof.
  induction 1 as [|para paras Hp _ IH]; [reflexivity|]. cbn [map concat length replicate].
  rewrite IH. unfold layout_paragraph.
  rewrite (proj2 (strip_blank_iff para) Hp). reflexivity.
Qed.

(** X14. A text made of white space only (the empty text included) gives
    one spacer per line and nothing else, whatever the environment: no
    paragraph is built, so nothing can fail and nothing is logged. *)
Theorem whitespace_text_gives_spacers env self text w :
  Forall (fun c => py_isspace c = true) text ->
  add_text_block env self text w
  = (Ok (set_story self
           (story self
            ++ replicate (S (length (filter (fun c => c = LF) text))) (Spacer 1 6))),
     w).
Proof.
  intros Hws. unfold add_text_block.
  rewrite add_paragraphs_accepted.
  - rewrite (layout_of_blank_lines _ _ _ (split_on_Forall _ LF _ Hws)), split_on_length.
    reflexivity.
  - rewrite (layout_of_blank_lines _ _ _ (split_on_Forall _ LF _ Hws)).
    apply Forall_forall. intros f Hf. apply elem_of_replicate in Hf as [-> _]. exact I.
Qed.

Lemma whitespace_text_gives_spacers_witness :
  add_text_block (env_strict_markup []) (TranslatedPDF_init OUTPUT_PDF)
    [32; LF; LF; 9] empty_world
  = (Ok (set_story (TranslatedPDF_init OUTPUT_PDF) [Spacer 1 6; Spacer 1 6; Spacer 1 6]),
     empty_world).
Proof.
  apply (whitespace_text_gives_spacers (env_strict_markup []) (TranslatedPDF_init OUTPUT_PDF)
           [32; LF; LF; 9] empty_world).
  repeat constructor.
Defined.

(** ** [save], case by case *)

Lemma save_cases env self w :
  doc_filename (doc self) = filename self ->
  (exists rendered,
      doc_render env (doc self) (story self) = Done rendered
      /\ open_w_error env (filename self) = None
      /\ save env self w = (Ok tt, set_fs (<[filename self := rendered]> (fs w)) w))
  \/ (exists e placeholder,
        doc_build env (doc self) (story self) w = (Raise e, w)
        /\ canvas_render env letter fallback_drawing = Done placeholder
        /\ open_w_error env (filename self) = None
        /\ save env self w
           = (Ok tt,
              set_fs (<[filename self := placeholder]> (fs w))
                (log_append (str "Error saving PDF: " ++ exn_str e) w)))
  \/ (exists e e',
        doc_build env (doc self) (story self) w = (Raise e, w)
        /\ save env self w
           = (Ok tt,
              log_append (str "Error creating fallback PDF: " ++ exn_str e')
                (log_append (str "Error saving PDF: " ++ exn_str e) w))).
Proof.
  intros Hname.
  destruct (doc_render env (doc self) (story self)) as [rendered|msg] eqn:Hr;
    destruct (open_w_error env (filename self)) as [omsg|] eqn:Ho;
    destruct (canvas_render env letter fallback_drawing) as [placeholder|cmsg] eqn:Hc.
  all: try (left; exists rendered; split; [reflexivity|]; split; [reflexivity|]).
  all: try (right; left; eexists _, placeholder; split; [|split; [reflexivity|split; [reflexivity|]]]).
  all: try (right; right; eexists _, _; split).
  all: unfold save, try_except, doc_build, _create_fallback_pdf, draw_fallback_pdf,
         logging_error, bind, lift_outcome, write_file, ret, raise;
       repeat (rewrite ?Hname, ?Hr, ?Ho, ?Hc; cbv beta iota); reflexivity.
Qed.

(** X15. [save] on an object whose document writes to the object's own
    file always returns, changes no other file and calls no model. Its
    file then holds the rendered document (nothing logged), or the
    placeholder (one line logged), or what it held before (two lines
    logged). *)
Theorem save_outcomes env self w :
  doc_filename (doc self) = filename self ->
  exists w',
    save env self w = (Ok tt, w')
    /\ touches_only [filename self] w w'
    /\ history w' = history w
    /\ ((exists rendered,
           doc_render env (doc self) (story self) = Done rendered
           /\ fs w' !! filename self = Some rendered
           /\ log w' = log w)
        \/ (exists placeholder e,
              canvas_render env letter fallback_drawing = Done placeholder
              /\ fs w' !! filename self = Some placeholder
              /\ log w' = log w ++ [str "Error saving PDF: " ++ exn_str e])
        \/ (exists e e',
              fs w' !! filename self = fs w !! filename self
              /\ log w' = log w ++ [str "Error saving PDF: " ++ exn_str e;
                                    str "Error creating fallback PDF: " ++ exn_str e'])).
Proof.
  intros Hname.
  destruct (save_cases env self w Hname)
    as [(rendered & Hr & _ & Hs) | [(e & placeholder & _ & Hc & _ & Hs) | (e & e' & _ & Hs)]];
    rewrite Hs; eexists; (split; [reflexivity|]).
  - split; [|split; [reflexivity|]].
    + intros p Hp. cbn [fs set_fs]. apply lookup_insert_ne. intros Heq. apply Hp. rewrite <- Heq. left.
    + left. exists rendered. cbn [fs set_fs log]. by rewrite lookup_insert_eq.
  - split; [|split; [reflexivity|]].
    + intros p Hp. cbn [fs set_fs log_append]. apply lookup_insert_ne. intros Heq. apply Hp. rewrite <- Heq. left.
    + right. left. exists placeholder, e. cbn [fs set_fs log log_append].
      by rewrite lookup_insert_eq.
  - split; [apply touches_only_same_fs; reflexivity|]. split; [reflexivity|].
    right. right. exists e, e'. cbn [fs log log_append]. by rewrite <- app_assoc.
Qed.

Lemma save_outcomes_witness :
  exists w',
    save (env_locking OUTPUT_PDF []) (TranslatedPDF_init OUTPUT_PDF) world_with_stale_pdf
    = (Ok tt, w')
    /\ touches_only [OUTPUT_PDF] world_with_stale_pdf w'
    /\ history w' = history world_with_stale_pdf.
Proof.
  destruct (save_outcomes (env_locking OUTPUT_PDF []) (TranslatedPDF_init OUTPUT_PDF)
              world_with_stale_pdf eq_refl) as (w' & Hs & Hfs & Hh & _).
  exists w'. auto.
Defined.

Lemma save_frame env self w r w' :
  doc_filename (doc self) = filename self ->
  save env self w = (r, w') ->
  r = Ok tt /\ touches_only [filename self] w w' /\ history w' = history w.
Proof.
  intros Hname Hs.
  destruct (save_cases env self w Hname)
    as [(rendered & _ & _ & Hs') | [(e & placeholder & _ & _ & _ & Hs') | (e & e' & _ & Hs')]];
    rewrite Hs' in Hs; injection Hs as <- <-; (split; [reflexivity|]).
  - split; [|reflexivity].
    intros p Hp. cbn [fs set_fs]. apply lookup_insert_ne. intros Heq. apply Hp. rewrite <- Heq. left.
  - split; [|reflexivity].
    intros p Hp. cbn [fs set_fs log_append]. apply lookup_insert_ne. intros Heq. apply Hp. rewrite <- Heq. left.
  - split; [apply touches_only_same_fs|]; reflexivity.
Qed.

(** ** The output step *)

(** The last lines of both output branches: create the text file, then
    send it or report the failure with a fixed message. The file is
    written before the download name is looked at. *)
Lemma send_text_file_cases env text name msg w :
  (exists b,
      utf8_encode text = Some b /\ open_w_error env OUTPUT_TXT = None
      /\ download_name_error name = None
      /\ bind (create_text_file env text OUTPUT_TXT)
           (fun created : bool =>
              if created then send_file OUTPUT_TXT name else ret (Text msg 500)) w
         = (Ok (Attachment name b), set_fs (<[OUTPUT_TXT := b]> (fs w)) w))
  \/ (exists b e,
        utf8_encode text = Some b /\ open_w_error env OUTPUT_TXT = None
        /\ download_name_error name = Some e
        /\ bind (create_text_file env text OUTPUT_TXT)
             (fun created : bool =>
                if created then send_file OUTPUT_TXT name else ret (Text msg 500)) w
           = (Raise e, set_fs (<[OUTPUT_TXT := b]> (fs w)) w))
  \/ (exists w',
        create_text_file env text OUTPUT_TXT w = (Ok false, w')
        /\ bind (create_text_file env text OUTPUT_TXT)
             (fun created : bool =>
                if created then send_file OUTPUT_TXT name else ret (Text msg 500)) w
           = (Ok (Text msg 500), w')).
Proof.
  destruct (create_text_file_returns env text OUTPUT_TXT w) as ([] & w' & Hc).
  - apply create_text_file_true in Hc as Hc'. destruct Hc' as (b & Hb & Ho & ->).
    rewrite (bind_ok _ _ _ _ _ Hc). unfold send_file. cbn [fs set_fs].
    rewrite lookup_insert_eq.
    destruct (download_name_error name) as [e|] eqn:Hh; [right; left; exists b, e | left; exists b];
      auto.
  - right. right. exists w'. split; [exact Hc|]. by rewrite (bind_ok _ _ _ _ _ Hc).
Qed.

Lemma send_text_file_frame env text name msg w r w' :
  bind (create_text_file env text OUTPUT_TXT)
    (fun created : bool =>
       if created then send_file OUTPUT_TXT name else ret (Text msg 500)) w
  = (r, w') ->
  touches_only [OUTPUT_TXT] w w' /\ history w' = history w
  /\ (forall e, r = Raise e -> download_name_error name = Some e).
Proof.
  destruct (send_text_file_cases env text name msg w)
    as [(b & _ & _ & _ & H) | [(b & e' & _ & _ & Hh & H) | (w1 & Hc & H)]];
    rewrite H; intros [= <- <-].
  - split; [|split; [reflexivity | discriminate]].
    intros p Hp. cbn [fs set_fs]. apply lookup_insert_ne. intros Heq. apply Hp.
    rewrite <- Heq. left.
  - split; [|split; [reflexivity | by intros e [= <-]]].
    intros p Hp. cbn [fs set_fs]. apply lookup_insert_ne. intros Heq. apply Hp.
    rewrite <- Heq. left.
  - destruct (create_text_file_frame _ _ _ _ _ _ Hc) as (? & ? & _).
    split; [assumption|]. split; [assumption | discriminate].
Qed.

Lemma respond_txt_frame env translated lang w r w' :
  respond_txt env translated lang w = (r, w') ->
  touches_only [OUTPUT_TXT] w w' /\ history w' = history w
  /\ (forall e, r = Raise e -> download_name_error lang = Some e).
Proof.
  unfold respond_txt. cbv zeta. intros H.
  destruct (send_text_file_frame _ _ _ _ _ _ _ H) as (Hfs & Hh & Hr).
  by rewrite (proj1 (download_name_error_of lang)) in Hr.
Qed.

Lemma try_pdf_frame env translated lang w r w' :
  try_pdf env translated lang w = (r, w') ->
  touches_only [OUTPUT_PDF] w w' /\ history w' = history w.
Proof.
  unfold try_pdf. cbv zeta. unfold bind at 1.
  destruct (add_text_block env (TranslatedPDF_init OUTPUT_PDF) translated w)
    as [[pdf|e] w1] eqn:Ha;
    destruct (add_text_block_frame _ _ _ _ _ _ Ha) as (Hfs1 & Hh1).
  2:{ intros [= <- <-]. split; [by apply touches_only_same_fs | exact Hh1]. }
  destruct (add_text_block_object _ _ _ _ _ _ Ha) as (Hname & Hdoc & _).
  unfold bind. destruct (save env pdf w1) as [rs w2] eqn:Hs.
  assert (doc_filename (doc pdf) = filename pdf) as Hinv by (by rewrite Hname, Hdoc).
  destruct (save_frame _ _ _ _ _ Hinv Hs) as (-> & Hfs2 & Hh2).
  rewrite Hname in Hfs2. change (filename (TranslatedPDF_init OUTPUT_PDF)) with OUTPUT_PDF in Hfs2.
  intros Hsend. apply send_file_world in Hsend as ->.
  split; [|congruence].
  eapply touches_only_trans; [by apply touches_only_same_fs | exact Hfs2].
Qed.

Lemma respond_pdf_frame env translated lang w r w' :
  respond_pdf env translated lang w = (r, w') ->
  touches_only [OUTPUT_TXT; OUTPUT_PDF] w w' /\ history w' = history w
  /\ (forall e, r = Raise e -> download_name_error lang = Some e).
Proof.
  unfold respond_pdf, try_except.
  destruct (try_pdf env translated lang w) as [[resp|e] w1] eqn:Ht;
    destruct (try_pdf_frame _ _ _ _ _ _ Ht) as (Hfs1 & Hh1).
  - intros [= <- <-]. split; [|split; [exact Hh1 | discriminate]].
    eapply touches_only_weaken; [|exact Hfs1]. intros x; rewrite !elem_of_cons, !elem_of_nil; tauto.
  - unfold bind at 1. unfold logging_error at 1. cbv beta iota zeta. intros H.
    destruct (send_text_file_frame _ _ _ _ _ _ _ H) as (Hfs2 & Hh2 & Hr).
    rewrite (proj1 (download_name_error_of lang)) in Hr.
    split; [|split; [by rewrite Hh2 | exact Hr]].
    eapply touches_only_trans.
    + eapply touches_only_weaken; [|exact Hfs1]. intros x; rewrite !elem_of_cons, !elem_of_nil; tauto.
    + eapply touches_only_weaken; [|exact Hfs2]. intros x; rewrite !elem_of_cons, !elem_of_nil; tauto.
Qed.

(** X16. The output step raises in one case only: [send_file] refuses
    the download name made from the language, because the language
    holds a carriage return or a line feed, or cannot be encoded. For
    any other language both branches end in a response, whatever the
    libraries and the disk do. Raising or not, the text branch writes at
    most [translated_output.txt], the PDF branch at most the two output
    files, and neither touches the conversation. *)
Theorem output_step_raises_only_for_the_header env translated lang w :
  (forall r w',
      respond_txt env translated lang w = (r, w') ->
      touches_only [OUTPUT_TXT] w w' /\ history w' = history w)
  /\ (forall r w',
        respond_pdf env translated lang w = (r, w') ->
        touches_only [OUTPUT_TXT; OUTPUT_PDF] w w' /\ history w' = history w)
  /\ (forall e w',
        respond_txt env translated lang w = (Raise e, w')
        \/ respond_pdf env translated lang w = (Raise e, w') ->
        (utf8_encode lang = None /\ e = UnicodeEncodeError)
        \/ (is_Some (utf8_encode lang) /\ (CR ∈ lang \/ LF ∈ lang)
            /\ e = ValueError header_newline_error))
  /\ (is_Some (utf8_encode lang) -> CR ∉ lang -> LF ∉ lang ->
      (exists resp w', respond_txt env translated lang w = (Ok resp, w'))
      /\ (exists resp w', respond_pdf env translated lang w = (Ok resp, w'))).
Proof.
  split; [|split; [|split]].
  - intros r w' H. destruct (respond_txt_frame _ _ _ _ _ _ H) as (? & ? & _). auto.
  - intros r w' H. destruct (respond_pdf_frame _ _ _ _ _ _ H) as (? & ? & _). auto.
  - intros e w' [H|H]; apply download_name_error_some.
    + destruct (respond_txt_frame _ _ _ _ _ _ H) as (_ & _ & Hr). by apply Hr.
    + destruct (respond_pdf_frame _ _ _ _ _ _ H) as (_ & _ & Hr). by apply Hr.
  - intros Henc Hcr Hlf.
    assert (download_name_error lang = None) as Hok by (by apply download_name_error_none).
    split.
    + destruct (respond_txt env translated lang w) as [[resp|e] w'] eqn:H; [eauto|].
      destruct (respond_txt_frame _ _ _ _ _ _ H) as (_ & _ & Hr).
      specialize (Hr e eq_refl). congruence.
    + destruct (respond_pdf env translated lang w) as [[resp|e] w'] eqn:H; [eauto|].
      destruct (respond_pdf_frame _ _ _ _ _ _ H) as (_ & _ & Hr).
      specialize (Hr e eq_refl). congruence.
Qed.

Lemma output_step_raises_only_for_the_header_witness :
  (exists resp w',
      respond_txt (env_locking OUTPUT_PDF [])  (str "Bonjour le monde") (str "French")
        world_with_stale_pdf
      = (Ok resp, w'))
  /\ (exists resp w',
        respond_pdf (env_locking OUTPUT_PDF []) (str "Bonjour le monde") (str "French")
          world_with_stale_pdf
        = (Ok resp, w')).
Proof.
  destruct (output_step_raises_only_for_the_header (env_locking OUTPUT_PDF [])
              (str "Bonjour le monde") (str "French") world_with_stale_pdf)
    as (_ & _ & _ & Hreturns).
  apply Hreturns.
  - vm_compute. eauto.
  - apply (bool_decide_eq_false_1 _). vm_compute. reflexivity.
  - apply (bool_decide_eq_false_1 _). vm_compute. reflexivity.
Defined.

(** ** The handler, stage by stage *)

Lemma output_branch_frame env req reply lang w r w' :
  output_branch env req reply lang w = (r, w') ->
  touches_only [OUTPUT_TXT; OUTPUT_PDF] w w' /\ history w' = history w
  /\ (forall e, r = Raise e -> download_name_error lang = Some e).
Proof.
  unfold output_branch. case_bool_decide; intros Hout.
  - destruct (respond_txt_frame _ _ _ _ _ _ Hout) as (Hfs & Hh & Hr).
    split; [|split; [exact Hh | exact Hr]].
    eapply touches_only_weaken; [|exact Hfs]. intros x; rewrite !elem_of_cons, !elem_of_nil; tauto.
  - exact (respond_pdf_frame _ _ _ _ _ _ Hout).
Qed.

(** A request that passes validation ends in one of four ways: the upload
    cannot be saved; it is saved and extraction raises; the text is
    extracted and [translate_text] raises; or the model answers with a
    text and the output step decides the response, an exception of the
    output step being reported like the others. *)
Lemma translate_validated_cases env req file lang w :
  validated req file lang ->
  (exists msg,
      open_w_error env (upload_path env file) = Some msg
      /\ translate env req w
         = (Ok (Text (str "Error: " ++ msg) 500),
            log_append (str "Error in translation") w))
  \/ (exists e,
        open_w_error env (upload_path env file) = None
        /\ extract_text env (upload_path env file) (saved_world env file w)
           = (Raise e, saved_world env file w)
        /\ translate env req w
           = (Ok (Text (str "Error: " ++ exn_str e) 500),
              log_append (str "Error in translation") (saved_world env file w)))
  \/ (exists original e w2,
        open_w_error env (upload_path env file) = None
        /\ extract_text env (upload_path env file) (saved_world env file w)
           = (Ok original, saved_world env file w)
        /\ translate_text env original lang (saved_world env file w) = (Raise e, w2)
        /\ translate env req w
           = (Ok (Text (str "Error: " ++ exn_str e) 500),
              log_append (str "Error in translation") w2))
  \/ (exists original reply r w',
        open_w_error env (upload_path env file) = None
        /\ extract_text env (upload_path env file) (saved_world env file w)
           = (Ok original, saved_world env file w)
        /\ send_message env (history w) (prompt_of original lang)
           = Done (TextResponse reply)
        /\ output_branch env req reply lang
             (answered_world (prompt_of original lang) (TextResponse reply)
                (saved_world env file w))
           = (r, w')
        /\ translate env req w
           = match r with
             | Ok resp => (Ok resp, w')
             | Raise e =>
                 (Ok (Text (str "Error: " ++ exn_str e) 500),
                  log_append (str "Error in translation") w')
             end).
Proof.
  intros Hv. pose proof (translate_body_validated env _ _ _ Hv) as Hbody.
  destruct (write_file_cases env (upload_path env file) (upload_stream file) w)
    as [(msg & Ho & Hw) | (Ho & Hw)].
  { left. exists msg. split; [exact Ho|].
    apply (translate_of_body_raise env req w (OSError msg)).
    rewrite Hbody. by rewrite (bind_raise _ _ _ _ _ Hw). }
  right. fold (saved_world env file w) in Hw.
  destruct (extract_text env (upload_path env file) (saved_world env file w))
    as [[original|e] w2] eqn:He;
    pose proof (extract_text_world_eq _ _ _ _ _ He) as ->.
  2:{ left. exists e. split; [exact Ho|]. split; [reflexivity|].
      apply translate_of_body_raise. rewrite Hbody.
      rewrite (bind_ok _ _ _ _ _ Hw). by rewrite (bind_raise _ _ _ _ _ He). }
  right.
  destruct (translate_text env original lang (saved_world env file w))
    as [[reply|e] w2] eqn:Ht.
  2:{ left. exists original, e, w2. split; [exact Ho|]. split; [reflexivity|].
      split; [exact Ht|]. apply translate_of_body_raise. rewrite Hbody.
      rewrite (bind_ok _ _ _ _ _ Hw), (bind_ok _ _ _ _ _ He).
      by rewrite (bind_raise _ _ _ _ _ Ht). }
  right.
  destruct (translate_text_cases env original lang (saved_world env file w))
    as [(_ & Ht') | [(msg & _ & _ & Ht') | [(reply' & _ & Hm & Ht') | (why & _ & _ & Ht')]]];
    rewrite Ht' in Ht; try discriminate Ht.
  injection Ht as <- <-.
  assert (translate_body env req w
          = output_branch env req reply' lang
              (answered_world (prompt_of original lang) (TextResponse reply')
                 (saved_world env file w)))
    as Hout.
  { rewrite Hbody.
    rewrite (bind_ok _ _ _ _ _ Hw), (bind_ok _ _ _ _ _ He), (bind_ok _ _ _ _ _ Ht').
    unfold output_branch. by case_bool_decide. }
  destruct (output_branch env req reply' lang
              (answered_world (prompt_of original lang) (TextResponse reply')
                 (saved_world env file w)))
    as [r w'] eqn:Hr.
  exists original, reply', r, w'. split; [exact Ho|]. split; [reflexivity|].
  split; [exact Hm|]. split; [exact Hr|].
  destruct r as [resp|e]; [by apply translate_of_body_ok | by apply translate_of_body_raise].
Qed.

Lemma upload_path_not_output env file :
  upload_path env file <> OUTPUT_TXT /\ upload_path env file <> OUTPUT_PDF.
Proof.
  unfold upload_path, os_path_join.
  set (name := secure_filename env (upload_filename file)).
  destruct (startswith name (str "/")) eqn:Hs.
  - unfold startswith in Hs. apply bool_decide_eq_true_1 in Hs.
    split; intros Heq; rewrite Heq in Hs; vm_compute in Hs; discriminate Hs.
  - destruct (endswith UPLOAD_FOLDER (str "/") || negb (truthy UPLOAD_FOLDER));
      split; intros Heq; vm_compute in Heq; discriminate Heq.
Qed.

Lemma download_name_ext lang ext ext' :
  download_name_of lang ext = download_name_of lang ext' -> ext = ext'.
Proof.
  unfold download_name_of. intros H. apply app_inv_head in H. by apply app_inv_head in H.
Qed.

(** Either the request passes the three checks, or it is answered 400
    with one of the three messages and the world is left as it was. *)
Lemma validated_or_rejected env req w :
  (exists file lang, validated req file lang)
  \/ (exists body, body ∈ validation_messages
                   /\ translate env req w = (Ok (Text body 400), w)).
Proof.
  unfold validated, validation_messages.
  destruct (multidict_get (str "file") (files req)) as [file|] eqn:Hf.
  2:{ right. eexists. split; [|apply translate_of_body_ok; unfold translate_body; by rewrite Hf].
      rewrite !elem_of_cons. auto. }
  destruct (decide (upload_filename file = [])) as [Hn|Hn].
  { right. eexists. split; [|apply translate_of_body_ok; unfold translate_body;
                              by rewrite Hf, bool_decide_eq_true_2].
    rewrite !elem_of_cons. auto. }
  destruct (multidict_get (str "language") (form req)) as [[|c lang]|] eqn:Hl.
  - right. eexists. split; [|apply translate_of_body_ok; unfold translate_body;
                             by rewrite Hf, bool_decide_eq_false_2, Hl].
    rewrite !elem_of_cons. auto.
  - left. exists file, (c :: lang). auto.
  - right. eexists. split; [|apply translate_of_body_ok; unfold translate_body;
                             by rewrite Hf, bool_decide_eq_false_2, Hl].
    rewrite !elem_of_cons. auto.
Qed.

(** X17. A request that fails one of the three checks is answered 400 and
    changes nothing. The checks run in a fixed order: a missing file part
    is reported before an empty file name, and an empty file name before
    a missing or empty language. *)
Theorem rejected_request_changes_nothing env req w :
  (forall file lang, ~ validated req file lang) ->
  translate env req w
  = (Ok (Text
           (match multidict_get (str "file") (files req) with
            | None => str "No file uploaded"
            | Some file =>
                if bool_decide (upload_filename file = [])
                then str "Empty filename"
                else str "No target language specified"
            end) 400),
     w).
Proof.
  intros Hnv. apply translate_of_body_ok. unfold translate_body.
  destruct (multidict_get (str "file") (files req)) as [file|] eqn:Hf; [|reflexivity].
  case_bool_decide as Hn; [reflexivity|].
  destruct (multidict_get (str "language") (form req)) as [[|c lang]|] eqn:Hl;
    [reflexivity | | reflexivity].
  exfalso. apply (Hnv file (c :: lang)). unfold validated. auto.
Qed.

Lemma rejected_request_changes_nothing_witness :
  translate sample_env
    {| files := [(str "file", sample_upload "notes.txt" (str "Hello world"))];
       form := [(str "format", str "txt")] |}
    world_with_stale_pdf
  = (Ok (Text (str "No target language specified") 400), world_with_stale_pdf).
Proof.
  apply (rejected_request_changes_nothing sample_env
           {| files := [(str "file", sample_upload "notes.txt" (str "Hello world"))];
              form := [(str "format", str "txt")] |}
           world_with_stale_pdf).
  intros file lang (_ & _ & Hl & _). vm_compute in Hl. discriminate Hl.
Defined.

(** X18. For a request that passes the three checks, whatever happens
    to it afterwards, [translate] returns a response and writes to no file
    other than the saved upload and the two fixed output files. *)
Theorem translate_touches_only_three_paths env req file lang w :
  validated req file lang ->
  exists resp w',
    translate env req w = (Ok resp, w')
    /\ touches_only [upload_path env file; OUTPUT_TXT; OUTPUT_PDF] w w'.
Proof.
  intros Hv.
  assert (touches_only [upload_path env file; OUTPUT_TXT; OUTPUT_PDF] w (saved_world env file w))
    as Hsaved.
  { intros p Hp. unfold saved_world. cbn [fs set_fs]. apply lookup_insert_ne.
    intros Heq. apply Hp. rewrite <- Heq. left. }
  destruct (translate_validated_cases env req file lang w Hv)
    as [(msg & _ & Ht) | [(e & _ & _ & Ht) | [(o & e & w2 & _ & _ & Htext & Ht)
       | (o & reply & r & w' & _ & _ & _ & Hout & Ht)]]].
  - rewrite Ht. eexists _, _. split; [reflexivity|]. by apply touches_only_same_fs.
  - rewrite Ht. eexists _, _. split; [reflexivity|]. exact Hsaved.
  - rewrite Ht. eexists _, _. split; [reflexivity|].
    destruct (translate_text_frame _ _ _ _ _ _ Htext) as (Hfs & _).
    eapply touches_only_trans; [exact Hsaved|]. by apply touches_only_same_fs.
  - destruct (output_branch_frame _ _ _ _ _ _ _ Hout) as (Hfs & _).
    assert (touches_only [upload_path env file; OUTPUT_TXT; OUTPUT_PDF] w w') as Hall.
    { eapply touches_only_trans; [exact Hsaved|].
      eapply touches_only_weaken; [|exact Hfs].
      intros x; rewrite !elem_of_cons, !elem_of_nil; tauto. }
    rewrite Ht. destruct r as [resp|e]; eexists _, _; (split; [reflexivity|]).
    + exact Hall.
    + eapply touches_only_trans; [exact Hall|]. by apply touches_only_same_fs.
Qed.

Lemma translate_touches_only_three_paths_witness :
  exists resp w',
    translate sample_env
      (sample_request "notes.txt" (str "Hello world") [("language", "French")])
      world_with_stale_pdf
    = (Ok resp, w')
    /\ touches_only [str "uploads/notes.txt"; OUTPUT_TXT; OUTPUT_PDF] world_with_stale_pdf w'.
Proof.
  apply (translate_touches_only_three_paths sample_env
           (sample_request "notes.txt" (str "Hello world") [("language", "French")])
           (sample_upload "notes.txt" (str "Hello world")) (str "French")).
  repeat split; vm_compute; (reflexivity || discriminate).
Defined.

(** X19. Once the upload is saved it stays on disk, byte for byte,
    whatever the rest of the request does: no later step writes to its
    path, and nothing ever deletes it. *)
Theorem saved_upload_is_kept env req file lang w :
  validated req file lang ->
  open_w_error env (upload_path env file) = None ->
  fs (snd (translate env req w)) !! upload_path env file = Some (upload_stream file).
Proof.
  intros Hv Ho.
  assert (fs (saved_world env file w) !! upload_path env file = Some (upload_stream file))
    as Hsaved by (unfold saved_world; cbn [fs set_fs]; apply lookup_insert_eq).
  destruct (translate_validated_cases env req file lang w Hv)
    as [(msg & Ho' & _) | [(e & _ & _ & Ht) | [(o & e & w2 & _ & _ & Htext & Ht)
       | (o & reply & r & w' & _ & _ & _ & Hout & Ht)]]];
    [congruence | rewrite Ht; exact Hsaved | |].
  - rewrite Ht. cbn [snd fs log_append].
    destruct (translate_text_frame _ _ _ _ _ _ Htext) as (Hfs & _). by rewrite Hfs.
  - destruct (output_branch_frame _ _ _ _ _ _ _ Hout) as (Hfs & _).
    assert (fs w' !! upload_path env file = Some (upload_stream file)) as Hkept.
    { rewrite Hfs; [exact Hsaved|].
      destruct (upload_path_not_output env file) as [Htxt Hpdf].
      rewrite !elem_of_cons, elem_of_nil. tauto. }
    rewrite Ht. by destruct r.
Qed.

Lemma saved_upload_is_kept_witness :
  fs (snd (translate (env_locking OUTPUT_PDF (str "Bonjour le monde"))
             (sample_request "notes.txt" (str "Hello world") [("language", "French")])
             world_with_stale_pdf))
  !! str "uploads/notes.txt"
  = Some (str "Hello world").
Proof.
  apply (saved_upload_is_kept (env_locking OUTPUT_PDF (str "Bonjour le monde"))
           (sample_request "notes.txt" (str "Hello world") [("language", "French")])
           (sample_upload "notes.txt" (str "Hello world")) (str "French")).
  - repeat split; vm_compute; (reflexivity || discriminate).
  - vm_compute. reflexivity.
Defined.

(** ** The shared conversation *)

(** X20. A request adds at most one exchange to the conversation shared
    by the whole process, and only by a successful model call made with
    the whole earlier conversation; it never removes or rewrites one. *)
Theorem history_grows_by_at_most_one env req w :
  history (snd (translate env req w)) = history w
  \/ exists prompt reply,
       send_message env (history w) prompt = Done reply
       /\ history (snd (translate env req w)) = history w ++ [(prompt, reply)].
Proof.
  destruct (validated_or_rejected env req w) as [(file & lang & Hv) | (body & _ & Ht)].
  2:{ left. by rewrite Ht. }
  destruct (translate_validated_cases env req file lang w Hv)
    as [(msg & _ & Ht) | [(e & _ & _ & Ht) | [(o & e & w2 & _ & _ & Htext & Ht)
       | (o & reply & r & w' & _ & _ & Hm & Hout & Ht)]]];
    rewrite Ht; [by left | by left | |].
  - cbn [snd history log_append].
    destruct (translate_text_frame _ _ _ _ _ _ Htext) as (_ & _ & [Hh | (response & Hm & Hh)]).
    + left. exact Hh.
    + right. exists (prompt_of o lang), response. split; [exact Hm | exact Hh].
  - right. exists (prompt_of o lang), (TextResponse reply). split; [exact Hm|].
    destruct (output_branch_frame _ _ _ _ _ _ _ Hout) as (_ & Hh & _).
    by destruct r.
Qed.

(** X21. When the client has started, the upload is saved, its text
    extracted and the model answers, the prompt built from the document
    and the response join the shared conversation, whatever the response
    is and whatever the output step does afterwards; that prompt holds
    the document's text in full. *)
Theorem document_enters_shared_history env req file lang w original reply :
  validated req file lang ->
  chat env <> None ->
  open_w_error env (upload_path env file) = None ->
  fst (extract_text env (upload_path env file) (saved_world env file w)) = Ok original ->
  send_message env (history w) (prompt_of original lang) = Done reply ->
  history (snd (translate env req w)) = history w ++ [(prompt_of original lang, reply)]
  /\ contains (prompt_of original lang) original = true.
Proof.
  intros Hv Hc Ho He Hm. split; [|apply prompt_contains_text].
  destruct (translate_validated_cases env req file lang w Hv)
    as [(msg & Ho' & _) | [(e & _ & He' & _) | [(o & e & w2 & _ & He' & Ht' & Ht)
       | (o & reply' & r & w' & _ & He' & Hm' & Hout & Ht)]]].
  - congruence.
  - rewrite He' in He. discriminate He.
  - rewrite He' in He. injection He as ->. rewrite Ht. cbn [snd history log_append].
    destruct (translate_text_cases env original lang (saved_world env file w))
      as [(Hc' & _) | [(msg & _ & Hf & _) | [(t & _ & _ & Hk) | (why & _ & Hn & Hk)]]].
    + contradiction.
    + cbn [history saved_world set_fs] in Hf. congruence.
    + rewrite Hk in Ht'. discriminate Ht'.
    + rewrite Hk in Ht'. injection Ht' as _ <-.
      cbn [history saved_world set_fs] in Hn. rewrite Hm in Hn. injection Hn as ->.
      reflexivity.
  - rewrite He' in He. injection He as ->. rewrite Hm in Hm'. injection Hm' as ->.
    destruct (output_branch_frame _ _ _ _ _ _ _ Hout) as (_ & Hh & _).
    rewrite Ht. by destruct r.
Qed.

Lemma document_enters_shared_history_witness :
  history (snd (translate (env_locking OUTPUT_PDF (str "Bonjour le monde"))
                  (sample_request "notes.txt" (str "Hello world") [("language", "French")])
                  world_with_stale_pdf))
  = [(prompt_of (str "Hello world") (str "French"), TextResponse (str "Bonjour le monde"))]
  /\ contains (prompt_of (str "Hello world") (str "French")) (str "Hello world") = true.
Proof.
  apply (document_enters_shared_history (env_locking OUTPUT_PDF (str "Bonjour le monde"))
           (sample_request "notes.txt" (str "Hello world") [("language", "French")])
           (sample_upload "notes.txt" (str "Hello world")) (str "French")
           world_with_stale_pdf).
  - repeat split; vm_compute; (reflexivity || discriminate).
  - vm_compute. discriminate.
  - vm_compute. reflexivity.
  - vm_compute. reflexivity.
  - vm_compute. reflexivity.
Defined.

(** ** What a download holds *)

Lemma send_text_file_attachment env text name msg w name' body w' :
  bind (create_text_file env text OUTPUT_TXT)
    (fun created : bool =>
       if created then send_file OUTPUT_TXT name else ret (Text msg 500)) w
  = (Ok (Attachment name' body), w') ->
  name' = name /\ utf8_encode text = Some body /\ fs w' !! OUTPUT_TXT = Some body
  /\ history w' = history w.
Proof.
  destruct (send_text_file_cases env text name msg w)
    as [(b & Hb & _ & _ & H) | [(b & e' & _ & _ & _ & H) | (w1 & _ & H)]];
    rewrite H; [|discriminate..].
  intros [= <- <- <-]. cbn [fs set_fs history]. by rewrite lookup_insert_eq.
Qed.

(** A download is always made by the output step, from the text of the
    model's response to this request. *)
Lemma translate_attachment_inv env req file lang w name body w' :
  validated req file lang ->
  translate env req w = (Ok (Attachment name body), w') ->
  exists original reply,
    send_message env (history w) (prompt_of original lang) = Done (TextResponse reply)
    /\ output_branch env req reply lang
         (answered_world (prompt_of original lang) (TextResponse reply)
            (saved_world env file w))
       = (Ok (Attachment name body), w').
Proof.
  intros Hv Hresp.
  destruct (translate_validated_cases env req file lang w Hv)
    as [(msg & _ & Ht) | [(e & _ & _ & Ht) | [(o & e & w2 & _ & _ & _ & Ht)
       | (o & reply & r & w1 & _ & _ & Hm & Hout & Ht)]]];
    rewrite Ht in Hresp; try discriminate Hresp.
  destruct r as [resp|e]; [|discriminate Hresp].
  injection Hresp as -> ->. eauto.
Qed.

Lemma try_pdf_attachment env translated lang w resp w' :
  try_pdf env translated lang w = (Ok resp, w') ->
  exists body,
    resp = Attachment (download_name_of lang (str ".pdf")) body
    /\ fs w' !! OUTPUT_PDF = Some body
    /\ ((exists pdf w1,
           add_text_block env (TranslatedPDF_init OUTPUT_PDF) translated w = (Ok pdf, w1)
           /\ doc_render env (doc pdf) (story pdf) = Done body)
        \/ canvas_render env letter fallback_drawing = Done body
        \/ fs w !! OUTPUT_PDF = Some body).
Proof.
  unfold try_pdf. cbv zeta. intros H.
  apply bind_ok_inv in H as (pdf & w1 & Ha & H).
  apply bind_ok_inv in H as ([] & w2 & Hs & H).
  destruct (add_text_block_frame _ _ _ _ _ _ Ha) as (Hfs1 & _).
  destruct (add_text_block_object _ _ _ _ _ _ Ha) as (Hname & Hdoc & _).
  change (filename (TranslatedPDF_init OUTPUT_PDF)) with OUTPUT_PDF in Hname.
  assert (doc_filename (doc pdf) = filename pdf) as Hinv by (by rewrite Hname, Hdoc).
  apply send_file_ok_inv in H as (body & Hb & _ & -> & ->).
  exists body. split; [reflexivity|]. split; [exact Hb|].
  destruct (save_cases env pdf w1 Hinv)
    as [(rendered & Hr & _ & Hs') | [(e & placeholder & _ & Hc & _ & Hs') | (e & e' & _ & Hs')]];
    rewrite Hs' in Hs; injection Hs as <-; rewrite ?Hname in Hb; cbn [fs set_fs log_append] in Hb.
  - rewrite lookup_insert_eq in Hb. injection Hb as <-. left. eauto.
  - rewrite lookup_insert_eq in Hb. injection Hb as <-. right. left. exact Hc.
  - right. right. by rewrite <- Hfs1.
Qed.

(** X22. Whenever a request is answered with the download
    [translated_<language>.txt], in the text branch or as the fallback of
    the PDF branch, the body is the UTF-8 encoding of the model's reply
    to this request, and it is what [translated_output.txt] now holds. *)
Theorem txt_download_is_the_reply env req file lang w body w' :
  validated req file lang ->
  translate env req w = (Ok (Attachment (download_name_of lang (str ".txt")) body), w') ->
  exists prompt reply,
    history w' = history w ++ [(prompt, TextResponse reply)]
    /\ utf8_encode reply = Some body
    /\ utf8_decode body = Some reply
    /\ fs w' !! OUTPUT_TXT = Some body.
Proof.
  intros Hv Hresp.
  destruct (translate_attachment_inv _ _ _ _ _ _ _ _ Hv Hresp) as (o & reply & _ & Hout).
  exists (prompt_of o lang), reply.
  assert (utf8_encode reply = Some body /\ fs w' !! OUTPUT_TXT = Some body
          /\ history w'
             = history (answered_world (prompt_of o lang) (TextResponse reply)
                          (saved_world env file w)))
    as (Henc & Hfs & Hh).
  { unfold output_branch in Hout. case_bool_decide.
    - unfold respond_txt in Hout. cbv zeta in Hout.
      by destruct (send_text_file_attachment _ _ _ _ _ _ _ _ Hout) as (_ & ? & ? & ?).
    - unfold respond_pdf, try_except in Hout.
      destruct (try_pdf env reply lang _) as [[resp|e] w1] eqn:Htry.
      + injection Hout as -> ->.
        destruct (try_pdf_attachment _ _ _ _ _ _ Htry) as (b & Hr & _).
        injection Hr as Hn _. apply app_inv_head in Hn. vm_compute in Hn. discriminate Hn.
      + unfold bind at 1 in Hout. unfold logging_error at 1 in Hout.
        cbv beta iota zeta in Hout.
        destruct (send_text_file_attachment _ _ _ _ _ _ _ _ Hout) as (_ & ? & ? & Hh).
        destruct (try_pdf_frame _ _ _ _ _ _ Htry) as (_ & Hh1).
        repeat split; try assumption. by rewrite Hh. }
  split; [exact Hh|]. split; [exact Henc|]. split; [by apply utf8_decode_encode | exact Hfs].
Qed.

Lemma txt_download_is_the_reply_witness :
  exists prompt reply,
    history (snd (translate (env_locking OUTPUT_PDF (str "Bonjour le monde"))
                    (sample_request "notes.txt" (str "Hello world") [("language", "French")])
                    empty_world))
    = history empty_world ++ [(prompt, TextResponse reply)]
    /\ utf8_encode reply = Some (str "Bonjour le monde")
    /\ utf8_decode (str "Bonjour le monde") = Some reply
    /\ fs (snd (translate (env_locking OUTPUT_PDF (str "Bonjour le monde"))
                  (sample_request "notes.txt" (str "Hello world") [("language", "French")])
                  empty_world))
       !! OUTPUT_TXT = Some (str "Bonjour le monde").
Proof.
  apply (txt_download_is_the_reply (env_locking OUTPUT_PDF (str "Bonjour le monde"))
           (sample_request "notes.txt" (str "Hello world") [("language", "French")])
           (sample_upload "notes.txt" (str "Hello world")) (str "French") empty_world).
  - repeat split; vm_compute; (reflexivity || discriminate).
  - vm_compute. reflexivity.
Defined.

(** X23. Whenever a request is answered with the download
    [translated_<language>.pdf], the body is what [translated_output.pdf]
    now holds, and it is one of three things: the document rendered from
    the story that [add_text_block] built for the model's reply, the
    placeholder, or the very file that was at that path before the
    request. *)
Theorem pdf_download_origin env req file lang w body w' :
  validated req file lang ->
  translate env req w = (Ok (Attachment (download_name_of lang (str ".pdf")) body), w') ->
  fs w' !! OUTPUT_PDF = Some body
  /\ ((exists prompt reply w0 pdf w1,
         history w' = history w ++ [(prompt, TextResponse reply)]
         /\ add_text_block env (TranslatedPDF_init OUTPUT_PDF) reply w0 = (Ok pdf, w1)
         /\ doc_render env (doc pdf) (story pdf) = Done body)
      \/ canvas_render env letter fallback_drawing = Done body
      \/ fs w !! OUTPUT_PDF = Some body).
Proof.
  intros Hv Hresp.
  destruct (translate_attachment_inv _ _ _ _ _ _ _ _ Hv Hresp) as (o & reply & _ & Hout).
  assert (fs (answered_world (prompt_of o lang) (TextResponse reply) (saved_world env file w))
            !! OUTPUT_PDF
          = fs w !! OUTPUT_PDF) as Hbefore.
  { unfold answered_world, saved_world. cbn [fs set_fs]. apply lookup_insert_ne.
    apply (upload_path_not_output env file). }
  unfold output_branch in Hout. case_bool_decide.
  - unfold respond_txt in Hout. cbv zeta in Hout.
    destruct (send_text_file_attachment _ _ _ _ _ _ _ _ Hout) as (Hn & _).
    apply download_name_ext in Hn. vm_compute in Hn. discriminate Hn.
  - unfold respond_pdf, try_except in Hout.
    destruct (try_pdf env reply lang _) as [[resp|e] w1] eqn:Htry.
    + injection Hout as -> ->.
      destruct (try_pdf_attachment _ _ _ _ _ _ Htry) as (b & Hr & Hfs & Horigin).
      destruct (try_pdf_frame _ _ _ _ _ _ Htry) as (_ & Hh).
      injection Hr as <-. split; [exact Hfs|].
      destruct Horigin as [(pdf & w2 & Ha & Hrender) | [Hc | Hstale]].
      * left. eexists (prompt_of o lang), reply, _, pdf, w2. split; [exact Hh|]. eauto.
      * right. by left.
      * right. right. by rewrite <- Hbefore.
    + unfold bind at 1 in Hout. unfold logging_error at 1 in Hout.
      cbv beta iota zeta in Hout.
      destruct (send_text_file_attachment _ _ _ _ _ _ _ _ Hout) as (Hn & _).
      apply download_name_ext in Hn. vm_compute in Hn. discriminate Hn.
Qed.

Lemma pdf_download_origin_witness :
  fs (snd (translate (env_locking OUTPUT_PDF (str "Bonjour le monde"))
             (sample_request "notes.txt" (str "Hello world") [("language", "French")])
             world_with_stale_pdf))
  !! OUTPUT_PDF = Some stale_pdf
  /\ ((exists prompt reply w0 pdf w1,
         history (snd (translate (env_locking OUTPUT_PDF (str "Bonjour le monde"))
                         (sample_request "notes.txt" (str "Hello world")
                            [("language", "French")])
                         world_with_stale_pdf))
         = history world_with_stale_pdf ++ [(prompt, TextResponse reply)]
         /\ add_text_block (env_locking OUTPUT_PDF (str "Bonjour le monde"))
              (TranslatedPDF_init OUTPUT_PDF) reply w0 = (Ok pdf, w1)
         /\ doc_render (env_locking OUTPUT_PDF (str "Bonjour le monde")) (doc pdf) (story pdf)
            = Done stale_pdf)
      \/ canvas_render (env_locking OUTPUT_PDF (str "Bonjour le monde")) letter fallback_drawing
         = Done stale_pdf
      \/ fs world_with_stale_pdf !! OUTPUT_PDF = Some stale_pdf).
Proof.
  apply (pdf_download_origin (env_locking OUTPUT_PDF (str "Bonjour le monde"))
           (sample_request "notes.txt" (str "Hello world") [("language", "French")])
           (sample_upload "notes.txt" (str "Hello world")) (str "French")
           world_with_stale_pdf stale_pdf
           (snd (translate (env_locking OUTPUT_PDF (str "Bonjour le monde"))
                   (sample_request "notes.txt" (str "Hello world") [("language", "French")])
                   world_with_stale_pdf))).
  - repeat split; vm_compute; (reflexivity || discriminate).
  - vm_compute. reflexivity.
Defined.

(** X24. An upload whose saved path ends in neither [.txt] nor [.pdf] is
    written to disk before it is refused: the response is the 500 message
    "Error: Unsupported file type", the file is in the upload folder, and
    the model has not been called. *)
Theorem unsupported_upload_is_saved_then_refused env req file lang w :
  validated req file lang ->
  open_w_error env (upload_path env file) = None ->
  endswith (upload_path env file) (str ".txt") = false ->
  endswith (upload_path env file) (str ".pdf") = false ->
  translate env req w
  = (Ok (Text (str "Error: Unsupported file type") 500),
     log_append (str "Error in translation") (saved_world env file w))
  /\ fs (saved_world env file w) !! upload_path env file = Some (upload_stream file)
  /\ history (saved_world env file w) = history w.
Proof.
  intros Hv Ho Htxt Hpdf.
  assert (extract_text env (upload_path env file) (saved_world env file w)
          = (Raise (ValueError (str "Unsupported file type")), saved_world env file w)) as He.
  { unfold extract_text. by rewrite Htxt, Hpdf. }
  split; [|split; [unfold saved_world; cbn [fs set_fs]; apply lookup_insert_eq | reflexivity]].
  destruct (translate_validated_cases env req file lang w Hv)
    as [(msg & Ho' & _) | [(e & _ & He' & Ht) | [(o & e & w2 & _ & He' & _)
       | (o & reply & r & w1 & _ & He' & _)]]]; try congruence.
  rewrite He in He'. injection He' as <-. exact Ht.
Qed.

Lemma unsupported_upload_is_saved_then_refused_witness :
  translate sample_env
    (sample_request "notes.docx" (str "Hello world") [("language", "French")]) empty_world
  = (Ok (Text (str "Error: Unsupported file type") 500),
     log_append (str "Error in translation")
       (saved_world sample_env (sample_upload "notes.docx" (str "Hello world")) empty_world))
  /\ fs (saved_world sample_env (sample_upload "notes.docx" (str "Hello world")) empty_world)
     !! str "uploads/notes.docx" = Some (str "Hello world")
  /\ history (saved_world sample_env (sample_upload "notes.docx" (str "Hello world")) empty_world)
     = [].
Proof.
  apply (unsupported_upload_is_saved_then_refused sample_env
           (sample_request "notes.docx" (str "Hello world") [("language", "French")])
           (sample_upload "notes.docx" (str "Hello world")) (str "French") empty_world).
  - repeat split; vm_compute; (reflexivity || discriminate).
  - vm_compute. reflexivity.
  - vm_compute. reflexivity.
  - vm_compute. reflexivity.
Defined.

(** ** The log *)

Lemma add_text_block_log env self text w r w' :
  add_text_block env self text w = (r, w') -> exists entries, log w' = log w ++ entries.
Proof.
  unfold add_text_block. destruct (for_each _ _ _) as [[[]|e] story'].
  - intros [= <- <-]. exists []. by rewrite app_nil_r.
  - unfold bind, logging_error. cbv beta iota.
    destruct (Paragraph_cases env fallback_text (normal_style self)
                (log_append (str "Error adding text block: " ++ exn_str e) w))
      as [(msg & _ & Hp) | (_ & Hp)]; rewrite Hp; intros [= <- <-]; eexists; reflexivity.
Qed.

Lemma save_log env self w r w' :
  doc_filename (doc self) = filename self ->
  save env self w = (r, w') -> exists entries, log w' = log w ++ entries.
Proof.
  intros Hname Hs.
  destruct (save_cases env self w Hname)
    as [(rendered & _ & _ & Hs') | [(e & placeholder & _ & _ & _ & Hs') | (e & e' & _ & Hs')]];
    rewrite Hs' in Hs; injection Hs as <- <-; cbn [log set_fs log_append].
  - exists []. by rewrite app_nil_r.
  - eexists; reflexivity.
  - rewrite <- app_assoc. eexists; reflexivity.
Qed.

Lemma send_text_file_log env text name msg w r w' :
  bind (create_text_file env text OUTPUT_TXT)
    (fun created : bool =>
       if created then send_file OUTPUT_TXT name else ret (Text msg 500)) w
  = (r, w') ->
  exists entries,
    log w' = log w ++ entries
    /\ (forall resp, r = Ok resp ->
          (status_of resp = 500 -> entries <> []) /\ status_of resp <> 400).
Proof.
  destruct (send_text_file_cases env text name msg w)
    as [(b & _ & _ & _ & H) | [(b & e' & _ & _ & _ & H) | (w1 & Hc & H)]];
    rewrite H; intros [= <- <-].
  - exists []. cbn [log set_fs]. rewrite app_nil_r.
    split; [reflexivity|]. intros resp [= <-]. split; discriminate.
  - exists []. cbn [log set_fs]. rewrite app_nil_r.
    split; [reflexivity | discriminate].
  - destruct (create_text_file_frame _ _ _ _ _ _ Hc) as (_ & _ & [e He]).
    eexists. split; [exact He|]. intros resp [= <-]. split; discriminate.
Qed.

Lemma try_pdf_log env translated lang w r w' :
  try_pdf env translated lang w = (r, w') -> exists entries, log w' = log w ++ entries.
Proof.
  unfold try_pdf. cbv zeta. unfold bind at 1.
  destruct (add_text_block env (TranslatedPDF_init OUTPUT_PDF) translated w)
    as [[pdf|e] w1] eqn:Ha;
    destruct (add_text_block_log _ _ _ _ _ _ Ha) as (l1 & Hl1).
  2:{ intros [= <- <-]. eauto. }
  destruct (add_text_block_object _ _ _ _ _ _ Ha) as (Hname & Hdoc & _).
  unfold bind. destruct (save env pdf w1) as [rs w2] eqn:Hs.
  assert (doc_filename (doc pdf) = filename pdf) as Hinv by (by rewrite Hname, Hdoc).
  destruct (save_log _ _ _ _ _ Hinv Hs) as (l2 & Hl2).
  destruct (save_frame _ _ _ _ _ Hinv Hs) as (-> & _ & _).
  intros Hsend. apply send_file_world in Hsend as ->.
  exists (l1 ++ l2). by rewrite Hl2, Hl1, app_assoc.
Qed.

Lemma output_branch_log env req reply lang w r w' :
  output_branch env req reply lang w = (r, w') ->
  exists entries,
    log w' = log w ++ entries
    /\ (forall resp, r = Ok resp ->
          (status_of resp = 500 -> entries <> []) /\ status_of resp <> 400).
Proof.
  unfold output_branch. case_bool_decide; [apply send_text_file_log|].
  unfold respond_pdf, try_except.
  destruct (try_pdf env reply lang w) as [[r0|e] w0] eqn:Ht;
    destruct (try_pdf_log _ _ _ _ _ _ Ht) as (l1 & Hl1).
  - intros [= <- <-]. exists l1. split; [exact Hl1|]. intros resp [= <-].
    rewrite (try_pdf_status _ _ _ _ _ _ Ht). split; discriminate.
  - unfold bind at 1. unfold logging_error at 1. cbv beta iota zeta. intros Hsend.
    destruct (send_text_file_log _ _ _ _ _ _ _ Hsend) as (l2 & Hl2 & Hstatus).
    exists (l1 ++ [str "PDF creation failed: " ++ exn_str e] ++ l2).
    split.
    + rewrite Hl2. cbn [log log_append]. by rewrite Hl1, <- !app_assoc.
    + intros resp Hresp. destruct (Hstatus resp Hresp) as [_ H400]. split; [|exact H400].
      intros _ Hnil. apply app_eq_nil in Hnil as [_ Hnil]. discriminate Hnil.
Qed.

(** X25. The log only grows during a request, and it tells the failures:
    a 400 response comes with no new line, every 500 response with at
    least one. *)
Theorem error_responses_are_logged env req w resp w' :
  translate env req w = (Ok resp, w') ->
  exists entries,
    log w' = log w ++ entries
    /\ (status_of resp = 400 -> entries = [])
    /\ (status_of resp = 500 -> entries <> []).
Proof.
  intros Ht.
  destruct (validated_or_rejected env req w) as [(file & lang & Hv) | (body & _ & H)].
  2:{ rewrite H in Ht. injection Ht as <- <-. exists []. rewrite app_nil_r.
      split; [reflexivity|]. split; [reflexivity | discriminate]. }
  destruct (translate_validated_cases env req file lang w Hv)
    as [(msg & _ & H) | [(e & _ & _ & H) | [(o & e & w2 & _ & _ & Htext & H)
       | (o & reply & r & w1 & _ & _ & _ & Hout & H)]]];
    rewrite H in Ht.
  1-2: injection Ht as <- <-; exists [str "Error in translation"];
       cbn [log log_append saved_world set_fs status_of];
       (split; [reflexivity|]); split; discriminate.
  - injection Ht as <- <-. exists [str "Error in translation"].
    destruct (translate_text_frame _ _ _ _ _ _ Htext) as (_ & Hl & _).
    cbn [log log_append status_of]. rewrite Hl.
    split; [reflexivity|]. split; discriminate.
  - destruct (output_branch_log _ _ _ _ _ _ _ Hout) as (l & Hl & Hstatus).
    destruct r as [resp'|e]; injection Ht as <- <-.
    + destruct (Hstatus resp' eq_refl) as [H500 H400].
      exists l. split; [exact Hl|]. split; [by intros ? | exact H500].
    + exists (l ++ [str "Error in translation"]). cbn [log log_append status_of].
      split; [by rewrite Hl, app_assoc|]. split; [discriminate|].
      intros _ Hnil. apply app_eq_nil in Hnil as [_ Hnil]. discriminate Hnil.
Qed.

Lemma error_responses_are_logged_witness :
  exists entries,
    log (snd (translate no_chat_env
                (sample_request "notes.txt" (str "Hello world") [("language", "French")])
                empty_world))
    = log empty_world ++ entries
    /\ (status_of (Text (str "Error: Gemini not initialized") 500) = 400 -> entries = [])
    /\ (status_of (Text (str "Error: Gemini not initialized") 500) = 500 -> entries <> []).
Proof.
  apply (error_responses_are_logged no_chat_env
           (sample_request "notes.txt" (str "Hello world") [("language", "French")])
           empty_world).
  vm_compute. reflexivity.
Defined.

(** ** The responses of [translate] *)

Lemma send_text_file_shapes env text name msg w resp w' :
  bind (create_text_file env text OUTPUT_TXT)
    (fun created : bool =>
       if created then send_file OUTPUT_TXT name else ret (Text msg 500)) w
  = (Ok resp, w') ->
  resp = Text msg 500 \/ exists body, resp = Attachment name body.
Proof.
  destruct (send_text_file_cases env text name msg w)
    as [(b & _ & _ & _ & H) | [(b & e' & _ & _ & _ & H) | (w1 & _ & H)]];
    rewrite H; [| discriminate |]; intros [= <- <-]; eauto.
Qed.

(** X26. The responses of [translate], in full: a 400 with one of the
    three validation messages and the world unchanged; a 500 whose body
    starts with [Error]; or a download named after the requested
    language, with the extension [.txt] or [.pdf], the latter never when
    the text format was asked for. *)
Theorem translate_response_shapes env req w resp w' :
  translate env req w = (Ok resp, w') ->
  (exists body, body ∈ validation_messages /\ resp = Text body 400 /\ w' = w)
  \/ (exists body, resp = Text body 500 /\ startswith body (str "Error") = true)
  \/ (exists file lang ext body,
        validated req file lang
        /\ resp = Attachment (download_name_of lang ext) body
        /\ (ext = str ".txt"
            \/ (ext = str ".pdf"
                /\ default (str "pdf") (multidict_get (str "format") (form req))
                   <> str "txt"))).
Proof.
  intros Ht.
  destruct (validated_or_rejected env req w) as [(file & lang & Hv) | (body & Hin & H)].
  2:{ rewrite H in Ht. injection Ht as <- <-. left. eauto. }
  right.
  destruct (translate_validated_cases env req file lang w Hv)
    as [(msg & _ & H) | [(e & _ & _ & H) | [(o & e & w2 & _ & _ & _ & H)
       | (o & reply & r & w1 & _ & _ & _ & Hout & H)]]];
    rewrite H in Ht.
  1-3: injection Ht as <- <-; left; eexists; split; [reflexivity|];
       apply (startswith_app (str "Error") (str ": " ++ _)).
  destruct r as [resp'|e]; injection Ht as <- <-.
  2:{ left. eexists. split; [reflexivity|].
      apply (startswith_app (str "Error") (str ": " ++ _)). }
  unfold output_branch in Hout. case_bool_decide as Hfmt.
  - unfold respond_txt in Hout. cbv zeta in Hout.
    destruct (send_text_file_shapes _ _ _ _ _ _ _ Hout) as [-> | [body ->]].
    + left. eexists. split; [reflexivity|]. vm_compute. reflexivity.
    + right. exists file, lang, (str ".txt"), body. auto.
  - unfold respond_pdf, try_except in Hout.
    destruct (try_pdf env reply lang _) as [[r0|e] w0] eqn:Htry.
    + injection Hout as <- <-.
      destruct (try_pdf_attachment _ _ _ _ _ _ Htry) as (body & -> & _).
      right. exists file, lang, (str ".pdf"), body. auto.
    + unfold bind at 1 in Hout. unfold logging_error at 1 in Hout.
      cbv beta iota zeta in Hout.
      destruct (send_text_file_shapes _ _ _ _ _ _ _ Hout) as [-> | [body ->]].
      * left. eexists. split; [reflexivity|].
        apply (startswith_app (str "Error") (str " creating output file: " ++ _)).
      * right. exists file, lang, (str ".txt"), body. auto.
Qed.

Lemma translate_response_shapes_witness :
  (exists body, body ∈ validation_messages
                /\ Text (str "No file uploaded") 400 = Text body 400
                /\ empty_world = empty_world)
  \/ (exists body, Text (str "No file uploaded") 400 = Text body 500
                   /\ startswith body (str "Error") = true)
  \/ (exists file lang ext body,
        validated (Build_request [] []) file lang
        /\ Text (str "No file uploaded") 400 = Attachment (download_name_of lang ext) body
        /\ (ext = str ".txt"
            \/ (ext = str ".pdf"
                /\ default (str "pdf") (multidict_get (str "format") (form (Build_request [] [])))
                   <> str "txt"))).
Proof.
  apply (translate_response_shapes sample_env (Build_request [] []) empty_world).
  vm_compute. reflexivity.
Defined.
